(** * Hancoin deployment and interaction scripts: a shallow embedding

    The two scripts of the repository, [scripts/deploy_token.py] and
    [scripts/interaction_examples.py], are sequential orchestration code:
    they read the environment and a few JSON files, talk to the Starknet
    SDK, print reports and (for the deploy flow) write one JSON file.

    The embedding keeps that shape.  Module [Py] models the Python
    built-ins the scripts use (exceptions, [int(s, 16)], [hex], true
    division, f-string formatting).  Module [Sdk] models everything the
    scripts cannot see into: the environment, the file system and the
    network client, as an oracle ([World]) that answers each request from
    the history of events so far, together with the monad [M] in which the
    scripts run and which records every observable event.  Modules
    [DeployToken] and [InteractionExamples] are the two source files,
    statement by statement.  The theorems follow the definitions. *)

From Stdlib Require Import ZArith List String Ascii Bool Lia.
From Stdlib Require DecimalString HexadecimalString.
Import ListNotations.
Local Open Scope string_scope.
Local Open Scope Z_scope.
Set Warnings "-register-all".

(* ===================================================================== *)
(** ** Python built-ins *)
(* ===================================================================== *)

Module Py.

(** Exception classes.  The first group is raised by the built-ins the
    scripts call; [OtherException] stands for any further class derived
    from [Exception] (what the SDK raises: client errors, reverted
    transactions, connection errors, ...) and [OtherBaseException] for a
    class derived from [BaseException] only ([KeyboardInterrupt],
    [asyncio.CancelledError], ...). *)
Inductive ExnClass : Type :=
| ValueError
| KeyError
| TypeError
| AttributeError
| OverflowError
| ZeroDivisionError
| FileNotFoundError
| JSONDecodeError
| OtherException (name : string)
| OtherBaseException (name : string).

(** An exception: its class and [str(e)]. *)
Record Exn : Type := mkExn { exn_class : ExnClass; exn_str : string }.

(** [isinstance(e, Exception)]: what [except Exception] catches. *)
Definition is_Exception (e : Exn) : bool :=
  match exn_class e with
  | OtherBaseException _ => false
  | _ => true
  end.

(** [isinstance(e, FileNotFoundError)]. *)
Definition is_FileNotFoundError (e : Exn) : bool :=
  match exn_class e with
  | FileNotFoundError => true
  | _ => false
  end.

(** The result of evaluating an expression: a value or a raised
    exception. *)
Inductive Outcome (A : Type) : Type :=
| Ret (a : A)
| Raise (e : Exn).
Arguments Ret {A} a.
Arguments Raise {A} e.

(** Decoded contract values: the SDK decodes Cairo felts and integers to
    [int], booleans to [bool] and short strings to [str].  Structured
    values (tuples, structs) are not modelled as fields of a reply. *)
Inductive PyVal : Type :=
| VInt (z : Z)
| VBool (b : bool)
| VStr (s : string).

(** JSON documents as [json.load] returns them ([dict] keeps the order of
    the file; a repeated key keeps its last value, see [dict_get]).
    Numbers are integers: the files of the scripts hold addresses and
    ABIs, no fractions. *)
Inductive Json : Type :=
| JNull
| JBool (b : bool)
| JInt (z : Z)
| JStr (s : string)
| JList (l : list Json)
| JDict (l : list (string * Json)).

Definition to_json (v : PyVal) : Json :=
  match v with
  | VInt z => JInt z
  | VBool b => JBool b
  | VStr s => JStr s
  end.

(** *** Strings *)

(** The newline character ([\n] in the source's literals). *)
Definition nl : string := String (ascii_of_nat 10) EmptyString.

Fixpoint repeat_string (s : string) (n : nat) : string :=
  match n with
  | O => EmptyString
  | S n' => s ++ repeat_string s n'
  end.

(** [s * n] for a string [s] (["=" * 50]). *)
Definition str_mul (s : string) (n : Z) : string := repeat_string s (Z.to_nat n).

(** [str(z)] for an [int]. *)
Definition str_int (z : Z) : string :=
  DecimalString.NilZero.string_of_int (Z.to_int z).

(** [hex(z)] for an [int]. *)
Definition hex (z : Z) : string :=
  (if z <? 0 then "-0x" else "0x")
    ++ HexadecimalString.NilZero.string_of_uint (N.to_hex_uint (Z.abs_N z)).

(** [str(b)] for a [bool]. *)
Definition str_bool (b : bool) : string := if b then "True" else "False".

(** Python's truth value of an optional string ([os.getenv]'s result):
    [None] and the empty string are false. *)
Definition truthy (o : option string) : bool :=
  match o with
  | None => false
  | Some EmptyString => false
  | Some _ => true
  end.

(** Thousands separators: a comma before every group of three digits,
    counted from the right.  [group_rev] works on the reversed digits. *)
Fixpoint group_rev (ds : list ascii) (i : nat) : list ascii :=
  match ds with
  | [] => []
  | d :: rest =>
      match i with
      | 3%nat => "," %char :: d :: group_rev rest 1
      | _ => d :: group_rev rest (S i)
      end
  end.

Definition group_thousands (digits : string) : string :=
  string_of_list_ascii (rev (group_rev (rev (list_ascii_of_string digits)) 0)).

(** [format(z, ',')] for an [int]. *)
Definition format_int_comma (z : Z) : string :=
  (if z <? 0 then "-" else "") ++ group_thousands (str_int (Z.abs z)).

(** *** [int(s, 16)] *)

Definition is_space (c : ascii) : bool :=
  let n := nat_of_ascii c in
  ((9 <=? n) && (n <=? 13))%nat || (n =? 32)%nat.

Fixpoint lstrip (l : list ascii) : list ascii :=
  match l with
  | c :: rest => if is_space c then lstrip rest else l
  | [] => []
  end.

Definition strip (l : list ascii) : list ascii := rev (lstrip (rev (lstrip l))).

Definition hex_digit (c : ascii) : option Z :=
  let n := Z.of_nat (nat_of_ascii c) in
  if (48 <=? n) && (n <=? 57) then Some (n - 48)
  else if (97 <=? n) && (n <=? 102) then Some (n - 87)
  else if (65 <=? n) && (n <=? 70) then Some (n - 55)
  else None.

(** The digits after sign and prefix: hexadecimal digits, single
    underscores allowed between two digits.  [prev_digit] tells whether
    the previous character was a digit. *)
Fixpoint hex_digits (l : list ascii) (acc : Z) (prev_digit : bool) : option Z :=
  match l with
  | [] => if prev_digit then Some acc else None
  | c :: rest =>
      if Ascii.eqb c "_"%char then
        if prev_digit then hex_digits rest acc false else None
      else
        match hex_digit c with
        | Some d => hex_digits rest (16 * acc + d) true
        | None => None
        end
  end.

(** The parser of [int(s, 16)] on ASCII text: surrounding whitespace,
    an optional sign, an optional [0x] prefix (one underscore may follow
    it), then the digits.  [None] is Python's [ValueError]. *)
Definition parse_int16 (s : string) : option Z :=
  let l := strip (list_ascii_of_string s) in
  let '(neg, l) :=
    match l with
    | "-"%char :: rest => (true, rest)
    | "+"%char :: rest => (false, rest)
    | _ => (false, l)
    end in
  let l :=
    match l with
    | "0"%char :: "x"%char :: "_"%char :: rest => rest
    | "0"%char :: "X"%char :: "_"%char :: rest => rest
    | "0"%char :: "x"%char :: rest => rest
    | "0"%char :: "X"%char :: rest => rest
    | _ => l
    end in
  match l with
  | [] => None
  | "_"%char :: _ => None
  | _ =>
      match hex_digits l 0 true with
      | Some z => Some (if neg then - z else z)
      | None => None
      end
  end.

(** *** [repr] of a string

    Strings are kept as the bytes of their UTF-8 encoding.  On ASCII
    text [repr] is fixed by the language: single quotes, unless the
    text holds a single quote and no double quote; a backslash before
    the chosen quote and before a backslash; [\t], [\n], [\r]; [\xNN]
    for the other control characters and for DEL. *)
Definition is_ascii (s : string) : bool :=
  forallb (fun c => (nat_of_ascii c <? 128)%nat) (list_ascii_of_string s).

Definition squote : ascii := ascii_of_nat 39.
Definition dquote : ascii := ascii_of_nat 34.
Definition backslash : ascii := ascii_of_nat 92.

Definition contains (c : ascii) (s : string) : bool :=
  existsb (Ascii.eqb c) (list_ascii_of_string s).

Definition hex_nibble (n : nat) : ascii :=
  nth n (list_ascii_of_string "0123456789abcdef") "0"%char.

Definition escaped (c : ascii) : string := String backslash (String c EmptyString).

(** One character of the text inside [repr], for the quote chosen. *)
Definition repr_char (quote c : ascii) : string :=
  let n := nat_of_ascii c in
  if Ascii.eqb c quote || Ascii.eqb c backslash then escaped c
  else if (n =? 9)%nat then escaped "t"
  else if (n =? 10)%nat then escaped "n"
  else if (n =? 13)%nat then escaped "r"
  else if (n <? 32)%nat || (n =? 127)%nat then
    String backslash
      (String "x" (String (hex_nibble (n / 16)) (String (hex_nibble (n mod 16)) EmptyString)))
  else String c EmptyString.

Definition repr_quote (s : string) : ascii :=
  if contains squote s && negb (contains dquote s) then dquote else squote.

(** [repr(s)] for an ASCII text. *)
Definition repr_ascii (s : string) : string :=
  let quote := repr_quote s in
  String quote
    (concat EmptyString (map (repr_char quote) (list_ascii_of_string s))
       ++ String quote EmptyString).

(** What depends on the Unicode database of the interpreter, and is
    asked only about a text that is not ASCII: the ASCII text that [int]
    parses in its place (CPython replaces each character outside ASCII
    that is a decimal digit by its ASCII digit and each one that is
    white space by a space, and stops at the first that is neither),
    [repr] of the text, and the first 200 characters of [repr]. *)
Record Unicode : Type := mkUnicode {
  decimal_and_space_to_ascii : string -> string;
  repr_unicode : string -> string;
  repr200_unicode : string -> string
}.

(** [repr(s)]. *)
Definition repr_str (u : Unicode) (s : string) : string :=
  if is_ascii s then repr_ascii s else repr_unicode u s.

(** [repr(s)] cut after 200 characters (the format [%.200R] of the
    interpreter's message). *)
Definition repr200 (u : Unicode) (s : string) : string :=
  if is_ascii s then substring 0 200 (repr_ascii s) else repr200_unicode u s.

(** The text [int] parses. *)
Definition int_text (u : Unicode) (s : string) : string :=
  if is_ascii s then s else decimal_and_space_to_ascii u s.

(** [int(s, 16)] for a string. *)
Definition int16 (u : Unicode) (s : string) : Outcome Z :=
  match parse_int16 (int_text u s) with
  | Some z => Ret z
  | None =>
      Raise (mkExn ValueError ("invalid literal for int() with base 16: " ++ repr200 u s))
  end.

(** *** Floats

    A [float] arises in the scripts only as the value of [a / b] for two
    [int]s, and only inside an f-string.  Python's true division of
    integers returns the binary64 number nearest to the exact quotient
    (ties to even) and raises [OverflowError] when that is out of range.
    A finite binary64 number is kept as sign, mantissa and exponent: its
    value is [(-1)^f_neg * f_man * 2^f_exp], with [2^52 <= f_man < 2^53]
    for a normal number and [f_exp = -1074] for zero and subnormals. *)
Record float : Type := mkFloat { f_neg : bool; f_man : Z; f_exp : Z }.

(** [n / d] rounded to the nearest integer, ties to even ([0 <= n], [0 < d]). *)
Definition round_half_even (n d : Z) : Z :=
  let q := n / d in
  let r := n mod d in
  if 2 * r <? d then q
  else if d <? 2 * r then q + 1
  else if Z.even q then q else q + 1.

(** [x * 2^k] and [x * 10^k] when [0 <= k], and [x] otherwise: the two
    sides of a fraction scaled by a power of either sign. *)
Definition shl2 (x k : Z) : Z := x * 2 ^ Z.max 0 k.
Definition shl10 (x k : Z) : Z := x * 10 ^ Z.max 0 k.

(** [floor (log2 (p / q))] for [0 < p], [0 < q]. *)
Definition floor_log2 (p q : Z) : Z :=
  let e := Z.log2 p - Z.log2 q in
  if shl2 p (- e) <? shl2 q e then e - 1 else e.

(** The binary64 number nearest to [p / q] ([0 <= p], [0 < q]) as
    mantissa and exponent; [None] when it is beyond the largest finite
    one. *)
Definition nearest_binary64 (p q : Z) : option (Z * Z) :=
  if p =? 0 then Some (0, -1074)
  else
    let e := floor_log2 p q in
    let u := Z.max (e - 52) (-1074) in
    let m := round_half_even (shl2 p (- u)) (shl2 q u) in
    let '(m, u) := if m =? 2 ^ 53 then (2 ^ 52, u + 1) else (m, u) in
    if 971 <? u then None else Some (m, u).

(** [a / b] for two [int]s. *)
Definition true_div (a b : Z) : Outcome float :=
  if b =? 0 then Raise (mkExn ZeroDivisionError "division by zero")
  else
    match nearest_binary64 (Z.abs a) (Z.abs b) with
    | Some (m, u) => Ret (mkFloat (xorb (a <? 0) (b <? 0)) m u)
    | None => Raise (mkExn OverflowError "integer division result too large for a float")
    end.

Fixpoint lpad_zeros (n : nat) (s : string) : string :=
  match n with
  | O => s
  | S n' => "0" ++ lpad_zeros n' s
  end.

(** [format(x, '.<prec>f')] and, with [comma], [format(x, ',.<prec>f')]:
    the exact value rounded to [prec] decimals, ties to even. *)
Definition format_f (comma : bool) (prec : nat) (x : float) : string :=
  let n := round_half_even (shl10 (shl2 (f_man x) (f_exp x)) (Z.of_nat prec))
                           (shl2 1 (- f_exp x)) in
  let ds := str_int n in
  let ds := lpad_zeros (S prec - String.length ds) ds in
  let cut := (String.length ds - prec)%nat in
  let int_part := substring 0 cut ds in
  let frac_part := substring cut prec ds in
  (if f_neg x then "-" else "")
    ++ (if comma then group_thousands int_part else int_part)
    ++ (match prec with O => "" | _ => "." ++ frac_part end).

(** [floor (log10 (p / q))] for [0 < p], [0 < q]: an estimate from the
    binary logarithms, then corrected by comparison. *)
Definition le_pow10 (d p q : Z) : bool := shl10 q d <=? shl10 p (- d).

Definition floor_log10 (p q : Z) : Z :=
  let d := (Z.log2 p - Z.log2 q) * 30103 / 100000 in
  let d := if le_pow10 d p q then d else d - 1 in
  let d := if le_pow10 d p q then d else d - 1 in
  let d := if le_pow10 (d + 1) p q then d + 1 else d in
  let d := if le_pow10 (d + 1) p q then d + 1 else d in
  d.

(** [repr] prints the shortest decimal that reads back as the same
    float.  [shortest_digits] tries 1, 2, ... 17 significant digits: with
    [n] digits the candidates are the two [n]-digit decimals around the
    value; of those that read back as [(m, u)] the nearer one is taken.
    The result [(c, k)] stands for [c * 10^k]. *)
Fixpoint shortest_digits (fuel : nat) (n : Z) (m u d10 : Z) : Z * Z :=
  let num := shl2 m u in
  let den := shl2 1 (- u) in
  let k := d10 - n + 1 in
  let lo := shl10 num (- k) / shl10 den k in
  let hi := lo + 1 in
  let reads_back c :=
    match nearest_binary64 (shl10 c k) (shl10 1 (- k)) with
    | Some (m', u') => (m' =? m) && (u' =? u)
    | None => false
    end in
  let twice := 2 * shl10 num (- k) in
  let mid := (lo + hi) * shl10 den k in
  let lo_nearer := (twice <? mid) || ((twice =? mid) && Z.even lo) in
  match fuel with
  | O => (if lo_nearer then lo else hi, k)
  | S fuel' =>
      match reads_back lo, reads_back hi with
      | true, true => (if lo_nearer then lo else hi, k)
      | true, false => (lo, k)
      | false, true => (hi, k)
      | false, false => shortest_digits fuel' (n + 1) m u d10
      end
  end.

Fixpoint strip_zeros (fuel : nat) (c k : Z) : Z * Z :=
  match fuel with
  | O => (c, k)
  | S fuel' => if (c mod 10 =? 0) && negb (c =? 0) then strip_zeros fuel' (c / 10) (k + 1) else (c, k)
  end.

(** [repr(x)], which is also [str(x)] and what an f-string field without
    a format specification prints: positional notation when the decimal
    point falls within [-4 < decpt <= 16], exponent notation otherwise. *)
Definition repr_float (x : float) : string :=
  let sign := if f_neg x then "-" else "" in
  if f_man x =? 0 then sign ++ "0.0"
  else
    let m := f_man x in
    let u := f_exp x in
    let d10 := floor_log10 (shl2 m u) (shl2 1 (- u)) in
    let '(c, k) := shortest_digits 16 1 m u d10 in
    let '(c, k) := strip_zeros 20 c k in
    let ds := str_int c in
    let nd := Z.of_nat (String.length ds) in
    let decpt := nd + k in
    if (decpt <=? -4) || (16 <? decpt) then
      let e := decpt - 1 in
      let es := str_int (Z.abs e) in
      sign ++ substring 0 1 ds
        ++ (if nd =? 1 then "" else "." ++ substring 1 (String.length ds - 1) ds)
        ++ "e" ++ (if e <? 0 then "-" else "+")
        ++ lpad_zeros (2 - String.length es) es
    else if decpt <=? 0 then
      sign ++ "0." ++ repeat_string "0" (Z.to_nat (- decpt)) ++ ds
    else if nd <=? decpt then
      sign ++ ds ++ repeat_string "0" (Z.to_nat (decpt - nd)) ++ ".0"
    else
      sign ++ substring 0 (Z.to_nat decpt) ds ++ "."
        ++ substring (Z.to_nat decpt) (Z.to_nat (nd - decpt)) ds.

End Py.

(* ===================================================================== *)
(** ** The SDK, the environment and the effects of a script *)
(* ===================================================================== *)

Module Sdk.
Import Py.

(** [StarknetChainId]. *)
Inductive StarknetChainId : Type := TESTNET | MAINNET.

(** [FullNodeClient(node_url=...)]: building one does no network I/O. *)
Record FullNodeClient : Type := mkClient { node_url : string }.

(** The attributes of an [Account] that was built (see [new_account]).
    The address is the value of [os.getenv], an optional string; the key
    pair is kept as the private key it is derived from. *)
Record Account : Type := mkAccount {
  address : option string;
  client : FullNodeClient;
  key_pair : Z;
  chain : StarknetChainId
}.

(** A [Contract] binding: the address it is bound to and the names of
    the functions its ABI declares (the keys of [contract.functions]). *)
Record Contract : Type := mkContract {
  contract_address : Z;
  functions : list string
}.

(** The decoded result of a [call]: named fields. *)
Definition Reply : Type := list (string * PyVal).

(** The handle an [invoke_v1] returns. *)
Record SentTransaction : Type := mkSent { tx_hash : Z }.

(** The arguments of [Contract.deploy_contract]. *)
Record DeployArgs : Type := mkDeployArgs {
  account : Account;
  class_hash : option Z;
  abi : Json;
  constructor_args : list Json;
  cairo_version : Z
}.

(** The handle [Contract.deploy_contract] returns. *)
Record DeployResult : Type := mkDeployResult {
  hash : Z;
  block_number : option Z;
  deployed_contract : Contract
}.

(** What a script does that the outside can observe, in order.  A
    request to the SDK is recorded with its answer. *)
Inductive Event : Type :=
| EPrint (line : string)
| EDump (path : string) (doc : Json)
| EDeploy (args : DeployArgs) (res : Outcome DeployResult)
| EFromAddress (addr : Json) (cl : FullNodeClient) (res : Outcome Contract)
| ECall (addr : Z) (fn : string) (args : list Json) (res : Outcome Reply)
| EInvoke (addr : Z) (fn : string) (args : list Json) (max_fee : Z) (res : Outcome SentTransaction)
| EWait (tx : Z) (res : Outcome unit).

Definition Trace : Type := list Event.

(** The collaborators of a script.  The environment and the file system
    do not change during a run; a file is absent ([None]), or it is
    there and opening it and reading it as JSON gives a document or
    raises (a [JSONDecodeError], an [OSError], ...).  [unicode] is the
    Unicode database of the interpreter.  The two constructors of the
    SDK that the scripts call, [KeyPair.from_private_key] and
    [Account], send nothing and may refuse their arguments:
    [sdk_key_pair_error] and [sdk_account_error] give the exception
    they raise, if any.  The SDK answers a request knowing the whole
    history of the run, so any deterministic test double is a [World].
    [show_reply] is the SDK's [str] of a call result. *)
Record World : Type := mkWorld {
  environ : string -> option string;
  files : string -> option (Outcome Json);
  unicode : Unicode;
  sdk_key_pair_error : Z -> option Exn;
  sdk_account_error : option string -> FullNodeClient -> Z -> StarknetChainId -> option Exn;
  sdk_deploy_contract : Trace -> DeployArgs -> Outcome DeployResult;
  sdk_from_address : Trace -> Json -> FullNodeClient -> Outcome Contract;
  sdk_call : Trace -> Z -> string -> list Json -> Outcome Reply;
  sdk_invoke : Trace -> Z -> string -> list Json -> Z -> Outcome SentTransaction;
  sdk_wait_for_acceptance : Trace -> Z -> Outcome unit;
  show_reply : Reply -> string
}.

(** A computation of a script: given the world and the events so far,
    the events it adds and its outcome. *)
Definition M (A : Type) : Type := World -> Trace -> Trace * Outcome A.

Definition ret {A} (a : A) : M A := fun _ _ => ([], Ret a).

Definition raise {A} (e : Exn) : M A := fun _ _ => ([], Raise e).

Definition bind {A B} (m : M A) (k : A -> M B) : M B :=
  fun w h =>
    match m w h with
    | (t1, Ret a) => let '(t2, o) := k a w (h ++ t1)%list in ((t1 ++ t2)%list, o)
    | (t1, Raise e) => (t1, Raise e)
    end.

(** [try: m except <catches> as e: handler e]. *)
Definition try_except {A} (m : M A) (catches : Exn -> bool) (handler : Exn -> M A) : M A :=
  fun w h =>
    match m w h with
    | (t1, Ret a) => (t1, Ret a)
    | (t1, Raise e) =>
        if catches e then let '(t2, o) := handler e w (h ++ t1)%list in ((t1 ++ t2)%list, o)
        else (t1, Raise e)
    end.

(** A pure expression that may raise. *)
Definition lift {A} (o : Outcome A) : M A := fun _ _ => ([], o).

Definition print (line : string) : M unit := fun _ _ => ([EPrint line], Ret tt).

(** [os.getenv(key)] and [os.getenv(key, default)]. *)
Definition getenv (key : string) : M (option string) :=
  fun w _ => ([], Ret (environ w key)).

Definition getenv_default (key default : string) : M string :=
  fun w _ => ([], Ret (match environ w key with Some v => v | None => default end)).

(** [os.path.exists(path)]. *)
Definition path_exists (path : string) : M bool :=
  fun w _ => ([], Ret (match files w path with Some _ => true | None => false end)).

(** [with open(path, 'r') as f: json.load(f)]. *)
Definition load_json (path : string) : M Json :=
  fun w _ =>
    ([], match files w path with
         | None => Raise (mkExn FileNotFoundError
                            ("[Errno 2] No such file or directory: " ++ repr_ascii path))
         | Some loaded => loaded
         end).

(** The Unicode database of the interpreter. *)
Definition interpreter : M Unicode := fun w _ => ([], Ret (unicode w)).

(** [KeyPair.from_private_key(key)]: the key pair is kept as the
    private key it is derived from. *)
Definition from_private_key (key : Z) : M Z :=
  fun w _ =>
    ([], match sdk_key_pair_error w key with
         | Some e => Raise e
         | None => Ret key
         end).

(** [Account(address=..., client=..., key_pair=..., chain=...)]. *)
Definition new_account (address : option string) (client : FullNodeClient) (key_pair : Z)
    (chain : StarknetChainId) : M Account :=
  fun w _ =>
    ([], match sdk_account_error w address client key_pair chain with
         | Some e => Raise e
         | None => Ret (mkAccount address client key_pair chain)
         end).

(** [with open(path, 'w') as f: json.dump(doc, f, indent=2)]. *)
Definition dump_json (path : string) (doc : Json) : M unit :=
  fun _ _ => ([EDump path doc], Ret tt).

Definition deploy_contract (args : DeployArgs) : M DeployResult :=
  fun w h => let r := sdk_deploy_contract w h args in ([EDeploy args r], r).

Definition from_address (addr : Json) (cl : FullNodeClient) : M Contract :=
  fun w h => let r := sdk_from_address w h addr cl in ([EFromAddress addr cl r], r).

Definition wait_for_acceptance (tx : Z) : M unit :=
  fun w h => let r := sdk_wait_for_acceptance w h tx in ([EWait tx r], r).

(** [contract.functions[name]]: a [KeyError] when the ABI has no such
    function, before anything is sent.  The names are the ASCII literals
    of the scripts. *)
Definition functions_getitem (c : Contract) (name : string) : Outcome unit :=
  if existsb (String.eqb name) (functions c) then Ret tt
  else Raise (mkExn KeyError (repr_ascii name)).

(** [await contract.functions[name].call(args...)]. *)
Definition call (c : Contract) (name : string) (args : list Json) : M Reply :=
  fun w h =>
    match functions_getitem c name with
    | Raise e => ([], Raise e)
    | Ret _ =>
        let r := sdk_call w h (contract_address c) name args in
        ([ECall (contract_address c) name args r], r)
    end.

(** [await contract.functions[name].invoke_v1(args..., max_fee=max_fee)]. *)
Definition invoke_v1 (c : Contract) (name : string) (args : list Json) (max_fee : Z)
  : M SentTransaction :=
  fun w h =>
    match functions_getitem c name with
    | Raise e => ([], Raise e)
    | Ret _ =>
        let r := sdk_invoke w h (contract_address c) name args max_fee in
        ([EInvoke (contract_address c) name args max_fee r], r)
    end.

(** [str(result)] of a call result, as the SDK prints it. *)
Definition str_reply (r : Reply) : M string := fun w _ => ([], Ret (show_reply w r)).

Declare Scope script_scope.
Delimit Scope script_scope with script.
Notation "x <- m ;; k" := (bind m (fun x => k))
  (at level 61, m at next level, right associativity) : script_scope.
Notation "m ;; k" := (bind m (fun _ => k))
  (at level 61, right associativity) : script_scope.

(** *** Expressions on optional strings, JSON values and replies *)

(** [str(x)] for the value of [os.getenv]. *)
Definition str_opt (o : option string) : string :=
  match o with Some s => s | None => "None" end.

(** The value of [os.getenv] as a call argument or a JSON field. *)
Definition opt_json (o : option string) : Json :=
  match o with Some s => JStr s | None => JNull end.

(** [int(x, 16)] for the value of [os.getenv]. *)
Definition int16_opt (u : Unicode) (o : option string) : Outcome Z :=
  match o with
  | Some s => int16 u s
  | None => Raise (mkExn TypeError "int() can't convert non-string with explicit base")
  end.

(** The last binding of [key]: [json.load] keeps the last of repeated keys. *)
Fixpoint dict_get (l : list (string * Json)) (key : string) : option Json :=
  match l with
  | [] => None
  | (k, v) :: rest =>
      match dict_get rest key with
      | Some v' => Some v'
      | None => if String.eqb k key then Some v else None
      end
  end.

(** [doc[key]] for a string key; the keys are the ASCII literals of the
    scripts. *)
Definition getitem (doc : Json) (key : string) : Outcome Json :=
  match doc with
  | JDict l =>
      match dict_get l key with
      | Some v => Ret v
      | None => Raise (mkExn KeyError (repr_ascii key))
      end
  | JList _ => Raise (mkExn TypeError "list indices must be integers or slices, not str")
  | JStr _ => Raise (mkExn TypeError "string indices must be integers, not 'str'")
  | JNull => Raise (mkExn TypeError "'NoneType' object is not subscriptable")
  | JBool _ => Raise (mkExn TypeError "'bool' object is not subscriptable")
  | JInt _ => Raise (mkExn TypeError "'int' object is not subscriptable")
  end.

(** [reply.<name>]. *)
Fixpoint getattr (r : Reply) (name : string) : Outcome PyVal :=
  match r with
  | [] => Raise (mkExn AttributeError ("object has no attribute '" ++ name ++ "'"))
  | (k, v) :: rest => if String.eqb k name then Ret v else getattr rest name
  end.

(** [str(v)]: an f-string field without a format specification. *)
Definition str_val (v : PyVal) : string :=
  match v with
  | VInt z => str_int z
  | VBool b => str_bool b
  | VStr s => s
  end.

(** [hex(v)]. *)
Definition hex_val (v : PyVal) : Outcome string :=
  match v with
  | VInt z => Ret (hex z)
  | VBool b => Ret (hex (if b then 1 else 0))
  | VStr _ => Raise (mkExn TypeError "'str' object cannot be interpreted as an integer")
  end.

(** [f"{v:,}"]. *)
Definition format_comma (v : PyVal) : Outcome string :=
  match v with
  | VInt z => Ret (format_int_comma z)
  | VBool b => Ret (format_int_comma (if b then 1 else 0))
  | VStr _ => Raise (mkExn ValueError "Cannot specify ',' with 's'.")
  end.

(** [v / scale] for an [int] scale. *)
Definition div_val (v : PyVal) (scale : Z) : Outcome float :=
  match v with
  | VInt z => true_div z scale
  | VBool b => true_div (if b then 1 else 0) scale
  | VStr _ => Raise (mkExn TypeError "unsupported operand type(s) for /: 'str' and 'int'")
  end.

(** The three ways the scripts display a scaled amount:
    [f"{v / scale}"], [f"{v / scale:,.0f}"] and [f"{v / scale:,.2f}"]. *)
Inductive Display : Type := Plain | Comma0f | Comma2f.

Definition format_float (d : Display) (x : float) : string :=
  match d with
  | Plain => repr_float x
  | Comma0f => format_f true 0 x
  | Comma2f => format_f true 2 x
  end.

Definition display (d : Display) (v : PyVal) (scale : Z) : Outcome string :=
  match div_val v scale with
  | Ret x => Ret (format_float d x)
  | Raise e => Raise e
  end.

(** [v != 0]. *)
Definition ne_zero (v : PyVal) : bool :=
  match v with
  | VInt z => negb (z =? 0)
  | VBool b => b
  | VStr _ => true
  end.

(** How the interpreter ends a script whose top level is
    [asyncio.run(f())]: status 0 when [f] returns, a traceback and
    status 1 when an exception leaves it. *)
Definition exit_status {A} (o : Outcome A) : Z :=
  match o with
  | Ret _ => 0
  | Raise _ => 1
  end.

End Sdk.

(* ===================================================================== *)
(** ** [scripts/deploy_token.py] *)
(* ===================================================================== *)

Module DeployToken.
Import Py Sdk.
Local Open Scope script_scope.

Definition NETWORK_URL : list (string * string) :=
  [ ("testnet", "https://alpha4.starknet.io");
    ("mainnet", "https://alpha-mainnet.starknet.io") ].

(** [NETWORK_URL[network]]. *)
Fixpoint table_getitem (u : Unicode) (table : list (string * string)) (key : string)
  : Outcome string :=
  match table with
  | [] => Raise (mkExn KeyError (repr_str u key))
  | (k, v) :: rest => if String.eqb k key then Ret v else table_getitem u rest key
  end.

(** [int(1e17)], the fee bound of every invocation. *)
Definition max_fee_1e17 : Z := 100000000000000000.

Definition class_file : string :=
  "target/dev/homebase_starknet_HancoinToken.contract_class.json".

(** One field of a reply, printed plainly, in hexadecimal, or scaled. *)
Definition field (r : Reply) (name : string) : Outcome string :=
  match getattr r name with
  | Ret v => Ret (str_val v)
  | Raise e => Raise e
  end.

Definition field_hex (r : Reply) (name : string) : Outcome string :=
  match getattr r name with
  | Ret v => hex_val v
  | Raise e => Raise e
  end.

Definition field_scaled (d : Display) (r : Reply) (name : string) (scale : Z) : Outcome string :=
  match getattr r name with
  | Ret v => display d v scale
  | Raise e => Raise e
  end.

Definition json_opt_int (o : option Z) : Json :=
  match o with Some z => JInt z | None => JNull end.

(** Lines 36-46: the client, the key pair, the chain and the account. *)
Definition build_session (network : string) (account_address private_key : option string)
  : M Account :=
  u <- interpreter ;;
  url <- lift (table_getitem u NETWORK_URL network) ;;
  let client := mkClient url in
  key <- lift (int16_opt u private_key) ;;
  key_pair <- from_private_key key ;;
  let chain_id := if String.eqb network "testnet" then TESTNET else MAINNET in
  new_account account_address client key_pair chain_id.

(** Lines 56-132: from the deployment to the returned pair. *)
Definition deploy_and_report (network : string) (account_address : option string)
    (account : Account) (contract_class : Json) : M (Z * Contract) :=
  print "📦 Deploying contract..." ;;
  abi <- lift (getitem contract_class "abi") ;;
  deploy_result <- deploy_contract
    {| account := account;
       class_hash := None;
       abi := abi;
       constructor_args := [opt_json account_address];
       cairo_version := 1 |} ;;
  print "⏳ Waiting for deployment confirmation..." ;;
  wait_for_acceptance (hash deploy_result) ;;
  let contract_address := contract_address (deployed_contract deploy_result) in
  print "✅ Hancoin Token deployed successfully!" ;;
  print ("Contract address: " ++ hex contract_address) ;;
  print (nl ++ "🔍 Verifying deployment...") ;;
  let contract := deployed_contract deploy_result in
  name <- call contract "name" [] ;;
  symbol <- call contract "symbol" [] ;;
  decimals <- call contract "decimals" [] ;;
  total_supply <- call contract "total_supply" [] ;;
  owner_balance <- call contract "balance_of" [opt_json account_address] ;;
  s <- lift (field name "name") ;;
  print ("Token Name: " ++ s) ;;
  s <- lift (field symbol "symbol") ;;
  print ("Token Symbol: " ++ s) ;;
  s <- lift (field decimals "decimals") ;;
  print ("Decimals: " ++ s) ;;
  s <- lift (field_scaled Comma0f total_supply "total_supply" (10 ^ 18)) ;;
  print ("Total Supply: " ++ s ++ " HNXZ") ;;
  s <- lift (field_scaled Comma0f owner_balance "balance" (10 ^ 18)) ;;
  print ("Owner Balance: " ++ s ++ " HNXZ") ;;
  paymaster_enabled <- call contract "is_paymaster_enabled" [] ;;
  gas_fee_rate <- call contract "get_gas_fee_rate" [] ;;
  s <- lift (field paymaster_enabled "result") ;;
  print ("Paymaster Enabled: " ++ s) ;;
  s <- lift (field gas_fee_rate "result") ;;
  print ("Gas Fee Rate: " ++ s ++ " wei per gas unit") ;;
  i_name <- lift (getattr name "name") ;;
  i_symbol <- lift (getattr symbol "symbol") ;;
  i_decimals <- lift (getattr decimals "decimals") ;;
  i_total <- lift (field total_supply "total_supply") ;;
  i_formatted <- lift (field_scaled Comma0f total_supply "total_supply" (10 ^ 18)) ;;
  let deployment_info :=
    JDict [ ("network", JStr network);
            ("contract_address", JStr (hex contract_address));
            ("deployer", opt_json account_address);
            ("transaction_hash", JStr (hex (hash deploy_result)));
            ("block_number", json_opt_int (block_number deploy_result));
            ("token_info",
              JDict [ ("name", to_json i_name);
                      ("symbol", to_json i_symbol);
                      ("decimals", to_json i_decimals);
                      ("total_supply", JStr i_total);
                      ("formatted_supply", JStr i_formatted) ]) ] in
  dump_json "token_deployment.json" deployment_info ;;
  print (nl ++ "💾 Deployment info saved to token_deployment.json") ;;
  print (nl ++ "📋 Example interactions:") ;;
  print "# Check balance:" ;;
  print ("starkli call " ++ hex contract_address ++ " balance_of <address>") ;;
  print (nl ++ "# Transfer tokens:") ;;
  print ("starkli invoke " ++ hex contract_address ++ " transfer <to_address> <amount>") ;;
  print (nl ++ "# Mint tokens (owner only):") ;;
  print ("starkli invoke " ++ hex contract_address ++ " mint <to_address> <amount>") ;;
  print (nl ++ "# Set paymaster:") ;;
  print ("starkli invoke " ++ hex contract_address ++ " set_paymaster <paymaster_address> 1") ;;
  ret (contract_address, contract).

(** Lines 30-132: [deploy_token] once the three variables are read.
    [None] is the bare [return] after the missing class file. *)
Definition deploy_with (network : string) (account_address private_key : option string)
  : M (option (Z * Contract)) :=
  if negb (truthy account_address) || negb (truthy private_key) then
    raise (mkExn ValueError "ACCOUNT_ADDRESS and PRIVATE_KEY must be set in environment")
  else
    print ("🚀 Deploying Hancoin Token to " ++ network ++ "...") ;;
    print ("Account: " ++ str_opt account_address) ;;
    account <- build_session network account_address private_key ;;
    loaded <- try_except
      (contract_class <- load_json class_file ;; ret (Some contract_class))
      is_FileNotFoundError
      (fun _ =>
         print "❌ Contract class file not found. Please run 'scarb build' first." ;;
         ret None) ;;
    match loaded with
    | None => ret None
    | Some contract_class =>
        r <- deploy_and_report network account_address account contract_class ;;
        ret (Some r)
    end.

(** [deploy_token()]. *)
Definition deploy_token : M (option (Z * Contract)) :=
  network <- getenv_default "NETWORK" "testnet" ;;
  account_address <- getenv "ACCOUNT_ADDRESS" ;;
  private_key <- getenv "PRIVATE_KEY" ;;
  deploy_with network account_address private_key.

Definition test_recipient : string :=
  "0x1234567890123456789012345678901234567890123456789012345678901234".

(** [test_token_functions(contract_address, account)]. *)
Definition test_token_functions (contract_address : Z) (account : Account) : M unit :=
  print (nl ++ "🧪 Testing token functions...") ;;
  let client := client account in
  contract <- from_address (JInt contract_address) client ;;
  let mint_amount := 1000 * 10 ^ 18 in
  s <- lift (display Plain (VInt mint_amount) (10 ^ 18)) ;;
  print ("Minting " ++ s ++ " HNXZ to test recipient...") ;;
  mint_call <- invoke_v1 contract "mint" [JStr test_recipient; JInt mint_amount] max_fee_1e17 ;;
  wait_for_acceptance (tx_hash mint_call) ;;
  print "✅ Mint transaction confirmed" ;;
  recipient_balance <- call contract "balance_of" [JStr test_recipient] ;;
  s <- lift (field_scaled Plain recipient_balance "balance" (10 ^ 18)) ;;
  print ("Test recipient balance: " ++ s ++ " HNXZ") ;;
  let new_gas_rate := 2000000000000000 in
  print ("Setting new gas fee rate: " ++ str_int new_gas_rate) ;;
  gas_rate_call <- invoke_v1 contract "set_gas_fee_rate" [JInt new_gas_rate] max_fee_1e17 ;;
  wait_for_acceptance (tx_hash gas_rate_call) ;;
  print "✅ Gas fee rate updated" ;;
  updated_rate <- call contract "get_gas_fee_rate" [] ;;
  s <- lift (field updated_rate "result") ;;
  print ("New gas fee rate: " ++ s).

End DeployToken.

(* ===================================================================== *)
(** ** [scripts/interaction_examples.py] *)
(* ===================================================================== *)

Module InteractionExamples.
Import Py Sdk.
Local Open Scope script_scope.

(** The fee bound and the field printers are those of the deploy script:
    both files write [max_fee=int(1e17)] and the same f-string fields. *)
Definition max_fee_1e17 : Z := DeployToken.max_fee_1e17.
Definition field := DeployToken.field.
Definition field_hex := DeployToken.field_hex.
Definition field_scaled := DeployToken.field_scaled.

Definition address_book : string := "deployment_addresses.json".

(** The attributes [__init__] sets on [self]. *)
Record HomebaseInteraction : Type := mkSelf {
  network : string;
  account_address : option string;
  private_key : option string;
  addresses : Json;
  self_client : FullNodeClient;
  self_account : Account
}.

(** The attributes [setup_contracts] adds to [self]. *)
Record Contracts : Type := mkContracts {
  token_contract : Contract;
  loan_contract : Contract;
  escrow_contract : Contract;
  swap_contract : Contract;
  credit_card_contract : Contract
}.

(** [HomebaseInteraction.__init__]. *)
Definition init : M HomebaseInteraction :=
  network <- getenv_default "NETWORK" "testnet" ;;
  account_address <- getenv "ACCOUNT_ADDRESS" ;;
  private_key <- getenv "PRIVATE_KEY" ;;
  addresses <- load_json address_book ;;
  let client :=
    mkClient (if String.eqb network "testnet" then "https://alpha4.starknet.io"
              else "https://alpha-mainnet.starknet.io") in
  u <- interpreter ;;
  key <- lift (int16_opt u private_key) ;;
  key_pair <- from_private_key key ;;
  let chain_id := if String.eqb network "testnet" then TESTNET else MAINNET in
  account <- new_account account_address client key_pair chain_id ;;
  ret (mkSelf network account_address private_key addresses client account).

(** [self.addresses['contracts'][name]]. *)
Definition contract_entry (self : HomebaseInteraction) (name : string) : Outcome Json :=
  match getitem (addresses self) "contracts" with
  | Ret book => getitem book name
  | Raise e => Raise e
  end.

(** [Contract.from_address(self.addresses['contracts'][name], self.client)]. *)
Definition bind_contract (self : HomebaseInteraction) (name : string) : M Contract :=
  addr <- lift (contract_entry self name) ;;
  from_address addr (self_client self).

(** [setup_contracts]. *)
Definition setup_contracts (self : HomebaseInteraction) : M Contracts :=
  token_contract <- bind_contract self "hancoin_token" ;;
  loan_contract <- bind_contract self "loan_contract" ;;
  escrow_contract <- bind_contract self "escrow_contract" ;;
  swap_contract <- bind_contract self "swap_contract" ;;
  credit_card_contract <- bind_contract self "credit_card_simulator" ;;
  print "‚úÖ All contracts loaded successfully" ;;
  ret (mkContracts token_contract loan_contract escrow_contract swap_contract
         credit_card_contract).

Definition test_recipient : string :=
  "0x1234567890123456789012345678901234567890123456789012345678901234".

Definition transfer_amount : Z := 1000 * 10 ^ 18.

(** [token_interactions]. *)
Definition token_interactions (self : HomebaseInteraction) (c : Contracts) : M unit :=
  print (nl ++ "ü™ô === TOKEN CONTRACT INTERACTIONS ===") ;;
  name <- call (token_contract c) "name" [] ;;
  symbol <- call (token_contract c) "symbol" [] ;;
  total_supply <- call (token_contract c) "total_supply" [] ;;
  formatted_supply <- call (token_contract c) "total_supply_formatted" [] ;;
  s1 <- lift (field name "name") ;;
  s2 <- lift (field symbol "symbol") ;;
  print ("Token: " ++ s1 ++ " (" ++ s2 ++ ")") ;;
  v <- lift (getattr formatted_supply "result") ;;
  s <- lift (format_comma v) ;;
  print ("Total Supply: " ++ s ++ " HNXZ") ;;
  owner_balance <- call (token_contract c) "balance_of" [opt_json (account_address self)] ;;
  s <- lift (field_scaled Comma2f owner_balance "balance" (10 ^ 18)) ;;
  print ("Owner Balance: " ++ s ++ " HNXZ") ;;
  paymaster_enabled <- call (token_contract c) "is_paymaster_enabled" [] ;;
  gas_fee_rate <- call (token_contract c) "get_gas_fee_rate" [] ;;
  s <- lift (field paymaster_enabled "result") ;;
  print ("Paymaster Enabled: " ++ s) ;;
  s <- lift (field gas_fee_rate "result") ;;
  print ("Gas Fee Rate: " ++ s ++ " wei per gas unit") ;;
  s <- lift (display Plain (VInt transfer_amount) (10 ^ 18)) ;;
  print ((nl ++ "üí∏ Transferring ") ++ s ++ " HNXZ to test address...") ;;
  transfer_call <- invoke_v1 (token_contract c) "transfer"
                     [JStr test_recipient; JInt transfer_amount] max_fee_1e17 ;;
  wait_for_acceptance (tx_hash transfer_call) ;;
  print "‚úÖ Transfer completed" ;;
  recipient_balance <- call (token_contract c) "balance_of" [JStr test_recipient] ;;
  s <- lift (field_scaled Plain recipient_balance "balance" (10 ^ 18)) ;;
  print ("Recipient Balance: " ++ s ++ " HNXZ").

Definition loan_amount : Z := 5000 * 10 ^ 18.
Definition duration : Z := 86400 * 90.
Definition collateral_amount : Z := 7500 * 10 ^ 18.

(** The [try] block of [loan_interactions] (lines 147-156). *)
Definition loan_readback (c : Contracts) : M unit :=
  loan_details <- call (loan_contract c) "get_loan" [JInt 1] ;;
  print (nl ++ "üìä Loan Details (ID: 1):") ;;
  s <- lift (field_hex loan_details "borrower") ;;
  print ("Borrower: " ++ s) ;;
  s <- lift (field_scaled Plain loan_details "loan_amount" (10 ^ 18)) ;;
  print ("Amount: " ++ s ++ " HNXZ") ;;
  s <- lift (field_scaled Plain loan_details "collateral_amount" (10 ^ 18)) ;;
  print ("Collateral: " ++ s ++ " HNXZ") ;;
  s <- lift (field loan_details "status") ;;
  print ("Status: " ++ s) ;;
  total_due <- call (loan_contract c) "calculate_total_due" [JInt 1] ;;
  s <- lift (field_scaled Plain total_due "result" (10 ^ 18)) ;;
  print ("Total Due: " ++ s ++ " HNXZ").

(** [loan_interactions]. *)
Definition loan_interactions (self : HomebaseInteraction) (c : Contracts) : M unit :=
  print (nl ++ "üè¶ === LOAN CONTRACT INTERACTIONS ===") ;;
  total_issued <- call (loan_contract c) "get_total_loans_issued" [] ;;
  total_repaid <- call (loan_contract c) "get_total_amount_repaid" [] ;;
  collateral_ratio <- call (loan_contract c) "get_collateral_ratio" [] ;;
  s <- lift (field_scaled Comma2f total_issued "result" (10 ^ 18)) ;;
  print ("Total Loans Issued: " ++ s ++ " HNXZ") ;;
  s <- lift (field_scaled Comma2f total_repaid "result" (10 ^ 18)) ;;
  print ("Total Amount Repaid: " ++ s ++ " HNXZ") ;;
  s <- lift (field_scaled Plain collateral_ratio "result" 100) ;;
  print ("Required Collateral Ratio: " ++ s ++ "%") ;;
  s <- lift (display Plain (VInt loan_amount) (10 ^ 18)) ;;
  print ((nl ++ "üìã Requesting loan: ") ++ s ++ " HNXZ for " ++ str_int (duration / 86400) ++ " days") ;;
  s <- lift (display Plain (VInt collateral_amount) (10 ^ 18)) ;;
  print ("Collateral: " ++ s ++ " HNXZ") ;;
  loan_request <- invoke_v1 (loan_contract c) "request_loan"
                    [JInt loan_amount; JInt duration; JInt collateral_amount] max_fee_1e17 ;;
  wait_for_acceptance (tx_hash loan_request) ;;
  print "‚úÖ Loan requested successfully" ;;
  try_except (loan_readback c) is_Exception
    (fun e => print ("No existing loans found: " ++ exn_str e)).

(** [int.from_bytes(s, 'big')] for a byte string. *)
Definition int_from_bytes_big (s : string) : Z :=
  fold_left (fun acc ch => 256 * acc + Z.of_nat (nat_of_ascii ch)) (list_ascii_of_string s) 0.

Definition seller_address : string :=
  "0x5678901234567890123456789012345678901234567890123456789012345678".
Definition escrow_amount : Z := 25000 * 10 ^ 18.
Definition property_id : Z := int_from_bytes_big "PROP001".
Definition timeout_duration : Z := 86400 * 30.

(** The [try] block of [escrow_interactions] (lines 199-206). *)
Definition escrow_readback (c : Contracts) : M unit :=
  escrow_status <- call (escrow_contract c) "get_escrow_status" [JInt 1] ;;
  escrow_order <- call (escrow_contract c) "get_escrow_order" [JInt 1] ;;
  print (nl ++ "üìä Escrow Order Details (ID: 1):") ;;
  s <- lift (field_hex escrow_order "buyer") ;;
  print ("Buyer: " ++ s) ;;
  s <- lift (field_hex escrow_order "seller") ;;
  print ("Seller: " ++ s) ;;
  s <- lift (field_scaled Plain escrow_order "amount" (10 ^ 18)) ;;
  print ("Amount: " ++ s ++ " HNXZ") ;;
  s <- str_reply escrow_status ;;
  print ("Status: " ++ s).

(** [escrow_interactions]. *)
Definition escrow_interactions (self : HomebaseInteraction) (c : Contracts) : M unit :=
  print (nl ++ "üîí === ESCROW CONTRACT INTERACTIONS ===") ;;
  total_escrowed <- call (escrow_contract c) "get_total_escrowed" [] ;;
  total_fees <- call (escrow_contract c) "get_total_fees_collected" [] ;;
  fee_rate <- call (escrow_contract c) "get_escrow_fee_rate" [] ;;
  s <- lift (field_scaled Comma2f total_escrowed "result" (10 ^ 18)) ;;
  print ("Total Escrowed: " ++ s ++ " HNXZ") ;;
  s <- lift (field_scaled Comma2f total_fees "result" (10 ^ 18)) ;;
  print ("Total Fees Collected: " ++ s ++ " HNXZ") ;;
  s <- lift (field_scaled Plain fee_rate "result" 100) ;;
  print ("Escrow Fee Rate: " ++ s ++ "%") ;;
  print (nl ++ "üè† Creating escrow order:") ;;
  print ("Seller: " ++ seller_address) ;;
  s <- lift (display Plain (VInt escrow_amount) (10 ^ 18)) ;;
  print ("Amount: " ++ s ++ " HNXZ") ;;
  print "Property ID: PROP001" ;;
  print ("Timeout: " ++ str_int (timeout_duration / 86400) ++ " days") ;;
  escrow_creation <- invoke_v1 (escrow_contract c) "create_escrow"
                       [JStr seller_address; JInt escrow_amount; JInt property_id;
                        JInt timeout_duration] max_fee_1e17 ;;
  wait_for_acceptance (tx_hash escrow_creation) ;;
  print "‚úÖ Escrow order created successfully" ;;
  try_except (escrow_readback c) is_Exception
    (fun e => print ("No existing escrow orders found: " ++ exn_str e)).

Definition swap_amount : Z := 1000 * 10 ^ 18.

(** The [try] block of [swap_interactions] (lines 242-247). *)
Definition swap_quote (c : Contracts) (token_address : Json) (usdt : PyVal) : M unit :=
  quote <- call (swap_contract c) "get_swap_quote"
             [token_address; to_json usdt; JInt swap_amount] ;;
  s <- lift (field_scaled Plain quote "result" (10 ^ 18)) ;;
  print ("Quote: " ++ s ++ " USDT").

(** [swap_interactions]. *)
Definition swap_interactions (self : HomebaseInteraction) (c : Contracts) : M unit :=
  print (nl ++ "üîÑ === SWAP CONTRACT INTERACTIONS ===") ;;
  total_swaps <- call (swap_contract c) "get_total_swaps" [] ;;
  total_volume <- call (swap_contract c) "get_total_volume" [] ;;
  swap_fee <- call (swap_contract c) "get_swap_fee" [] ;;
  s <- lift (field total_swaps "result") ;;
  print ("Total Swaps: " ++ s) ;;
  s <- lift (field_scaled Comma2f total_volume "result" (10 ^ 18)) ;;
  print ("Total Volume: " ++ s ++ " HNXZ") ;;
  s <- lift (field_scaled Plain swap_fee "result" 100) ;;
  print ("Swap Fee: " ++ s ++ "%") ;;
  usdt_address <- call (swap_contract c) "get_supported_token" [JStr "USDT"] ;;
  usdc_address <- call (swap_contract c) "get_supported_token" [JStr "USDC"] ;;
  weth_address <- call (swap_contract c) "get_supported_token" [JStr "WETH"] ;;
  print (nl ++ "üí± Supported Tokens:") ;;
  s <- lift (field_hex usdt_address "result") ;;
  print ("USDT: " ++ s) ;;
  s <- lift (field_hex usdc_address "result") ;;
  print ("USDC: " ++ s) ;;
  s <- lift (field_hex weth_address "result") ;;
  print ("WETH: " ++ s) ;;
  token_address <- lift (contract_entry self "hancoin_token") ;;
  usdt <- lift (getattr usdt_address "result") ;;
  if ne_zero usdt then
    s <- lift (display Plain (VInt swap_amount) (10 ^ 18)) ;;
    print ((nl ++ "üí∞ Getting quote for ") ++ s ++ " HNXZ ‚Üí USDT") ;;
    try_except (swap_quote c token_address usdt) is_Exception
      (fun e => print ("Swap quote failed: " ++ exn_str e))
  else
    print "USDT not configured for swaps".

Definition fiat_amount : Z := 10000.
Definition currency : string := "USD".
Definition card_last_four : Z := 1234.

(** The [try] block of [credit_card_interactions] (lines 315-322). *)
Definition payment_readback (c : Contracts) : M unit :=
  payment_status <- call (credit_card_contract c) "get_payment_status" [JInt 1] ;;
  payment_details <- call (credit_card_contract c) "get_payment" [JInt 1] ;;
  print (nl ++ "üìä Payment Details (ID: 1):") ;;
  s <- lift (field_hex payment_details "user") ;;
  print ("User: " ++ s) ;;
  s <- lift (field_scaled Plain payment_details "fiat_amount" 100) ;;
  print ("Fiat Amount: $" ++ s) ;;
  s <- lift (field_scaled Plain payment_details "hnxz_amount" (10 ^ 18)) ;;
  print ("HNXZ Amount: " ++ s) ;;
  s <- str_reply payment_status ;;
  print ("Status: " ++ s).

(** [credit_card_interactions]. *)
Definition credit_card_interactions (self : HomebaseInteraction) (c : Contracts) : M unit :=
  print (nl ++ "üí≥ === CREDIT CARD SIMULATOR INTERACTIONS ===") ;;
  total_payments <- call (credit_card_contract c) "get_total_payments" [] ;;
  total_fiat <- call (credit_card_contract c) "get_total_fiat_processed" [] ;;
  total_hnxz <- call (credit_card_contract c) "get_total_hnxz_issued" [] ;;
  processing_fee <- call (credit_card_contract c) "get_processing_fee_rate" [] ;;
  s <- lift (field total_payments "result") ;;
  print ("Total Payments: " ++ s) ;;
  s <- lift (field_scaled Comma2f total_fiat "result" 100) ;;
  print ("Total Fiat Processed: $" ++ s) ;;
  s <- lift (field_scaled Comma2f total_hnxz "result" (10 ^ 18)) ;;
  print ("Total HNXZ Issued: " ++ s) ;;
  s <- lift (field_scaled Plain processing_fee "result" 100) ;;
  print ("Processing Fee: " ++ s ++ "%") ;;
  usd_rate <- call (credit_card_contract c) "get_exchange_rate" [JStr "USD"] ;;
  eur_rate <- call (credit_card_contract c) "get_exchange_rate" [JStr "EUR"] ;;
  print (nl ++ "üí± Exchange Rates:") ;;
  s <- lift (field_scaled Plain usd_rate "rate" 100) ;;
  print ("USD: $" ++ s ++ " per HNXZ") ;;
  s <- lift (field_scaled Plain eur_rate "rate" 100) ;;
  print ("EUR: ‚Ç¨" ++ s ++ " per HNXZ") ;;
  hnxz_amount <- call (credit_card_contract c) "calculate_hnxz_amount"
                   [JInt fiat_amount; JStr currency] ;;
  s1 <- lift (display Plain (VInt fiat_amount) 100) ;;
  s2 <- lift (field_scaled Comma2f hnxz_amount "result" (10 ^ 18)) ;;
  print ((nl ++ "üßÆ $") ++ s1 ++ " USD = " ++ s2 ++ " HNXZ") ;;
  s <- lift (display Plain (VInt fiat_amount) 100) ;;
  print ("üí≥ Initiating payment: $" ++ s ++ " USD") ;;
  payment_initiation <- invoke_v1 (credit_card_contract c) "initiate_payment"
                          [JInt fiat_amount; JStr currency; JInt card_last_four]
                          max_fee_1e17 ;;
  wait_for_acceptance (tx_hash payment_initiation) ;;
  print "‚úÖ Payment initiated successfully" ;;
  try_except (payment_readback c) is_Exception
    (fun e => print ("No existing payments found: " ++ exn_str e)).

(** The [try] block of [run_all_examples] (lines 335-342). *)
Definition all_groups (self : HomebaseInteraction) (c : Contracts) : M unit :=
  token_interactions self c ;;
  loan_interactions self c ;;
  escrow_interactions self c ;;
  swap_interactions self c ;;
  credit_card_interactions self c ;;
  print (nl ++ str_mul "=" 50) ;;
  print "‚úÖ All interactions completed successfully!".

(** [run_all_examples]. *)
Definition run_all_examples (self : HomebaseInteraction) : M unit :=
  print "üöÄ Starting Homebase Contract Interactions" ;;
  print (str_mul "=" 50) ;;
  c <- setup_contracts self ;;
  try_except (all_groups self c) is_Exception
    (fun e => print ("‚ùå Error during interactions: " ++ exn_str e) ;; raise e).

(** [main]. *)
Definition main : M unit :=
  present <- path_exists address_book ;;
  if negb present then
    print "‚ùå deployment_addresses.json not found!" ;;
    print "Please deploy contracts first using: ./scripts/deploy_all.sh" ;;
    ret tt
  else
    account_address <- getenv "ACCOUNT_ADDRESS" ;;
    private_key <- getenv "PRIVATE_KEY" ;;
    if negb (truthy account_address) || negb (truthy private_key) then
      print "‚ùå ACCOUNT_ADDRESS and PRIVATE_KEY must be set in .env file" ;;
      ret tt
    else
      homebase <- init ;;
      run_all_examples homebase.

End InteractionExamples.

(* ===================================================================== *)
(** ** Protocols: monitors over traces *)
(* ===================================================================== *)

(** A property of the order of events is stated as a monitor: a state
    machine that reads the trace and has no transition ([None]) on an
    event the property forbids.  [triple step s m Q] says that whatever
    the world answers, the events [m] adds are accepted from state [s],
    and the outcome and the state reached satisfy [Q]. *)
Module Protocol.
Import Py Sdk.

Section Monitor.
Context {S : Type} (step : S -> Event -> option S).

Fixpoint run (s : S) (t : Trace) : option S :=
  match t with
  | [] => Some s
  | ev :: t' =>
      match step s ev with
      | Some s' => run s' t'
      | None => None
      end
  end.

Definition triple {A} (s : S) (m : M A) (Q : Outcome A -> S -> Prop) : Prop :=
  forall w h, exists s', run s (fst (m w h)) = Some s' /\ Q (snd (m w h)) s'.
End Monitor.

End Protocol.

(* ===================================================================== *)
(** ** Properties of traces, and the worlds used as examples *)
(* ===================================================================== *)

(** *** Acceptance before the next request

    After a submission (an invocation or the deployment) that returned a
    handle, the monitor is [Pending]: it lets through printing and the
    wait on that handle, nothing else, and only a wait that returns
    brings it back to [Idle]. *)
Module Await.
Import Py Sdk.

Inductive AwaitState : Type := Idle | Pending (tx : Z).

Definition await_step (s : AwaitState) (ev : Event) : option AwaitState :=
  match s, ev with
  | Idle, EInvoke _ _ _ _ (Ret sent) => Some (Pending (tx_hash sent))
  | Idle, EDeploy _ (Ret d) => Some (Pending (hash d))
  | Idle, EWait _ _ => None
  | Idle, _ => Some Idle
  | Pending tx, EPrint _ => Some (Pending tx)
  | Pending tx, EWait tx' r =>
      if tx' =? tx then Some (match r with Ret _ => Idle | Raise _ => Pending tx end) else None
  | Pending _, _ => None
  end.

(** Postconditions: back to [Idle] unless an exception left the script. *)
Definition safe {A} (o : Outcome A) (s : AwaitState) : Prop :=
  match o with Ret _ => s = Idle | Raise _ => True end.

Definition accepted {A} (o : Outcome A) (s : AwaitState) : Prop := True.

(** The handle a successful submission returns. *)
Definition submission (ev : Event) : option Z :=
  match ev with
  | EInvoke _ _ _ _ (Ret sent) => Some (tx_hash sent)
  | EDeploy _ (Ret d) => Some (hash d)
  | _ => None
  end.

(** A request to the network other than a wait: every read is one. *)
Definition is_request (ev : Event) : bool :=
  match ev with
  | EDeploy _ _ | EFromAddress _ _ _ | ECall _ _ _ _ | EInvoke _ _ _ _ _ => true
  | _ => false
  end.

(** Between a submission and any later request lies the completed wait
    for that submission. *)
Definition awaited_before_requests (t : Trace) : Prop :=
  forall i j ei ej tx,
    nth_error t i = Some ei -> submission ei = Some tx ->
    nth_error t j = Some ej -> is_request ej = true ->
    (i < j)%nat ->
    exists k, (i < k < j)%nat /\ nth_error t k = Some (EWait tx (Ret tt)).

End Await.

(** *** What follows a request that raised, in the orchestrator

    A call of a read-back (the calls inside a group's [try] block) that
    raises an [Exception] must be followed by the group's report line
    and then by the first line of what comes next; any other request
    that raises ends the run: at most the orchestrator's error line
    follows. *)
Module Readback.
Import Py Sdk.

Definition loan_banner : string := (nl ++ "üè¶ === LOAN CONTRACT INTERACTIONS ===").
Definition escrow_banner : string := (nl ++ "üîí === ESCROW CONTRACT INTERACTIONS ===").
Definition swap_banner : string := (nl ++ "üîÑ === SWAP CONTRACT INTERACTIONS ===").
Definition credit_card_banner : string := (nl ++ "üí≥ === CREDIT CARD SIMULATOR INTERACTIONS ===").
Definition closing_rule : string := nl ++ str_mul "=" 50.

(** The orchestrator's line for an exception it is about to re-raise. *)
Definition error_line (e : Exn) : string := "‚ùå Error during interactions: " ++ exn_str e.

(** The read-back calls: for each, the prefix of its report line and the
    line printed next when the run goes on. *)
Definition readback (fn : string) : option (string * string) :=
  if String.eqb fn "get_loan" || String.eqb fn "calculate_total_due" then
    Some ("No existing loans found: ", escrow_banner)
  else if String.eqb fn "get_escrow_status" || String.eqb fn "get_escrow_order" then
    Some ("No existing escrow orders found: ", swap_banner)
  else if String.eqb fn "get_swap_quote" then
    Some ("Swap quote failed: ", credit_card_banner)
  else if String.eqb fn "get_payment_status" || String.eqb fn "get_payment" then
    Some ("No existing payments found: ", closing_rule)
  else None.

Inductive ReadbackState : Type :=
| Run
| Report (line next : string)
| Next (line : string)
| Abort (e : Exn)
| Ended (e : Exn).

Definition readback_step (s : ReadbackState) (ev : Event) : option ReadbackState :=
  match s, ev with
  | Run, ECall _ fn _ (Raise e) =>
      match readback fn with
      | Some (report, next) =>
          if is_Exception e then Some (Report (report ++ exn_str e) next) else Some (Abort e)
      | None => Some (Abort e)
      end
  | Run, EInvoke _ _ _ _ (Raise e) => Some (Abort e)
  | Run, EWait _ (Raise e) => Some (Abort e)
  | Run, EFromAddress _ _ (Raise e) => Some (Ended e)
  | Run, EDeploy _ _ => None
  | Run, _ => Some Run
  | Report line next, EPrint l => if String.eqb l line then Some (Next next) else None
  | Next line, EPrint l => if String.eqb l line then Some Run else None
  | Abort e, EPrint l =>
      if is_Exception e && String.eqb l (error_line e) then Some (Ended e) else None
  | _, _ => None
  end.

(** A group leaves the monitor ready for the line that comes next, or
    raises. *)
Definition group_post (next : string) {A} (o : Outcome A) (s : ReadbackState) : Prop :=
  match o with
  | Ret _ => readback_step s (EPrint next) = Some Run
  | Raise e => s = Run \/ s = Abort e
  end.

Definition groups_post {A} (o : Outcome A) (s : ReadbackState) : Prop :=
  match o with
  | Ret _ => s = Run
  | Raise e => s = Run \/ s = Abort e
  end.

Definition run_post {A} (o : Outcome A) (s : ReadbackState) : Prop :=
  match o with
  | Ret _ => s = Run
  | Raise e => s = Run \/ s = Ended e \/ (s = Abort e /\ is_Exception e = false)
  end.

(** A read-back call that raised an [Exception] is followed by its
    report and by the next line of the run. *)
Definition reported_then_continued (t : Trace) : Prop :=
  forall i addr fn args e report next,
    nth_error t i = Some (ECall addr fn args (Raise e)) ->
    readback fn = Some (report, next) ->
    is_Exception e = true ->
    nth_error t (S i) = Some (EPrint (report ++ exn_str e)) /\
    nth_error t (S (S i)) = Some (EPrint next).

(** The exception a request raised, and whether a read-back's handler
    catches it. *)
Definition raised (ev : Event) : option Exn :=
  match ev with
  | ECall _ _ _ (Raise e) => Some e
  | EInvoke _ _ _ _ (Raise e) => Some e
  | EWait _ (Raise e) => Some e
  | _ => None
  end.

Definition caught_in_readback (ev : Event) (e : Exn) : bool :=
  match ev with
  | ECall _ fn _ _ =>
      match readback fn with
      | Some _ => is_Exception e
      | None => false
      end
  | _ => false
  end.

(** Any other request of a group that raised ends the run with that
    exception; only the error line may follow. *)
Definition otherwise_aborted (t : Trace) (o : Outcome unit) : Prop :=
  forall i ev e,
    nth_error t i = Some ev ->
    raised ev = Some e ->
    caught_in_readback ev e = false ->
    o = Raise e /\
    skipn (S i) t = if is_Exception e then [EPrint (error_line e)] else [].

End Readback.

(** *** Raw amounts in the requests

    The amounts the interaction groups send are integers in the
    contract's own unit.  The monitor knows, for each function that
    takes an amount, the argument list it must be called with; for the
    swap quote it remembers the [result] of the last look-up of the USDT
    token, which must be passed on as it was received. *)
Module Amounts.
Import Py Sdk.

Definition raw_args (fn : string) : option (list Json) :=
  if String.eqb fn "transfer" then
    Some [JStr "0x1234567890123456789012345678901234567890123456789012345678901234";
          JInt (1000 * 10 ^ 18)]
  else if String.eqb fn "request_loan" then
    Some [JInt (5000 * 10 ^ 18); JInt 7776000; JInt (7500 * 10 ^ 18)]
  else if String.eqb fn "create_escrow" then
    Some [JStr "0x5678901234567890123456789012345678901234567890123456789012345678";
          JInt (25000 * 10 ^ 18); JInt 22608498738081841; JInt 2592000]
  else if String.eqb fn "initiate_payment" then
    Some [JInt 10000; JStr "USD"; JInt 1234]
  else if String.eqb fn "calculate_hnxz_amount" then
    Some [JInt 10000; JStr "USD"]
  else None.

(** Equality of two JSON scalars; containers are never amounts. *)
Definition json_eqb (a b : Json) : bool :=
  match a, b with
  | JNull, JNull => true
  | JBool x, JBool y => Bool.eqb x y
  | JInt x, JInt y => x =? y
  | JStr x, JStr y => String.eqb x y
  | _, _ => false
  end.

Fixpoint args_eqb (l1 l2 : list Json) : bool :=
  match l1, l2 with
  | [], [] => true
  | a :: l1', b :: l2' => json_eqb a b && args_eqb l1' l2'
  | _, _ => false
  end.

Definition expected_args (fn : string) (args : list Json) : bool :=
  match raw_args fn with
  | Some expected => args_eqb args expected
  | None => true
  end.

Definition amounts_step (s : option PyVal) (ev : Event) : option (option PyVal) :=
  match ev with
  | EInvoke _ fn args _ _ =>
      match raw_args fn with
      | Some expected => if args_eqb args expected then Some s else None
      | None => None
      end
  | ECall _ fn args r =>
      if String.eqb fn "get_swap_quote" then
        match s, args with
        | Some v, [_; x; JInt a] =>
            if json_eqb x (to_json v) && (a =? 1000 * 10 ^ 18) then Some s else None
        | _, _ => None
        end
      else if String.eqb fn "get_supported_token" && args_eqb args [JStr "USDT"] then
        match r with
        | Ret reply =>
            Some (match getattr reply "result" with Ret v => Some v | Raise _ => None end)
        | Raise _ => Some None
        end
      else if expected_args fn args then Some s else None
  | _ => Some s
  end.

(** The events that leave the monitor's state as it is. *)
Definition neutral (ev : Event) : bool :=
  match ev with
  | EInvoke _ fn args _ _ =>
      match raw_args fn with
      | Some expected => args_eqb args expected
      | None => false
      end
  | ECall _ fn args _ =>
      negb (String.eqb fn "get_swap_quote")
      && negb (String.eqb fn "get_supported_token" && args_eqb args [JStr "USDT"])
      && expected_args fn args
  | _ => true
  end.

Definition any_state {A} (o : Outcome A) (s : option PyVal) : Prop := True.

(** Every invocation is one of the table and carries its arguments;
    every call of the table carries its arguments; a swap quote carries
    the raw amount and the USDT token exactly as a previous look-up
    returned it. *)
Definition raw_amounts (t : Trace) : Prop :=
  (forall i addr fn args fee r,
      nth_error t i = Some (EInvoke addr fn args fee r) -> raw_args fn = Some args) /\
  (forall i addr fn args r expected,
      nth_error t i = Some (ECall addr fn args r) ->
      raw_args fn = Some expected -> args = expected) /\
  (forall i addr args r,
      nth_error t i = Some (ECall addr "get_swap_quote" args r) ->
      exists j addr' reply v token,
        (j < i)%nat /\
        nth_error t j = Some (ECall addr' "get_supported_token" [JStr "USDT"] (Ret reply)) /\
        getattr reply "result" = Ret v /\
        args = [token; to_json v; JInt (1000 * 10 ^ 18)]).

End Amounts.

(** *** The deploy flow

    The deployment is submitted once, with the deploying account's own
    address as its only constructor argument; its acceptance is awaited;
    only then is the binding to the deployed contract used, and every
    call goes to that contract. *)
Module DeployFlow.
Import Py Sdk.

Inductive DeployState : Type :=
| BeforeDeploy
| Deployed (d : DeployResult)
| Bound (d : DeployResult)
| Halted.

(** The deploying account has the address [owner], and the constructor
    arguments are exactly that address. *)
Definition owner_is_deployer (owner : option string) (args : DeployArgs) : bool :=
  match owner, address (account args), constructor_args args with
  | Some a, Some a', [JStr x] => String.eqb a' a && String.eqb x a
  | _, _, _ => false
  end.

Definition deploy_step (owner : option string) (s : DeployState) (ev : Event)
  : option DeployState :=
  match s, ev with
  | Halted, _ => None
  | _, EPrint _ => Some s
  | BeforeDeploy, EDeploy args r =>
      if owner_is_deployer owner args
      then Some (match r with Ret d => Deployed d | Raise _ => Halted end)
      else None
  | Deployed d, EWait tx r =>
      if tx =? hash d
      then Some (match r with Ret _ => Bound d | Raise _ => Halted end)
      else None
  | Bound d, ECall addr _ _ _ =>
      if addr =? contract_address (deployed_contract d) then Some s else None
  | Bound d, EDump _ _ => Some s
  | _, _ => None
  end.

Definition deploy_post {A} (o : Outcome A) (s : DeployState) : Prop := True.

(** Every deployment is made by the account of address [owner] and
    names that address, and nothing else, to the constructor. *)
Definition deploys_for_owner (owner : option string) (t : Trace) : Prop :=
  forall i args r,
    nth_error t i = Some (EDeploy args r) ->
    exists a,
      owner = Some a /\ address (account args) = Some a /\
      constructor_args args = [JStr a].

(** Every call is made on the deployed contract, after the deployment
    was accepted. *)
Definition bound_after_acceptance (t : Trace) : Prop :=
  forall j addr fn args r,
    nth_error t j = Some (ECall addr fn args r) ->
    exists i k dargs d,
      (i < k < j)%nat /\
      nth_error t i = Some (EDeploy dargs (Ret d)) /\
      nth_error t k = Some (EWait (hash d) (Ret tt)) /\
      addr = contract_address (deployed_contract d).

End DeployFlow.

(** *** Configuration: the network table, the diagnostics, the set-up *)
Module Config.
Import Py Sdk.

(** The first binding of [key] in an association list. *)
Fixpoint assoc {A} (l : list (string * A)) (key : string) : option A :=
  match l with
  | [] => None
  | (k, v) :: rest => if String.eqb k key then Some v else assoc rest key
  end.


(** [os.getenv('NETWORK', 'testnet')]. *)
Definition selected_network (w : World) : string :=
  match environ w "NETWORK" with Some n => n | None => "testnet" end.

(** A credential is missing when it is unset or empty. *)
Definition credentials_missing (w : World) : Prop :=
  truthy (environ w "ACCOUNT_ADDRESS") = false \/ truthy (environ w "PRIVATE_KEY") = false.

Definition credentials_error : Exn :=
  mkExn ValueError "ACCOUNT_ADDRESS and PRIVATE_KEY must be set in environment".

(** The diagnostics of [main] and of [deploy_token]. *)
Definition book_missing_lines : Trace :=
  [ EPrint "‚ùå deployment_addresses.json not found!";
    EPrint "Please deploy contracts first using: ./scripts/deploy_all.sh" ].

Definition credentials_missing_lines : Trace :=
  [ EPrint "‚ùå ACCOUNT_ADDRESS and PRIVATE_KEY must be set in .env file" ].

Definition class_file_missing_lines (w : World) : Trace :=
  [ EPrint ("🚀 Deploying Hancoin Token to " ++ selected_network w ++ "...");
    EPrint ("Account: " ++ str_opt (environ w "ACCOUNT_ADDRESS"));
    EPrint "❌ Contract class file not found. Please run 'scarb build' first." ].

(** The two lines [deploy_token] prints before it builds its session. *)
Definition deploy_header (w : World) : Trace :=
  [ EPrint ("🚀 Deploying Hancoin Token to " ++ selected_network w ++ "...");
    EPrint ("Account: " ++ str_opt (environ w "ACCOUNT_ADDRESS")) ].

(** Lines 36-46 of [deploy_token], run after these two lines, return
    the account [acct]: the network is in [NETWORK_URL], the key is
    parsed, and the SDK accepts the key and the address. *)
Definition session_built (w : World) (acct : Account) : Prop :=
  DeployToken.build_session (selected_network w) (environ w "ACCOUNT_ADDRESS")
    (environ w "PRIVATE_KEY") w (deploy_header w) = ([], Ret acct).



(** The first two lines of [run_all_examples]. *)
Definition header : Trace :=
  [ EPrint "üöÄ Starting Homebase Contract Interactions";
    EPrint (str_mul "=" 50) ].

(** The events of a [setup_contracts] that resolves all five bindings. *)
Definition resolved (cl : FullNodeClient) (a1 a2 a3 a4 a5 : Json)
    (c : InteractionExamples.Contracts) : Trace :=
  [ EFromAddress a1 cl (Ret (InteractionExamples.token_contract c));
    EFromAddress a2 cl (Ret (InteractionExamples.loan_contract c));
    EFromAddress a3 cl (Ret (InteractionExamples.escrow_contract c));
    EFromAddress a4 cl (Ret (InteractionExamples.swap_contract c));
    EFromAddress a5 cl (Ret (InteractionExamples.credit_card_contract c));
    EPrint "‚úÖ All contracts loaded successfully" ].

Definition is_resolution (ev : Event) : bool :=
  match ev with
  | EFromAddress _ _ _ => true
  | _ => false
  end.

(** The history of the run when the binding number [i] is asked for:
    the header and the [i] resolutions before it. *)
Definition asked_after (i : nat) (cl : FullNodeClient) (a1 a2 a3 a4 a5 : Json)
    (c : InteractionExamples.Contracts) : Trace :=
  (header ++ firstn i (resolved cl a1 a2 a3 a4 a5 c))%list.

(** The SDK answers the five resolutions with the contracts of [c]. *)
Definition sdk_resolves (w : World) (cl : FullNodeClient) (a1 a2 a3 a4 a5 : Json)
    (c : InteractionExamples.Contracts) : Prop :=
  sdk_from_address w (asked_after 0 cl a1 a2 a3 a4 a5 c) a1 cl
    = Ret (InteractionExamples.token_contract c) /\
  sdk_from_address w (asked_after 1 cl a1 a2 a3 a4 a5 c) a2 cl
    = Ret (InteractionExamples.loan_contract c) /\
  sdk_from_address w (asked_after 2 cl a1 a2 a3 a4 a5 c) a3 cl
    = Ret (InteractionExamples.escrow_contract c) /\
  sdk_from_address w (asked_after 3 cl a1 a2 a3 a4 a5 c) a4 cl
    = Ret (InteractionExamples.swap_contract c) /\
  sdk_from_address w (asked_after 4 cl a1 a2 a3 a4 a5 c) a5 cl
    = Ret (InteractionExamples.credit_card_contract c).

(** The five entries of the address book that [setup_contracts] reads. *)
Definition book_entries (self : InteractionExamples.HomebaseInteraction)
    (a1 a2 a3 a4 a5 : Json) : Prop :=
  InteractionExamples.contract_entry self "hancoin_token" = Ret a1 /\
  InteractionExamples.contract_entry self "loan_contract" = Ret a2 /\
  InteractionExamples.contract_entry self "escrow_contract" = Ret a3 /\
  InteractionExamples.contract_entry self "swap_contract" = Ret a4 /\
  InteractionExamples.contract_entry self "credit_card_simulator" = Ret a5.

(** The [try] statement of [run_all_examples]: the groups, and the
    handler that reports and re-raises. *)
Definition groups_or_error (self : InteractionExamples.HomebaseInteraction)
    (c : InteractionExamples.Contracts) : M unit :=
  try_except (InteractionExamples.all_groups self c) is_Exception
    (fun e => bind (print ("‚ùå Error during interactions: " ++ exn_str e)) (fun _ => raise e)).

(** The five logical names of the address book. *)
Definition contract_names : list string :=
  [ "hancoin_token"; "loan_contract"; "escrow_contract"; "swap_contract";
    "credit_card_simulator" ].

End Config.

(** *** Test doubles

    Concrete worlds on which the scripts are run: an environment and a
    file system given by association lists, and an SDK double that
    answers every call with the same reply unless the function is listed
    as failing.  The double's constructors refuse a private key that is
    not positive and an account address that is not a hexadecimal
    number. *)
Module Scenario.
Import Py Sdk Config.

(** A reply that has every field the scripts read. *)
Definition reply : Reply :=
  [ ("name", VStr "Hancoin"); ("symbol", VStr "HNXZ"); ("decimals", VInt 18);
    ("total_supply", VInt (1000 * 10 ^ 18)); ("balance", VInt (1000 * 10 ^ 18));
    ("result", VInt 10000); ("rate", VInt 100);
    ("borrower", VInt 2748); ("loan_amount", VInt (5000 * 10 ^ 18));
    ("collateral_amount", VInt (7500 * 10 ^ 18)); ("status", VInt 1);
    ("buyer", VInt 2748); ("seller", VInt 3567); ("amount", VInt (25000 * 10 ^ 18));
    ("user", VInt 2748); ("fiat_amount", VInt 10000);
    ("hnxz_amount", VInt (100 * 10 ^ 18)) ].

(** An ABI that declares every function the scripts use. *)
Definition abi_functions : list string :=
  [ "name"; "symbol"; "decimals"; "total_supply"; "total_supply_formatted"; "balance_of";
    "is_paymaster_enabled"; "get_gas_fee_rate"; "transfer"; "mint"; "set_gas_fee_rate";
    "get_total_loans_issued"; "get_total_amount_repaid"; "get_collateral_ratio";
    "request_loan"; "get_loan"; "calculate_total_due";
    "get_total_escrowed"; "get_total_fees_collected"; "get_escrow_fee_rate";
    "create_escrow"; "get_escrow_status"; "get_escrow_order";
    "get_total_swaps"; "get_total_volume"; "get_swap_fee"; "get_supported_token";
    "get_swap_quote";
    "get_total_payments"; "get_total_fiat_processed"; "get_total_hnxz_issued";
    "get_processing_fee_rate"; "get_exchange_rate"; "calculate_hnxz_amount";
    "initiate_payment"; "get_payment_status"; "get_payment" ].

(** The contract at an address of the address book. *)
Definition contract_at (addr : Json) : Contract :=
  mkContract (match addr with
              | JStr s => match parse_int16 s with Some z => z | None => 0 end
              | JInt z => z
              | _ => 0
              end) abi_functions.

Definition deployed : DeployResult :=
  mkDeployResult 4660 (Some 7) (mkContract 43981 abi_functions).

(** Unicode tables for worlds whose texts are all ASCII: they are never
    asked. *)
Definition ascii_tables : Unicode :=
  mkUnicode (fun s => s) repr_ascii (fun s => substring 0 200 (repr_ascii s)).

Definition key_refused : Exn := mkExn ValueError "private key out of range".
Definition address_refused : Exn := mkExn ValueError "address is not a hexadecimal number".

Definition double (env : list (string * string)) (fs : list (string * Outcome Json))
    (failing : list (string * Exn)) : World :=
  {| environ := assoc env;
     files := assoc fs;
     unicode := ascii_tables;
     sdk_key_pair_error := fun key => if 0 <? key then None else Some key_refused;
     sdk_account_error := fun address _ _ _ =>
       match address with
       | Some s => match parse_int16 s with Some _ => None | None => Some address_refused end
       | None => Some address_refused
       end;
     sdk_deploy_contract := fun _ _ => Ret deployed;
     sdk_from_address := fun _ addr _ => Ret (contract_at addr);
     sdk_call := fun _ _ fn _ =>
       match assoc failing fn with
       | Some e => Raise e
       | None => Ret reply
       end;
     sdk_invoke := fun h _ _ _ _ => Ret (mkSent (Z.of_nat (List.length h)));
     sdk_wait_for_acceptance := fun _ _ => Ret tt;
     show_reply := fun _ => "Result(...)" |}.

Definition credentials : list (string * string) :=
  [ ("ACCOUNT_ADDRESS", "0xabc"); ("PRIVATE_KEY", "0x1f") ].

Definition address_book_doc : Json :=
  JDict [ ("contracts",
           JDict [ ("hancoin_token", JStr "0x1"); ("loan_contract", JStr "0x2");
                   ("escrow_contract", JStr "0x3"); ("swap_contract", JStr "0x4");
                   ("credit_card_simulator", JStr "0x5") ]) ].

Definition all_files : list (string * Outcome Json) :=
  [ ("deployment_addresses.json", Ret address_book_doc);
    ("target/dev/homebase_starknet_HancoinToken.contract_class.json",
     Ret (JDict [("abi", JList [])])) ].

(** The object [HomebaseInteraction()] builds from [credentials] and
    [all_files]. *)
Definition session : InteractionExamples.HomebaseInteraction :=
  InteractionExamples.mkSelf "testnet" (Some "0xabc") (Some "0x1f") address_book_doc
    (mkClient "https://alpha4.starknet.io")
    (mkAccount (Some "0xabc") (mkClient "https://alpha4.starknet.io") 31 TESTNET).

(** An address book that lacks the swap contract. *)
Definition short_book_doc : Json :=
  JDict [ ("contracts",
           JDict [ ("hancoin_token", JStr "0x1"); ("loan_contract", JStr "0x2");
                   ("escrow_contract", JStr "0x3");
                   ("credit_card_simulator", JStr "0x5") ]) ].

Definition short_session : InteractionExamples.HomebaseInteraction :=
  InteractionExamples.mkSelf "testnet" (Some "0xabc") (Some "0x1f") short_book_doc
    (mkClient "https://alpha4.starknet.io")
    (mkAccount (Some "0xabc") (mkClient "https://alpha4.starknet.io") 31 TESTNET).

(** Everything in place and every request answered. *)
Definition happy : World := double credentials all_files [].

(** No credentials in the environment. *)
Definition no_credentials : World := double [] all_files [].

(** Only one of the two credentials. *)
Definition only_address : World := double [("ACCOUNT_ADDRESS", "0xabc")] all_files [].
Definition only_key : World := double [("PRIVATE_KEY", "0x1f")] all_files [].

(** No file on disk. *)
Definition no_files : World := double credentials [] [].


(** A private key that the SDK refuses (zero); and an account address
    that the SDK refuses (no hexadecimal number), with no file on
    disk. *)
Definition zero_key : World :=
  double [ ("ACCOUNT_ADDRESS", "0xabc"); ("PRIVATE_KEY", "0x0") ] all_files [].

Definition bad_address : World :=
  double [ ("ACCOUNT_ADDRESS", "zzz"); ("PRIVATE_KEY", "0x1f") ] [] [].

(** The network is unreachable when the loan is read back: an error of
    the connection, not a missing record. *)
Definition connection_error : Exn :=
  mkExn (OtherException "ConnectionError") "network unreachable".

Definition loan_readback_fails : World :=
  double credentials all_files [("get_loan", connection_error)].

(** [line] is printed in [t]. *)
Definition printed (line : string) (t : Trace) : bool :=
  existsb (fun ev => match ev with EPrint l => String.eqb l line | _ => false end) t.

(** [fn] is invoked in [t]. *)
Definition invoked (fn : string) (t : Trace) : bool :=
  existsb (fun ev => match ev with EInvoke _ f _ _ _ => String.eqb f fn | _ => false end) t.

End Scenario.

(** *** Which contract a request goes to, and in which order

    Each function the interaction script requests belongs to one of the
    five groups, in the order [run_all_examples] runs them.  A request
    must go to the binding of its group, and the groups' requests must
    follow one another in that order. *)
Module Routing.
Import Py Sdk.
Import InteractionExamples.

(** The functions each group requests, by calls or invocations, in the
    order of the groups. *)
Definition group_functions : list (list string) :=
  [ [ "name"; "symbol"; "total_supply"; "total_supply_formatted"; "balance_of";
      "is_paymaster_enabled"; "get_gas_fee_rate"; "transfer" ];
    [ "get_total_loans_issued"; "get_total_amount_repaid"; "get_collateral_ratio";
      "request_loan"; "get_loan"; "calculate_total_due" ];
    [ "get_total_escrowed"; "get_total_fees_collected"; "get_escrow_fee_rate";
      "create_escrow"; "get_escrow_status"; "get_escrow_order" ];
    [ "get_total_swaps"; "get_total_volume"; "get_swap_fee"; "get_supported_token";
      "get_swap_quote" ];
    [ "get_total_payments"; "get_total_fiat_processed"; "get_total_hnxz_issued";
      "get_processing_fee_rate"; "get_exchange_rate"; "calculate_hnxz_amount";
      "initiate_payment"; "get_payment_status"; "get_payment" ] ].

Fixpoint find_group (groups : list (list string)) (fn : string) (g : nat) : option nat :=
  match groups with
  | [] => None
  | fs :: rest =>
      if existsb (String.eqb fn) fs then Some g else find_group rest fn (S g)
  end.

(** The index of the group that requests [fn]. *)
Definition group_of (fn : string) : option nat := find_group group_functions fn 0.

(** The binding [setup_contracts] stored for the group of index [g]. *)
Definition group_contract (c : Contracts) (g : nat) : option Contract :=
  nth_error [ token_contract c; loan_contract c; escrow_contract c; swap_contract c;
              credit_card_contract c ] g.

(** The address and the function of a call or an invocation. *)
Definition request_of (ev : Event) : option (Z * string) :=
  match ev with
  | ECall addr fn _ _ => Some (addr, fn)
  | EInvoke addr fn _ _ _ => Some (addr, fn)
  | _ => None
  end.

(** The monitor of the groups, once the bindings [c] are stored: only
    lines, waits and requests to the binding of the function's group. *)
Definition route_step (c : Contracts) (s : unit) (ev : Event) : option unit :=
  match ev with
  | EPrint _ | EWait _ _ => Some s
  | ECall _ _ _ _ | EInvoke _ _ _ _ _ =>
      match request_of ev with
      | Some (addr, fn) =>
          match group_of fn with
          | Some g =>
              match group_contract c g with
              | Some k => if addr =? contract_address k then Some s else None
              | None => None
              end
          | None => None
          end
      | None => None
      end
  | EDump _ _ | EDeploy _ _ | EFromAddress _ _ _ => None
  end.

Definition route_post {A} (o : Outcome A) (s : unit) : Prop := True.

(** Every request of [t] goes to the binding of its function's group. *)
Definition routed (c : Contracts) (t : Trace) : Prop :=
  forall j ev addr fn,
    nth_error t j = Some ev -> request_of ev = Some (addr, fn) ->
    exists g k,
      group_of fn = Some g /\ group_contract c g = Some k /\ addr = contract_address k.

(** The monitor of the order: the state is the group of the last
    request, and a request of an earlier group is refused. *)
Definition order_step (cur : nat) (ev : Event) : option nat :=
  match request_of ev with
  | Some (_, fn) =>
      match group_of fn with
      | Some g => if (cur <=? g)%nat then Some g else None
      | None => None
      end
  | None => Some cur
  end.

(** A group that returns has made a request of its own. *)
Definition order_post (g : nat) (o : Outcome unit) (s : nat) : Prop :=
  match o with
  | Ret _ => s = g
  | Raise _ => True
  end.

Definition order_any {A} (o : Outcome A) (s : nat) : Prop := True.

(** The groups of the requests of [t] never decrease. *)
Definition in_group_order (t : Trace) : Prop :=
  forall i j ei ej ai fi aj fj gi gj,
    (i < j)%nat ->
    nth_error t i = Some ei -> request_of ei = Some (ai, fi) -> group_of fi = Some gi ->
    nth_error t j = Some ej -> request_of ej = Some (aj, fj) -> group_of fj = Some gj ->
    (gi <= gj)%nat.

End Routing.

(** *** What a script never does

    A property of every single event is a monitor without memory. *)
Module Never.
Import Py Sdk.

Definition only (P : Event -> bool) (s : unit) (ev : Event) : option unit :=
  if P ev then Some s else None.

Definition only_post {A} (o : Outcome A) (s : unit) : Prop := True.

(** The events of the interaction script: no deployment, no file
    written, and the fee bound [int(1e17)] on every invocation. *)
Definition interaction_event (ev : Event) : bool :=
  match ev with
  | EDeploy _ _ | EDump _ _ => false
  | EInvoke _ _ _ fee _ => fee =? 10 ^ 17
  | _ => true
  end.

(** The events of [deploy_token]: no invocation and no binding by
    address. *)
Definition deployment_event (ev : Event) : bool :=
  match ev with
  | EInvoke _ _ _ _ _ | EFromAddress _ _ _ => false
  | _ => true
  end.

Definition no_deploy_no_write (ev : Event) : bool :=
  match ev with
  | EDeploy _ _ | EDump _ _ => false
  | _ => true
  end.

Definition fee_is_1e17 (ev : Event) : bool :=
  match ev with
  | EInvoke _ _ _ fee _ => fee =? 10 ^ 17
  | _ => true
  end.

Definition no_invocation (ev : Event) : bool :=
  match ev with
  | EInvoke _ _ _ _ _ => false
  | _ => true
  end.

End Never.

(** *** The swap quote and the USDT token

    [swap_interactions] asks for a quote only when the look-up of USDT
    returned a [result] different from zero, and prints that USDT is not
    configured only when it returned zero. *)
Module SwapGuard.
Import Py Sdk.

Definition not_configured : string := "USDT not configured for swaps".

Definition is_usdt_lookup (fn : string) (args : list Json) : bool :=
  String.eqb fn "get_supported_token" && Amounts.args_eqb args [JStr "USDT"].

(** The state is the [result] of the last look-up of USDT. *)
Definition guard_step (s : option PyVal) (ev : Event) : option (option PyVal) :=
  match ev with
  | ECall _ fn args r =>
      if String.eqb fn "get_swap_quote" then
        match s with
        | Some v => if ne_zero v then Some s else None
        | None => None
        end
      else if is_usdt_lookup fn args then
        match r with
        | Ret reply =>
            Some (match getattr reply "result" with Ret v => Some v | Raise _ => None end)
        | Raise _ => Some None
        end
      else Some s
  | EPrint line =>
      if String.eqb line not_configured then
        match s with
        | Some v => if ne_zero v then None else Some s
        | None => None
        end
      else Some s
  | _ => Some s
  end.

(** The events that leave the state as it is. *)
Definition indifferent (ev : Event) : bool :=
  match ev with
  | ECall _ fn args _ => negb (String.eqb fn "get_swap_quote") && negb (is_usdt_lookup fn args)
  | EPrint line => negb (String.eqb line not_configured)
  | _ => true
  end.

Definition guard_post {A} (o : Outcome A) (s : option PyVal) : Prop := True.

(** A look-up of USDT that returned [v] as its [result] precedes
    position [i]. *)
Definition usdt_was (t : Trace) (i : nat) (v : PyVal) : Prop :=
  exists j addr reply,
    (j < i)%nat /\
    nth_error t j = Some (ECall addr "get_supported_token" [JStr "USDT"] (Ret reply)) /\
    getattr reply "result" = Ret v.

Definition quote_guarded (t : Trace) : Prop :=
  (forall i addr args r,
      nth_error t i = Some (ECall addr "get_swap_quote" args r) ->
      exists v, usdt_was t i v /\ ne_zero v = true) /\
  (forall i,
      nth_error t i = Some (EPrint not_configured) ->
      exists v, usdt_was t i v /\ ne_zero v = false).

End SwapGuard.

(** *** The record of a deployment

    [deploy_token] writes [token_deployment.json] once, after the
    deployment was accepted and all seven calls returned; a request that
    raises ends the run; the function returns the deployed contract only
    after the record is written. *)
Module DeployRecord.
Import Py Sdk.

(** The calls of a trace that returned, in order: the function and the
    reply. *)
Fixpoint returned_calls (t : Trace) : list (string * Reply) :=
  match t with
  | [] => []
  | ECall _ fn _ (Ret reply) :: t' => (fn, reply) :: returned_calls t'
  | _ :: t' => returned_calls t'
  end.

(** The state of a deployment: the deployment returned, and the calls
    that have returned since its acceptance. *)
Inductive RecordState : Type :=
| NotDeployed
| Submitted (d : DeployResult)
| Verifying (d : DeployResult) (calls : list (string * Reply))
| Written (d : DeployResult)
| Failed (e : Exn).

Definition outcome_is (o : Outcome string) (s : string) : bool :=
  match o with
  | Ret x => String.eqb x s
  | Raise _ => false
  end.

(** [x] is the JSON value of the attribute [o] of a reply. *)
Definition value_is (o : Outcome PyVal) (x : Json) : bool :=
  match o with
  | Ret v => Amounts.json_eqb x (to_json v)
  | Raise _ => false
  end.

(** [doc] is the dictionary of lines 101-114 for the network [n], the
    deployer [a], the deployment [d] and the replies of the calls of
    [name], [symbol], [decimals] and [total_supply]. *)
Definition is_record (n : string) (a : option string) (d : DeployResult)
    (name symbol decimals supply : Reply) (doc : Json) : bool :=
  match doc with
  | JDict [ (k1, JStr v1); (k2, JStr v2); (k3, v3); (k4, JStr v4); (k5, v5);
            (k6, JDict [ (t1, x1); (t2, x2); (t3, x3); (t4, JStr raw); (t5, JStr shown) ]) ] =>
      String.eqb k1 "network" && String.eqb v1 n
      && String.eqb k2 "contract_address"
      && String.eqb v2 (hex (contract_address (deployed_contract d)))
      && String.eqb k3 "deployer" && Amounts.json_eqb v3 (opt_json a)
      && String.eqb k4 "transaction_hash" && String.eqb v4 (hex (hash d))
      && String.eqb k5 "block_number"
      && Amounts.json_eqb v5 (DeployToken.json_opt_int (block_number d))
      && String.eqb k6 "token_info"
      && String.eqb t1 "name" && value_is (getattr name "name") x1
      && String.eqb t2 "symbol" && value_is (getattr symbol "symbol") x2
      && String.eqb t3 "decimals" && value_is (getattr decimals "decimals") x3
      && String.eqb t4 "total_supply"
      && outcome_is (DeployToken.field supply "total_supply") raw
      && String.eqb t5 "formatted_supply"
      && outcome_is (DeployToken.field_scaled Comma0f supply "total_supply" (10 ^ 18)) shown
  | _ => false
  end.

(** The record is written after exactly the seven calls of lines 81-95,
    and from the replies of the first four. *)
Definition is_record_of (n : string) (a : option string) (d : DeployResult)
    (calls : list (string * Reply)) (doc : Json) : bool :=
  match calls with
  | [ (f1, name); (f2, symbol); (f3, decimals); (f4, supply); (f5, _); (f6, _); (f7, _) ] =>
      String.eqb f1 "name" && String.eqb f2 "symbol" && String.eqb f3 "decimals"
      && String.eqb f4 "total_supply" && String.eqb f5 "balance_of"
      && String.eqb f6 "is_paymaster_enabled" && String.eqb f7 "get_gas_fee_rate"
      && is_record n a d name symbol decimals supply doc
  | _ => false
  end.

Definition record_step (n : string) (a : option string) (s : RecordState) (ev : Event)
  : option RecordState :=
  match s, ev with
  | Failed _, _ => None
  | _, EPrint _ => Some s
  | NotDeployed, EDeploy _ r =>
      Some (match r with Ret d => Submitted d | Raise e => Failed e end)
  | Submitted d, EWait tx r =>
      if tx =? hash d
      then Some (match r with Ret _ => Verifying d [] | Raise e => Failed e end)
      else None
  | Verifying d calls, ECall _ fn _ r =>
      Some (match r with
            | Ret reply => Verifying d (calls ++ [(fn, reply)])
            | Raise e => Failed e
            end)
  | Verifying d calls, EDump path doc =>
      if String.eqb path "token_deployment.json" && is_record_of n a d calls doc
      then Some (Written d) else None
  | _, _ => None
  end.

(** How the outcome of [deploy_token] depends on the state reached. *)
Definition record_post (o : Outcome (option (Z * Contract))) (s : RecordState) : Prop :=
  match s with
  | NotDeployed => o = Ret None \/ exists e, o = Raise e
  | Submitted _ => False
  | Verifying _ _ => exists e, o = Raise e
  | Written d =>
      o = Ret (Some (contract_address (deployed_contract d), deployed_contract d))
  | Failed e => o = Raise e
  end.

(** The exception of a request that raised. *)
Definition failure (ev : Event) : option Exn :=
  match ev with
  | EDeploy _ (Raise e) => Some e
  | EWait _ (Raise e) => Some e
  | ECall _ _ _ (Raise e) => Some e
  | _ => None
  end.

Definition is_line (ev : Event) : bool :=
  match ev with
  | EPrint _ => true
  | _ => false
  end.

(** The record written at position [i] of [t]: the deployment returned
    [d] at a position [j] before; no call had returned by then, and the
    calls that returned before [i] are the seven of lines 81-95; the
    dictionary holds the attributes [name], [symbol] and [decimals] of
    the first three replies and the total supply of the fourth. *)
Definition record_written (n : string) (a : option string) (t : Trace) (i : nat)
    (d : DeployResult) : Prop :=
  exists j dargs name symbol decimals supply balance paymaster rate,
  exists i_name i_symbol i_decimals raw shown,
    (j < i)%nat /\
    nth_error t j = Some (EDeploy dargs (Ret d)) /\
    returned_calls (firstn (S j) t) = [] /\
    returned_calls (firstn i t)
      = [ ("name", name); ("symbol", symbol); ("decimals", decimals);
          ("total_supply", supply); ("balance_of", balance);
          ("is_paymaster_enabled", paymaster); ("get_gas_fee_rate", rate) ] /\
    getattr name "name" = Ret i_name /\
    getattr symbol "symbol" = Ret i_symbol /\
    getattr decimals "decimals" = Ret i_decimals /\
    DeployToken.field supply "total_supply" = Ret raw /\
    DeployToken.field_scaled Comma0f supply "total_supply" (10 ^ 18) = Ret shown /\
    nth_error t i =
      Some (EDump "token_deployment.json"
              (JDict [ ("network", JStr n);
                       ("contract_address", JStr (hex (contract_address (deployed_contract d))));
                       ("deployer", opt_json a);
                       ("transaction_hash", JStr (hex (hash d)));
                       ("block_number", DeployToken.json_opt_int (block_number d));
                       ("token_info",
                         JDict [ ("name", to_json i_name); ("symbol", to_json i_symbol);
                                 ("decimals", to_json i_decimals);
                                 ("total_supply", JStr raw);
                                 ("formatted_supply", JStr shown) ]) ])).

End DeployRecord.

(** *** The requests of [test_token_functions] *)
Module TokenTest.
Import Py Sdk.

Inductive TestState : Type :=
| Unbound
| BoundTo (c : Contract)
| Stopped.

(** The arguments the function is requested with. *)
Definition test_args (fn : string) : option (list Json) :=
  if String.eqb fn "mint" then
    Some [JStr "0x1234567890123456789012345678901234567890123456789012345678901234";
          JInt (1000 * 10 ^ 18)]
  else if String.eqb fn "balance_of" then
    Some [JStr "0x1234567890123456789012345678901234567890123456789012345678901234"]
  else if String.eqb fn "set_gas_fee_rate" then Some [JInt 2000000000000000]
  else if String.eqb fn "get_gas_fee_rate" then Some []
  else None.

Definition is_invocation (fn : string) : bool :=
  String.eqb fn "mint" || String.eqb fn "set_gas_fee_rate".

Definition request_ok (c : Contract) (addr : Z) (fn : string) (args : list Json) : bool :=
  (addr =? contract_address c)
  && match test_args fn with
     | Some expected => Amounts.args_eqb args expected
     | None => false
     end.

Definition test_step (a : Z) (acct : Account) (s : TestState) (ev : Event)
  : option TestState :=
  match s, ev with
  | Stopped, _ => None
  | _, EPrint _ => Some s
  | Unbound, EFromAddress addr cl r =>
      if Amounts.json_eqb addr (JInt a) && String.eqb (node_url cl) (node_url (client acct))
      then Some (match r with Ret c => BoundTo c | Raise _ => Stopped end)
      else None
  | BoundTo c, ECall addr fn args _ =>
      if request_ok c addr fn args && negb (is_invocation fn) then Some s else None
  | BoundTo c, EInvoke addr fn args _ _ =>
      if request_ok c addr fn args && is_invocation fn then Some s else None
  | BoundTo c, EWait _ _ => Some s
  | _, _ => None
  end.

Definition test_post {A} (o : Outcome A) (s : TestState) : Prop := True.

(** Every request of [t] goes to the contract that an earlier binding
    by the address [a], over the client of [acct], returned, and carries
    the arguments of [test_args]; [mint] and [set_gas_fee_rate] are
    invoked, the other two are called. *)
Definition bound_requests (a : Z) (acct : Account) (t : Trace) : Prop :=
  forall j ev addr fn,
    nth_error t j = Some ev -> Routing.request_of ev = Some (addr, fn) ->
    exists i c,
      (i < j)%nat /\
      nth_error t i = Some (EFromAddress (JInt a) (client acct) (Ret c)) /\
      addr = contract_address c /\
      match ev with
      | ECall _ _ args _ => test_args fn = Some args /\ is_invocation fn = false
      | EInvoke _ _ args _ _ => test_args fn = Some args /\ is_invocation fn = true
      | _ => False
      end.

End TokenTest.
(** *** Further test doubles *)
Module Edges.
Import Py Sdk Config Scenario.

Definition not_json : Exn :=
  mkExn JSONDecodeError "Expecting value: line 1 column 1 (char 0)".

(** A private key that is not hexadecimal. *)
Definition bad_key : World :=
  double [("ACCOUNT_ADDRESS", "0xabc"); ("PRIVATE_KEY", "secret")] all_files [].

(** An address book that is there and is not JSON. *)
Definition broken_book : World :=
  double credentials [("deployment_addresses.json", Raise not_json)] [].

(** A contract class file without the key [abi], and one that is not
    JSON. *)
Definition no_abi : World :=
  double credentials
    [ ("target/dev/homebase_starknet_HancoinToken.contract_class.json",
       Ret (JDict [("sierra_program", JList [])])) ] [].

Definition broken_class_file : World :=
  double credentials
    [ ("target/dev/homebase_starknet_HancoinToken.contract_class.json", Raise not_json) ] [].

(** The call of [symbol] fails. *)
Definition symbol_fails : World :=
  double credentials all_files [("symbol", connection_error)].

(** A swap contract without supported tokens: every look-up answers 0. *)
Definition usdt_unset : World :=
  {| environ := environ happy;
     files := files happy;
     unicode := unicode happy;
     sdk_key_pair_error := sdk_key_pair_error happy;
     sdk_account_error := sdk_account_error happy;
     sdk_deploy_contract := sdk_deploy_contract happy;
     sdk_from_address := sdk_from_address happy;
     sdk_call := fun h addr fn args =>
       if String.eqb fn "get_supported_token" then Ret [("result", VInt 0)]
       else sdk_call happy h addr fn args;
     sdk_invoke := sdk_invoke happy;
     sdk_wait_for_acceptance := sdk_wait_for_acceptance happy;
     show_reply := show_reply happy |}.

End Edges.

(** *** What a normal return of [run_all_examples] means

    The four state-changing operations are submitted one per group, and
    the last line of the [try] block is printed only when all of them
    were accepted. *)
Module Progress.
Import Py Sdk.

(** The last line of the [try] block of [run_all_examples]. *)
Definition success_line : string := "‚úÖ All interactions completed successfully!".

(** The invocations of the groups, in the order of the groups (the swap
    group invokes nothing). *)
Definition operations : list string :=
  [ "transfer"; "request_loan"; "create_escrow"; "initiate_payment" ].

(** The functions whose invocation returned a handle and whose handle
    was then waited for with success, in the order of the waits;
    [pending] is the last handle returned and its function. *)
Fixpoint accepted_from (pending : option (string * Z)) (t : Trace) : list string :=
  match t with
  | [] => []
  | EInvoke _ fn _ _ (Ret tx) :: t' => accepted_from (Some (fn, tx_hash tx)) t'
  | EWait tx (Ret _) :: t' =>
      match pending with
      | Some (fn, tx') =>
          if tx =? tx' then fn :: accepted_from None t' else accepted_from pending t'
      | None => accepted_from None t'
      end
  | _ :: t' => accepted_from pending t'
  end.

Definition accepted_invocations (t : Trace) : list string := accepted_from None t.

(** The monitor: the handle waited for, the operations still to come,
    and whether the success line was printed. *)
Record ProgressState : Type := mkProgress {
  pending : option (string * Z);
  todo : list string;
  done : bool
}.

Definition progress_step (s : ProgressState) (ev : Event) : option ProgressState :=
  match ev with
  | EInvoke _ fn _ _ (Ret tx) => Some (mkProgress (Some (fn, tx_hash tx)) (todo s) (done s))
  | EWait tx (Ret _) =>
      match pending s with
      | Some (fn, tx') =>
          if tx =? tx' then
            match todo s with
            | next :: rest =>
                if String.eqb fn next then Some (mkProgress None rest (done s)) else None
            | [] => None
            end
          else Some s
      | None => Some s
      end
  | EPrint line =>
      if String.eqb line success_line then
        match todo s with
        | [] => Some (mkProgress (pending s) [] true)
        | _ :: _ => None
        end
      else Some s
  | _ => Some s
  end.

(** The events that leave the state as it is. *)
Definition quiet (ev : Event) : bool :=
  match ev with
  | EInvoke _ _ _ _ (Ret _) => false
  | EWait _ (Ret _) => false
  | EPrint line => negb (String.eqb line success_line)
  | _ => true
  end.

(** A group that returns has had its operation accepted; one that
    raises has not printed the success line. *)
Definition operation_post (after : ProgressState) (o : Outcome unit) (s : ProgressState) : Prop :=
  match o with
  | Ret _ => s = after
  | Raise _ => done s = false
  end.

Definition progress_post (o : Outcome unit) (s : ProgressState) : Prop :=
  match o with
  | Ret _ => todo s = [] /\ done s = true
  | Raise _ => done s = false
  end.

End Progress.

(* ===================================================================== *)
(** ** Reasoning about scripts *)
(* ===================================================================== *)

Module Rules.
Import Py Sdk Protocol.

Section Triples.
Context {S : Type} (step : S -> Event -> option S).

Lemma run_app s t1 t2 :
  run step s (t1 ++ t2)%list = match run step s t1 with Some s' => run step s' t2 | None => None end.
Proof.
  revert s; induction t1 as [|ev t1 IH]; intros s; simpl; [reflexivity|].
  destruct (step s ev); [apply IH | reflexivity].
Qed.

Lemma run_nth s t s' i ev :
  run step s t = Some s' -> nth_error t i = Some ev ->
  exists si si', run step s (firstn i t) = Some si /\ step si ev = Some si' /\
                 run step si' (skipn (Datatypes.S i) t) = Some s'.
Proof.
  revert s i; induction t as [|x t IH]; intros s i Hrun Hn.
  - destruct i; discriminate.
  - simpl in Hrun. destruct (step s x) as [s1|] eqn:Hs; [|discriminate].
    destruct i as [|i]; simpl in Hn.
    + injection Hn as ->. exists s, s1. simpl. auto.
    + destruct (IH s1 i Hrun Hn) as (si & si' & H1 & H2 & H3).
      exists si, si'. simpl. rewrite Hs. auto.
Qed.

(** The rule of sequencing, in weakest-precondition form: what [m]
    must establish is that the rest of the script meets [Q]. *)
Lemma triple_bind {A B} s (m : M A) (k : A -> M B) Q :
  triple step s m (fun o s' => match o with
                               | Ret a => triple step s' (k a) Q
                               | Raise e => Q (Raise e) s'
                               end) ->
  triple step s (bind m k) Q.
Proof.
  intros H w h. destruct (H w h) as (s' & Hr & Hq). unfold bind.
  destruct (m w h) as [t1 [a|e]]; simpl in *.
  - destruct (Hq w (h ++ t1)%list) as (s'' & Hr' & Hq').
    destruct (k a w (h ++ t1)%list) as [t2 o]; simpl in *.
    exists s''. rewrite run_app, Hr. auto.
  - exists s'; auto.
Qed.

Lemma triple_try {A} s (m : M A) (catches : Exn -> bool) (handler : Exn -> M A) Q :
  triple step s m (fun o s' => match o with
                               | Ret a => Q (Ret a) s'
                               | Raise e => if catches e then triple step s' (handler e) Q
                                            else Q (Raise e) s'
                               end) ->
  triple step s (try_except m catches handler) Q.
Proof.
  intros H w h. destruct (H w h) as (s' & Hr & Hq). unfold try_except.
  destruct (m w h) as [t1 [a|e]]; simpl in *.
  - exists s'; auto.
  - destruct (catches e).
    + destruct (Hq w (h ++ t1)%list) as (s'' & Hr' & Hq').
      destruct (handler e w (h ++ t1)%list) as [t2 o]; simpl in *.
      exists s''. rewrite run_app, Hr. auto.
    + exists s'; auto.
Qed.

Lemma triple_conseq {A} s (m : M A) (Q Q' : Outcome A -> S -> Prop) :
  triple step s m Q -> (forall o s', Q o s' -> Q' o s') -> triple step s m Q'.
Proof.
  intros H HQ w h. destruct (H w h) as (s' & Hr & Hq). eauto.
Qed.

(** Sequencing after a computation whose specification is known. *)
Lemma triple_seq {A B} s (m : M A) (k : A -> M B) Q1 Q :
  triple step s m Q1 ->
  (forall o s', Q1 o s' -> match o with
                           | Ret a => triple step s' (k a) Q
                           | Raise e => Q (Raise e) s'
                           end) ->
  triple step s (bind m k) Q.
Proof. intros H HQ. apply triple_bind. eapply triple_conseq; eauto. Qed.

Lemma triple_silent {A} s (m : M A) Q :
  (forall w h, fst (m w h) = []) -> (forall o, Q o s) -> triple step s m Q.
Proof. intros Hs HQ w h. exists s. rewrite Hs. simpl. auto. Qed.

Lemma triple_pure {A} s (m : M A) Q :
  (forall w h, exists a, m w h = ([], Ret a)) -> (forall a, Q (Ret a) s) -> triple step s m Q.
Proof. intros Hs HQ w h. exists s. destruct (Hs w h) as [a ->]. simpl. auto. Qed.

Lemma triple_ret {A} s (a : A) (Q : Outcome A -> S -> Prop) :
  Q (Ret a) s -> triple step s (ret a) Q.
Proof. intros H w h. exists s. simpl. auto. Qed.

Lemma triple_raise {A} s e (Q : Outcome A -> S -> Prop) :
  Q (Raise e) s -> triple step s (raise e) Q.
Proof. intros H w h. exists s. simpl. auto. Qed.

Lemma triple_lift {A} s (o : Outcome A) (Q : Outcome A -> S -> Prop) :
  Q o s -> triple step s (lift o) Q.
Proof. intros H w h. exists s. simpl. auto. Qed.

Lemma triple_print s line (Q : Outcome unit -> S -> Prop) s' :
  step s (EPrint line) = Some s' -> Q (Ret tt) s' -> triple step s (print line) Q.
Proof. intros Hs H w h. exists s'. simpl. rewrite Hs. auto. Qed.

Lemma triple_dump s path doc (Q : Outcome unit -> S -> Prop) s' :
  step s (EDump path doc) = Some s' -> Q (Ret tt) s' -> triple step s (dump_json path doc) Q.
Proof. intros Hs H w h. exists s'. simpl. rewrite Hs. auto. Qed.

Lemma triple_call s c fn args (Q : Outcome Reply -> S -> Prop) :
  (forall e, Q (Raise e) s) ->
  (forall r, exists s', step s (ECall (contract_address c) fn args r) = Some s' /\ Q r s') ->
  triple step s (call c fn args) Q.
Proof.
  intros He H w h. unfold call. destruct (functions_getitem c fn).
  - destruct (H (sdk_call w h (contract_address c) fn args)) as (s' & Hs & Hq).
    exists s'. simpl. rewrite Hs. auto.
  - exists s. simpl. auto.
Qed.

Lemma triple_invoke s c fn args fee (Q : Outcome SentTransaction -> S -> Prop) :
  (forall e, Q (Raise e) s) ->
  (forall r, exists s', step s (EInvoke (contract_address c) fn args fee r) = Some s' /\ Q r s') ->
  triple step s (invoke_v1 c fn args fee) Q.
Proof.
  intros He H w h. unfold invoke_v1. destruct (functions_getitem c fn).
  - destruct (H (sdk_invoke w h (contract_address c) fn args fee)) as (s' & Hs & Hq).
    exists s'. simpl. rewrite Hs. auto.
  - exists s. simpl. auto.
Qed.

Lemma triple_wait s tx (Q : Outcome unit -> S -> Prop) :
  (forall r, exists s', step s (EWait tx r) = Some s' /\ Q r s') ->
  triple step s (wait_for_acceptance tx) Q.
Proof.
  intros H w h. destruct (H (sdk_wait_for_acceptance w h tx)) as (s' & Hs & Hq).
  exists s'. simpl. rewrite Hs. auto.
Qed.

Lemma triple_from_address s a cl (Q : Outcome Contract -> S -> Prop) :
  (forall r, exists s', step s (EFromAddress a cl r) = Some s' /\ Q r s') ->
  triple step s (from_address a cl) Q.
Proof.
  intros H w h. destruct (H (sdk_from_address w h a cl)) as (s' & Hs & Hq).
  exists s'. simpl. rewrite Hs. auto.
Qed.

Lemma triple_deploy s args (Q : Outcome DeployResult -> S -> Prop) :
  (forall r, exists s', step s (EDeploy args r) = Some s' /\ Q r s') ->
  triple step s (deploy_contract args) Q.
Proof.
  intros H w h. destruct (H (sdk_deploy_contract w h args)) as (s' & Hs & Hq).
  exists s'. simpl. rewrite Hs. auto.
Qed.

(** The constructors of the SDK send nothing; one that returns,
    returns the object built from its arguments. *)
Lemma triple_from_private_key s key (Q : Outcome Z -> S -> Prop) :
  (forall e, Q (Raise e) s) -> Q (Ret key) s -> triple step s (from_private_key key) Q.
Proof.
  intros He Hr w h. exists s. unfold from_private_key. simpl.
  destruct (sdk_key_pair_error w key); auto.
Qed.

Lemma triple_new_account s a cl kp ch (Q : Outcome Account -> S -> Prop) :
  (forall e, Q (Raise e) s) -> Q (Ret (mkAccount a cl kp ch)) s ->
  triple step s (new_account a cl kp ch) Q.
Proof.
  intros He Hr w h. exists s. unfold new_account. simpl.
  destruct (sdk_account_error w a cl kp ch); auto.
Qed.
End Triples.

Lemma interpreter_pure w h : exists a, interpreter w h = ([], Ret a).
Proof. eexists; reflexivity. Qed.

Lemma getenv_pure key w h : exists a, getenv key w h = ([], Ret a).
Proof. eexists; reflexivity. Qed.

Lemma getenv_default_pure key d w h : exists a, getenv_default key d w h = ([], Ret a).
Proof. eexists; reflexivity. Qed.

Lemma path_exists_pure p w h : exists a, path_exists p w h = ([], Ret a).
Proof. eexists; reflexivity. Qed.

Lemma str_reply_pure r w h : exists a, str_reply r w h = ([], Ret a).
Proof. eexists; reflexivity. Qed.

(** One step of a script, read backwards from the postcondition: [stp]
    proves the monitor's transition, [fin] the postcondition where the
    script stops, [exc] prepares the case of a request that raised. *)
Ltac script_result stp fin exc :=
  intros [?|?]; cbv beta iota; [ | exc ];
  eexists; (split; [stp | try solve [fin]]).

Ltac script_step stp fin exc :=
  lazymatch goal with
  | |- triple _ _ (bind _ _) _ => apply triple_bind
  | |- triple _ _ (try_except _ _ _) _ => apply triple_try
  | |- triple _ _ (print _) _ => eapply triple_print; [stp | cbv beta iota; try solve [fin]]
  | |- triple _ _ (dump_json _ _) _ => eapply triple_dump; [stp | cbv beta iota; try solve [fin]]
  | |- triple _ _ (ret _) _ => apply triple_ret; cbv beta iota; try solve [fin]
  | |- triple _ _ (raise _) _ => apply triple_raise; cbv beta iota; try solve [fin]
  | |- triple _ _ (lift ?o) _ =>
      apply triple_lift; destruct o eqn:?; cbv beta iota; try solve [fin]
  | |- triple _ _ (getenv _) _ =>
      apply triple_pure; [apply getenv_pure | intros ?; cbv beta iota; try solve [fin]]
  | |- triple _ _ (getenv_default _ _) _ =>
      apply triple_pure; [apply getenv_default_pure | intros ?; cbv beta iota; try solve [fin]]
  | |- triple _ _ (path_exists _) _ =>
      apply triple_pure; [apply path_exists_pure | intros ?; cbv beta iota; try solve [fin]]
  | |- triple _ _ (str_reply _) _ =>
      apply triple_pure; [apply str_reply_pure | intros ?; cbv beta iota; try solve [fin]]
  | |- triple _ _ interpreter _ =>
      apply triple_pure; [apply interpreter_pure | intros ?; cbv beta iota; try solve [fin]]
  | |- triple _ _ (from_private_key _) _ =>
      apply triple_from_private_key;
      [ intros ?; cbv beta iota; try solve [fin] | cbv beta iota; try solve [fin] ]
  | |- triple _ _ (new_account _ _ _ _) _ =>
      apply triple_new_account;
      [ intros ?; cbv beta iota; try solve [fin] | cbv beta iota; try solve [fin] ]
  | |- triple _ _ (load_json _) _ =>
      apply triple_silent; [reflexivity | intros [?|?]; cbv beta iota; try solve [fin]]
  | |- triple _ _ (call _ _ _) _ =>
      apply triple_call; [ intros ?; cbv beta iota; try solve [fin] | script_result stp fin exc ]
  | |- triple _ _ (invoke_v1 _ _ _ _) _ =>
      apply triple_invoke; [ intros ?; cbv beta iota; try solve [fin] | script_result stp fin exc ]
  | |- triple _ _ (wait_for_acceptance _) _ =>
      apply triple_wait; script_result stp fin exc
  | |- triple _ _ (from_address _ _) _ =>
      apply triple_from_address; script_result stp fin exc
  | |- triple _ _ (deploy_contract _) _ =>
      apply triple_deploy; script_result stp fin exc
  | |- triple _ _ (if ?b then _ else _) _ => destruct b eqn:?
  | |- triple _ _ (match ?x with _ => _ end) _ => destruct x eqn:?
  | |- if ?b then _ else _ =>
      match goal with
      | H : b = _ |- _ => rewrite H
      | _ => destruct b eqn:?
      end; try solve [fin]
  end.

End Rules.
Import Rules.

(* ===================================================================== *)
(** ** Acceptance is awaited before the next request *)
(* ===================================================================== *)

Module AwaitFacts.
Import Py Sdk Protocol Await.
Import DeployToken InteractionExamples.

Ltac await_stp := idtac; simpl; rewrite ?Z.eqb_refl; reflexivity.

Ltac await_fin :=
  idtac;
  lazymatch goal with
  | |- if _ then _ else _ => fail
  | |- triple _ _ _ _ => fail
  | |- _ => unfold safe, accepted; first [exact I | reflexivity]
  end.

Ltac await := repeat script_step await_stp await_fin idtac.

Ltac after_group lemma :=
  eapply triple_seq; [apply lemma | intros [[]|?] ? H; [rewrite H; clear H | exact I]].

Section Groups.
Variables (self : HomebaseInteraction) (c : Contracts).

Lemma token_safe : triple await_step Idle (token_interactions self c) safe.
Proof. unfold token_interactions. await. Qed.

Lemma loan_safe : triple await_step Idle (loan_interactions self c) safe.
Proof. unfold loan_interactions, loan_readback. await. Qed.

Lemma escrow_safe : triple await_step Idle (escrow_interactions self c) safe.
Proof. unfold escrow_interactions, escrow_readback. await. Qed.

Lemma swap_safe : triple await_step Idle (swap_interactions self c) safe.
Proof. unfold swap_interactions, swap_quote. await. Qed.

Lemma credit_card_safe : triple await_step Idle (credit_card_interactions self c) safe.
Proof. unfold credit_card_interactions, payment_readback. await. Qed.

Lemma all_groups_safe : triple await_step Idle (all_groups self c) safe.
Proof.
  unfold all_groups.
  after_group token_safe. after_group loan_safe. after_group escrow_safe.
  after_group swap_safe. after_group credit_card_safe. await.
Qed.
End Groups.

Lemma run_all_examples_accepted self :
  triple await_step Idle (run_all_examples self) accepted.
Proof.
  unfold run_all_examples, setup_contracts, bind_contract. await.
  eapply triple_conseq; [apply all_groups_safe|].
  intros [[]|e] st H; [exact I|].
  destruct (is_Exception e); [|exact I].
  destruct st; await.
Qed.

Lemma main_accepted : triple await_step Idle main accepted.
Proof.
  unfold main. await. unfold init. await.
  apply run_all_examples_accepted.
Qed.

Lemma deploy_token_accepted : triple await_step Idle deploy_token accepted.
Proof.
  unfold deploy_token, deploy_with, build_session. await.
  unfold deploy_and_report. await.
Qed.

Lemma test_token_functions_accepted a acct :
  triple await_step Idle (test_token_functions a acct) accepted.
Proof. unfold test_token_functions. await. Qed.

Lemma pending_then_wait tx t s j ej :
  run await_step (Pending tx) t = Some s ->
  nth_error t j = Some ej -> is_request ej = true ->
  exists k, (k < j)%nat /\ nth_error t k = Some (EWait tx (Ret tt)).
Proof.
  revert j; induction t as [|ev t IH]; intros j Hrun Hj Hreq.
  - destruct j; discriminate.
  - destruct j as [|j]; simpl in Hj.
    + injection Hj as ->. destruct ej; try discriminate; simpl in Hrun; discriminate.
    + simpl in Hrun. destruct ev; try discriminate.
      * destruct (IH j Hrun Hj Hreq) as (k & Hk & Hn). exists (S k). split; [lia | exact Hn].
      * simpl in Hrun. destruct (tx0 =? tx) eqn:Heq; [|discriminate].
        apply Z.eqb_eq in Heq. subst tx0. destruct res as [[]|e].
        -- exists 0%nat. split; [lia | reflexivity].
        -- destruct (IH j Hrun Hj Hreq) as (k & Hk & Hn). exists (S k). split; [lia | exact Hn].
Qed.

Lemma await_step_submission s ev s' tx :
  await_step s ev = Some s' -> submission ev = Some tx -> s' = Pending tx.
Proof.
  intros Hs Hsub. destruct ev; try discriminate; destruct res; try discriminate;
    destruct s; try discriminate; simpl in *; congruence.
Qed.

Lemma await_sound s0 t s :
  run await_step s0 t = Some s -> awaited_before_requests t.
Proof.
  revert s0; induction t as [|ev t IH]; intros s0 Hrun i j ei ej tx Hi Hsub Hj Hreq Hlt.
  - destruct i; discriminate.
  - simpl in Hrun. destruct (await_step s0 ev) as [s1|] eqn:Hstep; [|discriminate].
    destruct j as [|j]; [lia|]. simpl in Hj. destruct i as [|i]; simpl in Hi.
    + injection Hi as ->. rewrite (await_step_submission _ _ _ _ Hstep Hsub) in Hrun.
      destruct (pending_then_wait _ _ _ _ _ Hrun Hj Hreq) as (k & Hk & Hn).
      exists (S k). split; [lia | exact Hn].
    + destruct (IH _ Hrun i j ei ej tx Hi Hsub Hj Hreq) as (k & Hk & Hn); [lia|].
      exists (S k). split; [lia | exact Hn].
Qed.

End AwaitFacts.

(* ===================================================================== *)
(** ** Exceptions of the read-backs *)
(* ===================================================================== *)

Module ReadbackFacts.
Import Py Sdk Protocol Readback.
Import InteractionExamples.

Ltac rb_stp :=
  idtac;
  first [ eassumption
        | simpl;
          repeat match goal with H : is_Exception _ = _ |- _ => rewrite H end;
          rewrite ?String.eqb_refl; simpl; reflexivity ].

Ltac rb_fin :=
  idtac;
  lazymatch goal with
  | |- if _ then _ else _ => fail
  | |- triple _ _ _ _ => fail
  | |- _ =>
      unfold group_post, groups_post, run_post;
      first [ reflexivity | eassumption | left; reflexivity | right; reflexivity
            | right; left; reflexivity | right; right; split; [reflexivity | assumption] ]
  end.

Ltac rb_exc :=
  idtac;
  lazymatch goal with
  | e : Exn |- _ => destruct (is_Exception e) eqn:?
  end.

Ltac rb := repeat script_step rb_stp rb_fin rb_exc.

Ltac rb_after lemma :=
  let H := fresh "Hpost" in
  eapply triple_seq;
  [ apply lemma; try reflexivity; try assumption
  | intros [[]|?] ? H; [ unfold group_post in H | exact H ] ].

Section Groups.
Variables (self : HomebaseInteraction) (c : Contracts).

Lemma token_reports :
  triple readback_step Run (token_interactions self c) (group_post loan_banner).
Proof. unfold token_interactions. rb. Qed.

Lemma loan_reports s :
  readback_step s (EPrint loan_banner) = Some Run ->
  triple readback_step s (loan_interactions self c) (group_post escrow_banner).
Proof. intros Hstart. unfold loan_interactions, loan_readback. rb. Qed.

Lemma escrow_reports s :
  readback_step s (EPrint escrow_banner) = Some Run ->
  triple readback_step s (escrow_interactions self c) (group_post swap_banner).
Proof. intros Hstart. unfold escrow_interactions, escrow_readback. rb. Qed.

Lemma swap_reports s :
  readback_step s (EPrint swap_banner) = Some Run ->
  triple readback_step s (swap_interactions self c) (group_post credit_card_banner).
Proof. intros Hstart. unfold swap_interactions, swap_quote. rb. Qed.

Lemma credit_card_reports s :
  readback_step s (EPrint credit_card_banner) = Some Run ->
  triple readback_step s (credit_card_interactions self c) (group_post closing_rule).
Proof. intros Hstart. unfold credit_card_interactions, payment_readback. rb. Qed.

Lemma all_groups_report : triple readback_step Run (all_groups self c) groups_post.
Proof.
  unfold all_groups.
  rb_after token_reports. rb_after loan_reports. rb_after escrow_reports.
  rb_after swap_reports. rb_after credit_card_reports. rb.
Qed.
End Groups.

Lemma run_all_examples_reports self :
  triple readback_step Run (run_all_examples self) run_post.
Proof.
  unfold run_all_examples, setup_contracts, bind_contract. rb.
  eapply triple_conseq; [apply all_groups_report|].
  intros [[]|e] st H; [exact H|].
  destruct (is_Exception e) eqn:He.
  - destruct H as [-> | ->]; rb.
  - destruct H as [-> | ->]; unfold run_post; auto.
Qed.

(** Only [Run] lets a call through. *)
Lemma call_only_in_run s addr fn args r s' :
  readback_step s (ECall addr fn args r) = Some s' -> s = Run.
Proof. destruct s; simpl; intros H; try discriminate; reflexivity. Qed.

Lemma report_is_printed line next t s :
  run readback_step (Report line next) t = Some s ->
  (forall l n, s <> Report l n) -> (forall l, s <> Next l) ->
  nth_error t 0 = Some (EPrint line) /\ nth_error t 1 = Some (EPrint next).
Proof.
  intros Hrun H1 H2.
  destruct t as [|ev t]; simpl in Hrun; [injection Hrun as <-; exfalso; eapply H1; reflexivity|].
  destruct ev; try discriminate.
  destruct (String.eqb line0 line) eqn:Hl; [|discriminate].
  apply String.eqb_eq in Hl. subst line0.
  destruct t as [|ev t]; simpl in Hrun; [injection Hrun as <-; exfalso; eapply H2; reflexivity|].
  destruct ev; try discriminate.
  destruct (String.eqb line0 next) eqn:Hn; [|discriminate].
  apply String.eqb_eq in Hn. subst line0. split; reflexivity.
Qed.

Lemma abort_ends_run e t s :
  run readback_step (Abort e) t = Some s ->
  t = (if is_Exception e then [EPrint (error_line e)] else []) /\ s = Ended e \/
  t = [] /\ s = Abort e.
Proof.
  intros Hrun. destruct t as [|ev t]; simpl in Hrun.
  - right. injection Hrun as <-. auto.
  - left. destruct ev; try discriminate.
    destruct (is_Exception e); [|discriminate]. simpl in Hrun.
    destruct (String.eqb line (error_line e)) eqn:Hl; [|discriminate].
    apply String.eqb_eq in Hl. subst line.
    destruct t as [|ev t]; simpl in Hrun; [|discriminate].
    injection Hrun as <-. auto.
Qed.

Lemma run_post_not_report {A} (o : Outcome A) s :
  run_post o s -> (forall l n, s <> Report l n) /\ (forall l, s <> Next l).
Proof.
  destruct o; simpl; intros H.
  - subst s. split; intros; discriminate.
  - destruct H as [-> | [-> | [-> _]]]; split; intros; discriminate.
Qed.

Lemma reports_sound t (o : Outcome unit) s :
  run readback_step Run t = Some s -> run_post o s ->
  reported_then_continued t /\ otherwise_aborted t o.
Proof.
  intros Hrun Hpost. split.
  - intros i addr fn args e report next Hi Hrb He.
    destruct (run_nth _ _ _ _ _ _ Hrun Hi) as (si & si' & _ & Hstep & Hrest).
    rewrite (call_only_in_run _ _ _ _ _ _ Hstep) in Hstep. simpl in Hstep.
    rewrite Hrb, He in Hstep. injection Hstep as <-.
    destruct (run_post_not_report _ _ Hpost) as [N1 N2].
    destruct (report_is_printed _ _ _ _ Hrest N1 N2) as [P1 P2].
    rewrite nth_error_skipn in P1, P2.
    replace (S i + 0)%nat with (S i) in P1 by lia.
    replace (S i + 1)%nat with (S (S i)) in P2 by lia. auto.
  - intros i ev e Hi Hraised Hcaught.
    destruct (run_nth _ _ _ _ _ _ Hrun Hi) as (si & si' & _ & Hstep & Hrest).
    assert (si' = Abort e) as ->.
    { destruct ev; try discriminate; destruct res; try discriminate;
        injection Hraised as ->; destruct si; try discriminate;
        simpl in Hstep, Hcaught; [|congruence|congruence].
      destruct (readback fn) as [[? ?]|]; [rewrite Hcaught in Hstep|]; congruence. }
    destruct (abort_ends_run _ _ _ Hrest) as [[Ht ->] | [Ht ->]].
    + split; [|exact Ht]. destruct o; simpl in Hpost; [discriminate|].
      destruct Hpost as [H | [H | [H _]]]; congruence.
    + destruct o; simpl in Hpost; [discriminate|].
      destruct Hpost as [H | [H | [H He]]]; try discriminate.
      injection H as <-. rewrite He. auto.
Qed.

End ReadbackFacts.

(* ===================================================================== *)
(** ** Amounts are passed on unscaled *)
(* ===================================================================== *)

Module AmountsFacts.
Import Py Sdk Protocol Amounts.
Import InteractionExamples.

(** The amounts stay as written ([1000 * 10 ^ 18]): [simpl] must not
    evaluate them. *)
#[local] Arguments Z.pow : simpl never.
#[local] Arguments Z.mul : simpl never.

Lemma json_eqb_eq a b : json_eqb a b = true -> a = b.
Proof.
  destruct a, b; simpl; intros H; try discriminate; try reflexivity.
  - apply Bool.eqb_prop in H. congruence.
  - apply Z.eqb_eq in H. congruence.
  - apply String.eqb_eq in H. congruence.
Qed.

Lemma json_eqb_val v : json_eqb (to_json v) (to_json v) = true.
Proof.
  destruct v; simpl; [apply Z.eqb_refl | apply Bool.eqb_reflx | apply String.eqb_refl].
Qed.

Lemma args_eqb_eq l1 l2 : args_eqb l1 l2 = true -> l1 = l2.
Proof.
  revert l2; induction l1 as [|a l1 IH]; intros [|b l2]; simpl; intros H;
    try discriminate; [reflexivity|].
  apply andb_true_iff in H as [H1 H2].
  apply json_eqb_eq in H1. apply IH in H2. congruence.
Qed.

Lemma quote_step v addr token r :
  amounts_step (Some v)
    (ECall addr "get_swap_quote" [token; to_json v; JInt (1000 * 10 ^ 18)] r) = Some (Some v).
Proof.
  unfold amounts_step. cbv iota beta.
  replace (String.eqb "get_swap_quote" "get_swap_quote") with true by (vm_compute; reflexivity).
  cbv iota beta. rewrite json_eqb_val.
  replace (1000 * 10 ^ 18 =? 1000 * 10 ^ 18) with true by (vm_compute; reflexivity).
  reflexivity.
Qed.

Lemma neutral_step s ev : neutral ev = true -> amounts_step s ev = Some s.
Proof.
  destruct ev; simpl; try reflexivity.
  - intros H. apply andb_true_iff in H as [H H3]. apply andb_true_iff in H as [H1 H2].
    apply negb_true_iff in H1, H2. rewrite H1, H2, H3. reflexivity.
  - destruct (raw_args fn); [|discriminate]. intros ->. reflexivity.
Qed.

Lemma usdt_step s addr reply :
  amounts_step s (ECall addr "get_supported_token" [JStr "USDT"] (Ret reply))
  = Some (match getattr reply "result" with Ret v => Some v | Raise _ => None end).
Proof. reflexivity. Qed.

Lemma usdt_raise_step s addr e :
  amounts_step s (ECall addr "get_supported_token" [JStr "USDT"] (Raise e)) = Some None.
Proof. reflexivity. Qed.

Ltac am_stp :=
  idtac;
  lazymatch goal with
  | |- amounts_step (Some _) (ECall _ "get_swap_quote" _ _) = _ => apply quote_step
  | |- amounts_step _ (ECall _ "get_supported_token" [JStr "USDT"] (Ret _)) = _ =>
      apply usdt_step
  | |- amounts_step _ (ECall _ "get_supported_token" [JStr "USDT"] (Raise _)) = _ =>
      apply usdt_raise_step
  | |- _ => apply neutral_step; vm_compute; reflexivity
  end.

Ltac am_fin :=
  idtac;
  lazymatch goal with
  | |- if _ then _ else _ => fail
  | |- triple _ _ _ _ => fail
  | |- _ => exact I
  end.

Ltac am := repeat script_step am_stp am_fin idtac.

Ltac am_after lemma :=
  eapply triple_seq; [apply lemma | intros [[]|?] ? _; [ | exact I ] ].

Section Groups.
Variables (self : HomebaseInteraction) (c : Contracts).

Lemma token_amounts s : triple amounts_step s (token_interactions self c) any_state.
Proof. unfold token_interactions. am. Qed.

Lemma loan_amounts s : triple amounts_step s (loan_interactions self c) any_state.
Proof. unfold loan_interactions, loan_readback. am. Qed.

Lemma escrow_amounts s : triple amounts_step s (escrow_interactions self c) any_state.
Proof. unfold escrow_interactions, escrow_readback. am. Qed.

Lemma swap_amounts s : triple amounts_step s (swap_interactions self c) any_state.
Proof. unfold swap_interactions, swap_quote. am. Qed.

Lemma credit_card_amounts s :
  triple amounts_step s (credit_card_interactions self c) any_state.
Proof. unfold credit_card_interactions, payment_readback. am. Qed.

Lemma all_groups_amounts s : triple amounts_step s (all_groups self c) any_state.
Proof.
  unfold all_groups.
  am_after token_amounts. am_after loan_amounts. am_after escrow_amounts.
  am_after swap_amounts. am_after credit_card_amounts. am.
Qed.
End Groups.

Lemma run_all_examples_amounts self s :
  triple amounts_step s (run_all_examples self) any_state.
Proof.
  unfold run_all_examples, setup_contracts, bind_contract. am.
  eapply triple_conseq; [apply all_groups_amounts|].
  intros [[]|e] st _; [exact I|].
  destruct (is_Exception e); [|exact I]. am.
Qed.

(** Where the remembered token comes from. *)
Lemma remembered_token s0 t v :
  run amounts_step s0 t = Some (Some v) ->
  s0 = Some v \/
  exists j addr reply,
    nth_error t j = Some (ECall addr "get_supported_token" [JStr "USDT"] (Ret reply)) /\
    getattr reply "result" = Ret v.
Proof.
  revert s0; induction t as [|ev t IH]; intros s0 Hrun; simpl in Hrun.
  - left. congruence.
  - destruct (amounts_step s0 ev) as [s1|] eqn:Hstep; [|discriminate].
    destruct (IH s1 Hrun) as [-> | (j & addr & reply & Hj & Hv)].
    2:{ right. exists (S j), addr, reply. auto. }
    destruct ev; simpl in Hstep; try (left; congruence).
    + destruct (String.eqb fn "get_swap_quote").
      { destruct s0 as [v0|]; [|discriminate].
        destruct args as [|? [|x [|[] [|]]]]; try discriminate.
        destruct (_ && _); [left; congruence | discriminate]. }
      destruct (String.eqb fn "get_supported_token" && args_eqb args [JStr "USDT"]) eqn:Hu.
      * apply andb_true_iff in Hu as [Hf Ha].
        apply String.eqb_eq in Hf. apply args_eqb_eq in Ha. subst fn args.
        destruct res as [reply|e]; [|discriminate].
        right. exists 0%nat, addr, reply. split; [reflexivity|].
        destruct (getattr reply "result"); congruence.
      * destruct (expected_args fn args); [left; congruence | discriminate].
    + destruct (raw_args fn); [|discriminate].
      destruct (args_eqb args l); [left; congruence | discriminate].
Qed.

Lemma amounts_sound t s : run amounts_step None t = Some s -> raw_amounts t.
Proof.
  intros Hrun. repeat split.
  - intros i addr fn args fee r Hi.
    destruct (run_nth _ _ _ _ _ _ Hrun Hi) as (si & si' & _ & Hstep & _).
    simpl in Hstep. destruct (raw_args fn) as [expected|]; [|discriminate].
    destruct (args_eqb args expected) eqn:He; [|discriminate].
    apply args_eqb_eq in He. congruence.
  - intros i addr fn args r expected Hi Hexp.
    destruct (run_nth _ _ _ _ _ _ Hrun Hi) as (si & si' & _ & Hstep & _).
    simpl in Hstep.
    assert (Hq : String.eqb fn "get_swap_quote" = false).
    { destruct (String.eqb fn "get_swap_quote") eqn:Hq; [|reflexivity].
      apply String.eqb_eq in Hq. subst fn. discriminate. }
    assert (Hu : String.eqb fn "get_supported_token" = false).
    { destruct (String.eqb fn "get_supported_token") eqn:Hu; [|reflexivity].
      apply String.eqb_eq in Hu. subst fn. discriminate. }
    rewrite Hq, Hu in Hstep. simpl in Hstep. unfold expected_args in Hstep.
    rewrite Hexp in Hstep.
    destruct (args_eqb args expected) eqn:He; [|discriminate].
    apply args_eqb_eq in He. exact He.
  - intros i addr args r Hi.
    destruct (run_nth _ _ _ _ _ _ Hrun Hi) as (si & si' & Hpre & Hstep & _).
    simpl in Hstep. destruct si as [v|]; [|discriminate].
    destruct args as [|token [|x [|[] [|]]]]; try discriminate.
    destruct (json_eqb x (to_json v)) eqn:Hx; [|discriminate].
    destruct (z =? 1000 * 10 ^ 18) eqn:Hz; [|discriminate].
    apply json_eqb_eq in Hx. apply Z.eqb_eq in Hz. subst x z.
    destruct (remembered_token _ _ _ Hpre) as [? | (j & addr' & reply & Hj & Hv)];
      [discriminate|].
    rewrite nth_error_firstn in Hj.
    destruct (Nat.ltb j i) eqn:Hlt; [|discriminate]. apply Nat.ltb_lt in Hlt.
    exists j, addr', reply, v, token. auto.
Qed.

End AmountsFacts.

(* ===================================================================== *)
(** ** The deploy flow *)
(* ===================================================================== *)

Module DeployFlowFacts.
Import Py Sdk Protocol DeployFlow.
Import DeployToken.

Lemma truthy_some o : truthy o = true -> exists a, o = Some a.
Proof. destruct o as [a|]; [eauto | discriminate]. Qed.

Ltac df_stp :=
  idtac; unfold deploy_step, owner_is_deployer; simpl;
  rewrite ?Z.eqb_refl, ?String.eqb_refl; reflexivity.

Ltac df_fin :=
  idtac;
  lazymatch goal with
  | |- if _ then _ else _ => fail
  | |- triple _ _ _ _ => fail
  | |- _ => exact I
  end.

Ltac df := repeat script_step df_stp df_fin idtac.

Lemma deploy_with_flow n a k :
  triple (deploy_step a) BeforeDeploy (deploy_with n a k) deploy_post.
Proof.
  unfold deploy_with.
  destruct (negb _ || negb _) eqn:Hguard; [df|].
  apply orb_false_iff in Hguard as [Ha _]. apply negb_false_iff, truthy_some in Ha.
  destruct Ha as [owner ->].
  unfold build_session. df.
  unfold deploy_and_report. df.
Qed.

(** [deploy_token] reads the three variables and goes on with them. *)
Lemma deploy_token_reads_environment w :
  deploy_token w [] =
    deploy_with (match environ w "NETWORK" with Some n => n | None => "testnet" end)
      (environ w "ACCOUNT_ADDRESS") (environ w "PRIVATE_KEY") w [].
Proof.
  unfold deploy_token. cbv beta iota zeta delta [bind getenv getenv_default app].
  destruct (deploy_with _ _ _ w []) as [t o]. reflexivity.
Qed.

Lemma halted_stays a t s : run (deploy_step a) Halted t = Some s -> t = [] /\ s = Halted.
Proof. destruct t; simpl; intros H; [injection H as <-; auto | discriminate]. Qed.

Lemma bound_stays a d t s : run (deploy_step a) (Bound d) t = Some s -> s = Bound d.
Proof.
  revert s; induction t as [|ev t IH]; intros s H; simpl in H; [congruence|].
  destruct ev; try discriminate; simpl in H; auto.
  destruct (addr =? _); [auto | discriminate].
Qed.

Lemma deployed_then_bound a d' t d :
  run (deploy_step a) (Deployed d') t = Some (Bound d) ->
  d' = d /\ exists k, nth_error t k = Some (EWait (hash d) (Ret tt)).
Proof.
  induction t as [|ev t IH]; intros H; simpl in H; [discriminate|].
  destruct ev; try discriminate.
  - destruct (IH H) as [-> [k Hk]]. split; [reflexivity | exists (S k); exact Hk].
  - simpl in H. destruct (tx =? hash d') eqn:Htx; [|discriminate].
    apply Z.eqb_eq in Htx. subst tx. destruct res as [[]|e].
    + apply bound_stays in H. injection H as ->.
      split; [reflexivity | exists 0%nat; reflexivity].
    + apply halted_stays in H as [_ H]. discriminate.
Qed.

Lemma before_then_bound a t d :
  run (deploy_step a) BeforeDeploy t = Some (Bound d) ->
  exists i k dargs,
    (i < k)%nat /\ nth_error t i = Some (EDeploy dargs (Ret d)) /\
    nth_error t k = Some (EWait (hash d) (Ret tt)).
Proof.
  induction t as [|ev t IH]; intros H; simpl in H; [discriminate|].
  destruct ev; try discriminate.
  - destruct (IH H) as (i & k & dargs & Hlt & Hi & Hk).
    exists (S i), (S k), dargs. repeat split; [lia | exact Hi | exact Hk].
  - simpl in H. destruct (owner_is_deployer a args); [|discriminate].
    destruct res as [d'|e].
    + apply deployed_then_bound in H as [-> [k Hk]].
      exists 0%nat, (S k), args. repeat split; [lia | exact Hk].
    + apply halted_stays in H as [_ H]. discriminate.
Qed.

Lemma deploy_flow_sound a t s :
  run (deploy_step a) BeforeDeploy t = Some s ->
  deploys_for_owner a t /\ bound_after_acceptance t.
Proof.
  intros Hrun. split.
  - intros i args r Hi.
    destruct (run_nth _ _ _ _ _ _ Hrun Hi) as (si & si' & _ & Hstep & _).
    destruct si; try discriminate. simpl in Hstep.
    unfold owner_is_deployer in Hstep.
    destruct a as [a|]; [|discriminate].
    destruct (address (account args)) as [a'|]; [|discriminate].
    destruct (constructor_args args) as [|[] [|]]; try discriminate.
    destruct (String.eqb a' a) eqn:Ha; [|discriminate].
    destruct (String.eqb s0 a) eqn:Hx; [|discriminate].
    apply String.eqb_eq in Ha, Hx. subst a' s0. exists a. auto.
  - intros j addr fn args r Hj.
    destruct (run_nth _ _ _ _ _ _ Hrun Hj) as (si & si' & Hpre & Hstep & _).
    destruct si as [|d|d|]; try discriminate. simpl in Hstep.
    destruct (addr =? contract_address (deployed_contract d)) eqn:Haddr; [|discriminate].
    apply Z.eqb_eq in Haddr.
    destruct (before_then_bound _ _ _ Hpre) as (i & k & dargs & Hlt & Hi & Hk).
    rewrite nth_error_firstn in Hi, Hk.
    destruct (Nat.ltb i j); [|discriminate].
    destruct (Nat.ltb k j) eqn:Hkj; [|discriminate]. apply Nat.ltb_lt in Hkj.
    exists i, k, dargs, d. auto.
Qed.

End DeployFlowFacts.

(* ===================================================================== *)
(** ** Configuration failures, the network table and the set-up *)
(* ===================================================================== *)

Module ConfigFacts.
Import Py Sdk Config.
Import DeployToken InteractionExamples.

(** Unfolding the monad on concrete histories. *)
Ltac run_script :=
  cbv beta iota zeta delta
    [bind ret raise lift try_except print getenv getenv_default path_exists load_json
     interpreter from_private_key new_account from_address app fst snd].

(** Decide the test or the scrutinee that [H] gives the value of. *)
Ltac settle H :=
  match type of H with
  | ?x = _ =>
      let E := fresh "E" in
      destruct x eqn:E; try discriminate H; try (injection H as ->); cbv beta iota
  end.

Lemma guard_of_missing w :
  credentials_missing w ->
  negb (truthy (environ w "ACCOUNT_ADDRESS")) || negb (truthy (environ w "PRIVATE_KEY")) = true.
Proof. intros [H | H]; rewrite H; simpl; [reflexivity | apply orb_true_r]. Qed.

Lemma deploy_token_missing_credentials w :
  credentials_missing w -> deploy_token w [] = ([], Raise credentials_error).
Proof.
  intros H. apply guard_of_missing in H.
  unfold deploy_token, deploy_with. run_script. settle H. reflexivity.
Qed.

Lemma main_missing_book w :
  files w address_book = None -> main w [] = (book_missing_lines, Ret tt).
Proof. intros H. unfold main. run_script. settle H. reflexivity. Qed.

Lemma main_missing_credentials w :
  files w address_book <> None -> credentials_missing w ->
  main w [] = (credentials_missing_lines, Ret tt).
Proof.
  intros Hf H. apply guard_of_missing in H.
  unfold main. run_script.
  destruct (files w address_book); [|contradiction].
  change (negb true) with false. cbv beta iota. settle H. reflexivity.
Qed.



(** The session builders send nothing and do not look at the history. *)
Lemma build_session_history n a k w h h' : build_session n a k w h = build_session n a k w h'.
Proof. unfold build_session. run_script. reflexivity. Qed.

Lemma build_session_silent n a k w h : fst (build_session n a k w h) = [].
Proof.
  unfold build_session. run_script.
  destruct (table_getitem _ _ _); [|reflexivity]. cbv beta iota.
  destruct (int16_opt _ _); [|reflexivity]. cbv beta iota.
  destruct (sdk_key_pair_error w _); reflexivity.
Qed.



Lemma build_session_bad_key n url a k e w h :
  table_getitem (unicode w) NETWORK_URL n = Ret url ->
  int16_opt (unicode w) k = Raise e ->
  build_session n a k w h = ([], Raise e).
Proof.
  intros Hurl Hz. unfold build_session. run_script.
  rewrite Hurl. cbv beta iota. rewrite Hz. reflexivity.
Qed.

(** [deploy_token] up to its session: what follows the two lines is
    what follows the session builder. *)
Lemma deploy_token_session_raises w e :
  truthy (environ w "ACCOUNT_ADDRESS") = true ->
  truthy (environ w "PRIVATE_KEY") = true ->
  build_session (selected_network w) (environ w "ACCOUNT_ADDRESS") (environ w "PRIVATE_KEY")
    w (deploy_header w) = ([], Raise e) ->
  deploy_token w [] = (deploy_header w, Raise e).
Proof.
  intros Ha Hk Hs.
  unfold deploy_token, deploy_with, deploy_header, selected_network in *.
  run_script. rewrite Ha, Hk. cbv beta iota delta [negb orb].
  rewrite Hs. reflexivity.
Qed.

Lemma deploy_token_missing_class_file w acct :
  truthy (environ w "ACCOUNT_ADDRESS") = true ->
  truthy (environ w "PRIVATE_KEY") = true ->
  session_built w acct ->
  files w class_file = None ->
  deploy_token w [] = (class_file_missing_lines w, Ret None).
Proof.
  intros Ha Hk Hs Hf.
  unfold session_built, deploy_token, deploy_with, deploy_header, class_file_missing_lines,
    selected_network in *.
  run_script. rewrite Ha, Hk. cbv beta iota delta [negb orb].
  rewrite Hs. cbv beta iota. rewrite Hf. reflexivity.
Qed.

Lemma deploy_token_bad_class_file w acct e :
  truthy (environ w "ACCOUNT_ADDRESS") = true ->
  truthy (environ w "PRIVATE_KEY") = true ->
  session_built w acct ->
  files w class_file = Some (Raise e) ->
  is_FileNotFoundError e = false ->
  deploy_token w [] = (deploy_header w, Raise e).
Proof.
  intros Ha Hk Hs Hf He.
  unfold session_built, deploy_token, deploy_with, deploy_header, selected_network in *.
  run_script. rewrite Ha, Hk. cbv beta iota delta [negb orb].
  rewrite Hs. cbv beta iota. rewrite Hf. cbv beta iota. rewrite He. reflexivity.
Qed.

Lemma deploy_token_no_abi w acct doc e :
  truthy (environ w "ACCOUNT_ADDRESS") = true ->
  truthy (environ w "PRIVATE_KEY") = true ->
  session_built w acct ->
  files w class_file = Some (Ret doc) ->
  getitem doc "abi" = Raise e ->
  deploy_token w [] = ((deploy_header w ++ [EPrint "📦 Deploying contract..."])%list, Raise e).
Proof.
  intros Ha Hk Hs Hf Habi.
  unfold session_built, deploy_token, deploy_with, deploy_and_report, deploy_header,
    selected_network in *.
  run_script. rewrite Ha, Hk. cbv beta iota delta [negb orb].
  rewrite Hs. cbv beta iota. rewrite Hf. cbv beta iota. rewrite Habi. reflexivity.
Qed.


Lemma init_bad_book w e :
  files w address_book = Some (Raise e) -> init w [] = ([], Raise e).
Proof. intros Hf. unfold init. run_script. rewrite Hf. reflexivity. Qed.

Lemma init_bad_key w doc e :
  files w address_book = Some (Ret doc) ->
  int16_opt (unicode w) (environ w "PRIVATE_KEY") = Raise e ->
  init w [] = ([], Raise e).
Proof.
  intros Hf Hz. unfold init. run_script. rewrite Hf. cbv beta iota. rewrite Hz. reflexivity.
Qed.

(** [main] past its two guards is [HomebaseInteraction()] and
    [run_all_examples]. *)
Lemma main_init_raises w e :
  files w address_book <> None ->
  truthy (environ w "ACCOUNT_ADDRESS") = true ->
  truthy (environ w "PRIVATE_KEY") = true ->
  init w [] = ([], Raise e) ->
  main w [] = ([], Raise e).
Proof.
  intros Hf Ha Hk Hi. unfold main. run_script.
  destruct (files w address_book) eqn:Hb; [|contradiction].
  cbv beta iota delta [negb]. rewrite Ha, Hk. cbv beta iota delta [negb orb].
  rewrite Hi. reflexivity.
Qed.

(** [setup_contracts]: either a resolution fails, having sent nothing
    but resolutions, or all five succeed. *)
Lemma setup_contracts_cases self w h :
  (exists ts e,
      setup_contracts self w h = (ts, Raise e) /\
      Forall (fun ev => is_resolution ev = true) ts) \/
  (exists c a1 a2 a3 a4 a5,
      book_entries self a1 a2 a3 a4 a5 /\
      setup_contracts self w h = (resolved (self_client self) a1 a2 a3 a4 a5 c, Ret c)).
Proof.
  unfold setup_contracts, bind_contract, resolved, book_entries. run_script.
  destruct (contract_entry self "hancoin_token") as [a1|e];
    [|left; eexists _, _; split; [reflexivity | constructor]].
  cbv beta iota.
  destruct (sdk_from_address w _ a1 (self_client self)) as [c1|e];
    [|left; eexists _, _; split; [reflexivity | repeat constructor]].
  cbv beta iota.
  destruct (contract_entry self "loan_contract") as [a2|e];
    [|left; eexists _, _; split; [reflexivity | repeat constructor]].
  cbv beta iota.
  destruct (sdk_from_address w _ a2 (self_client self)) as [c2|e];
    [|left; eexists _, _; split; [reflexivity | repeat constructor]].
  cbv beta iota.
  destruct (contract_entry self "escrow_contract") as [a3|e];
    [|left; eexists _, _; split; [reflexivity | repeat constructor]].
  cbv beta iota.
  destruct (sdk_from_address w _ a3 (self_client self)) as [c3|e];
    [|left; eexists _, _; split; [reflexivity | repeat constructor]].
  cbv beta iota.
  destruct (contract_entry self "swap_contract") as [a4|e];
    [|left; eexists _, _; split; [reflexivity | repeat constructor]].
  cbv beta iota.
  destruct (sdk_from_address w _ a4 (self_client self)) as [c4|e];
    [|left; eexists _, _; split; [reflexivity | repeat constructor]].
  cbv beta iota.
  destruct (contract_entry self "credit_card_simulator") as [a5|e];
    [|left; eexists _, _; split; [reflexivity | repeat constructor]].
  cbv beta iota.
  destruct (sdk_from_address w _ a5 (self_client self)) as [c5|e];
    [|left; eexists _, _; split; [reflexivity | repeat constructor]].
  right. exists (mkContracts c1 c2 c3 c4 c5), a1, a2, a3, a4, a5.
  repeat split; reflexivity.
Qed.

(** With the five entries in the address book and the five resolutions
    answered, [setup_contracts] returns the five bindings. *)
Lemma setup_contracts_resolves self w a1 a2 a3 a4 a5 c :
  book_entries self a1 a2 a3 a4 a5 ->
  sdk_resolves w (self_client self) a1 a2 a3 a4 a5 c ->
  setup_contracts self w header = (resolved (self_client self) a1 a2 a3 a4 a5 c, Ret c).
Proof.
  intros (E1 & E2 & E3 & E4 & E5) (R1 & R2 & R3 & R4 & R5).
  destruct c as [c1 c2 c3 c4 c5].
  unfold asked_after, resolved in R1, R2, R3, R4, R5.
  cbn [firstn app token_contract loan_contract escrow_contract swap_contract
       credit_card_contract] in R1, R2, R3, R4, R5.
  unfold setup_contracts, bind_contract, resolved. run_script.
  rewrite E1. cbv beta iota. unfold header in *. cbn [app] in *.
  rewrite R1. cbv beta iota.
  rewrite E2. cbv beta iota. rewrite R2. cbv beta iota.
  rewrite E3. cbv beta iota. rewrite R3. cbv beta iota.
  rewrite E4. cbv beta iota. rewrite R4. cbv beta iota.
  rewrite E5. cbv beta iota. rewrite R5. reflexivity.
Qed.

(** [run_all_examples] from the start of a run: the header, the set-up,
    and only after a successful set-up the groups. *)
Lemma run_all_examples_unfold self w :
  run_all_examples self w [] =
    match setup_contracts self w header with
    | (ts, Ret c) =>
        let '(tg, o) := groups_or_error self c w (header ++ ts)%list in
        ((header ++ ts ++ tg)%list, o)
    | (ts, Raise e) => ((header ++ ts)%list, Raise e)
    end.
Proof.
  unfold run_all_examples, header.
  cbv beta iota zeta delta [bind print app fst snd].
  destruct (setup_contracts self w _) as [ts [c|e]]; [|reflexivity].
  unfold groups_or_error. destruct (try_except _ _ _ w _) as [tg o]. reflexivity.
Qed.

End ConfigFacts.

(* ===================================================================== *)
(** ** The built-ins, checked on known values *)
(* ===================================================================== *)

Module PyFacts.
Import Py Sdk Scenario.

(** [repr] of a quotient, as CPython prints it. *)
Example repr_of_quotients :
  map (fun '(a, b) => display Plain (VInt a) b)
      [ (1, 10); (1, 3); (2, 3); (10 ^ 22, 1); (10 ^ 16, 1);
        (123456789012345678, 1); (1, 100000); (-7, 2) ]
  = map Ret [ "0.1"; "0.3333333333333333"; "0.6666666666666666"; "1e+22"; "1e+16";
              "1.2345678901234568e+17"; "1e-05"; "-3.5" ].
Proof. vm_compute. reflexivity. Qed.

(** Fixed-point formats round the exact binary value, ties to even. *)
Example fixed_point_formats :
  ( display Comma2f (VInt 1) 8, display Comma2f (VInt 3) 8,
    display Comma0f (VInt 5) 2, display Comma0f (VInt 7) 2,
    display Comma2f (VInt 1234567) 1, display Comma0f (VInt (-1)) 4 )
  = ( Ret "0.12", Ret "0.38", Ret "2", Ret "4", Ret "1,234,567.00", Ret "-0" ).
Proof. vm_compute. reflexivity. Qed.

Example quotient_too_large :
  display Plain (VInt (10 ^ 400)) 1
  = Raise (mkExn OverflowError "integer division result too large for a float").
Proof. vm_compute. reflexivity. Qed.

Example int_and_hex :
  (int16 ascii_tables "0x_1f", int16 ascii_tables " ff ", hex (-255),
   format_int_comma (-1234567))
  = (Ret 31, Ret 255, "-0xff", "-1,234,567").
Proof. vm_compute. reflexivity. Qed.

Example int16_rejects :
  map parse_int16 [ ""; "0x"; "1__0"; "1_"; "g"; "0x-1" ] = [ None; None; None; None; None; None ].
Proof. vm_compute. reflexivity. Qed.

(** [repr] of ASCII texts: the quote chosen, and what is escaped. *)
Example repr_of_texts :
  map repr_ascii
    [ "devnet"; "dev'net"; String dquote "x"; String dquote "'"; "a\b";
      String (ascii_of_nat 9) (String (ascii_of_nat 27) (String (ascii_of_nat 127) "z")) ]
  = [ "'devnet'"; String dquote ("dev'net" ++ String dquote EmptyString);
      String squote (String dquote "x'"); String squote (String dquote "\''");
      "'a\\b'"; "'\t\x1b\x7fz'" ].
Proof. vm_compute. reflexivity. Qed.

(** The message of [int] holds [repr] of the text. *)
Example int16_message :
  (int16 ascii_tables "zz", int16 ascii_tables "0x'")
  = (Raise (mkExn ValueError "invalid literal for int() with base 16: 'zz'"),
     Raise (mkExn ValueError
              ("invalid literal for int() with base 16: "
                 ++ String dquote ("0x'" ++ String dquote EmptyString)))).
Proof. vm_compute. reflexivity. Qed.

End PyFacts.

(* ===================================================================== *)
(** ** The scripts on the example worlds *)
(* ===================================================================== *)

Module ScenarioFacts.
Import Py Sdk Config Scenario.
Import DeployToken InteractionExamples.

(** [session] is what [HomebaseInteraction()] builds in [happy]. *)
Example init_happy : init happy [] = ([], Ret session).
Proof. vm_compute. reflexivity. Qed.

(** With every request answered, both scripts run to the end. *)
Example main_happy :
  snd (main happy []) = Ret tt /\ List.length (fst (main happy [])) = 115%nat.
Proof. vm_compute. split; reflexivity. Qed.

Example deploy_token_happy :
  snd (deploy_token happy []) = Ret (Some (43981, deployed_contract deployed)) /\
  List.length (fst (deploy_token happy [])) = 34%nat.
Proof. vm_compute. split; reflexivity. Qed.

(** The double's SDK refuses the key 0 and an address that is no
    hexadecimal number: neither script gets its session, and the deploy
    script never looks at the class file. *)
Example refused_key :
  init zero_key [] = ([], Raise key_refused) /\
  main zero_key [] = ([], Raise key_refused) /\
  deploy_token zero_key [] = (deploy_header zero_key, Raise key_refused).
Proof. vm_compute. repeat split; reflexivity. Qed.

Example refused_address :
  files bad_address class_file = None /\
  deploy_token bad_address [] = (deploy_header bad_address, Raise address_refused).
Proof. vm_compute. split; reflexivity. Qed.

End ScenarioFacts.

(* ===================================================================== *)
(** ** The claims of the specification *)
(* ===================================================================== *)

Import Py Sdk Protocol.
Import DeployToken InteractionExamples.
Import Await Readback Amounts DeployFlow Config Scenario.

(** C1.  In every workflow ([main] of the interaction script,
    [deploy_token] and [test_token_functions] of the deploy script) and
    whatever the network answers: once an invocation or the deployment
    has been submitted and returned a handle, no further request (no
    read in particular) is sent before the wait for the acceptance of
    that handle has returned. *)
Theorem acceptance_awaited_before_next_request :
  forall w,
    awaited_before_requests (fst (main w [])) /\
    awaited_before_requests (fst (deploy_token w [])) /\
    (forall a acct, awaited_before_requests (fst (test_token_functions a acct w []))).
Proof.
  intros w. repeat split; [| |intros a acct].
  - destruct (AwaitFacts.main_accepted w []) as (s & H & _).
    eapply AwaitFacts.await_sound; eauto.
  - destruct (AwaitFacts.deploy_token_accepted w []) as (s & H & _).
    eapply AwaitFacts.await_sound; eauto.
  - destruct (AwaitFacts.test_token_functions_accepted a acct w []) as (s & H & _).
    eapply AwaitFacts.await_sound; eauto.
Qed.

(** C1 on [happy]: the transfer is submitted at position 22 and the
    recipient's balance is read at position 25; the wait lies between. *)
Lemma acceptance_awaited_in_happy :
  exists k, (22 < k < 25)%nat /\ nth_error (fst (main happy [])) k = Some (EWait 22 (Ret tt)).
Proof.
  destruct (acceptance_awaited_before_next_request happy) as [H _].
  eapply (H 22%nat 25%nat).
  - vm_compute. reflexivity.
  - vm_compute. reflexivity.
  - vm_compute. reflexivity.
  - reflexivity.
  - lia.
Defined.




(** C3, as the code has it.  In [run_all_examples], whatever the network
    answers: a read-back call that raises any exception derived from
    [Exception] (a missing record or anything else) is followed by the
    group's report line and by the first line of what comes next, so the
    run goes on; every other request of a group that raises (a call
    outside the read-backs, an invocation, a wait, or a read-back
    exception not derived from [Exception]) ends the run with that
    exception, followed at most by the orchestrator's error line. *)
Theorem readback_exceptions_are_reported :
  forall self w,
    reported_then_continued (fst (run_all_examples self w [])) /\
    otherwise_aborted (fst (run_all_examples self w [])) (snd (run_all_examples self w [])).
Proof.
  intros self w.
  destruct (ReadbackFacts.run_all_examples_reports self w []) as (s & Hrun & Hpost).
  eapply ReadbackFacts.reports_sound; eauto.
Qed.

(** C3 on [loan_readback_fails]: the connection error of [get_loan] at
    position 39 is reported and the escrow group starts. *)
Lemma readback_exception_reported_in_example :
  nth_error (fst (run_all_examples session loan_readback_fails [])) 40
    = Some (EPrint ("No existing loans found: " ++ "network unreachable")) /\
  nth_error (fst (run_all_examples session loan_readback_fails [])) 41
    = Some (EPrint escrow_banner).
Proof.
  destruct (readback_exceptions_are_reported session loan_readback_fails) as [H _].
  apply (H 39%nat 2 "get_loan" [JInt 1] connection_error "No existing loans found: "
           escrow_banner).
  - vm_compute. reflexivity.
  - vm_compute. reflexivity.
  - reflexivity.
Defined.

(** C3 as stated fails: a connection error, which is no "not found"
    condition, raised by the read-back [get_loan] does not propagate:
    the script returns normally and the remaining groups are executed. *)
Lemma connection_error_in_readback_is_swallowed :
  nth_error (fst (main loan_readback_fails [])) 39
    = Some (ECall 2 "get_loan" [JInt 1] (Raise connection_error)) /\
  snd (main loan_readback_fails []) = Ret tt /\
  invoked "create_escrow" (fst (main loan_readback_fails [])) = true /\
  invoked "initiate_payment" (fst (main loan_readback_fails [])) = true /\
  printed "‚úÖ All interactions completed successfully!" (fst (main loan_readback_fails [])) = true.
Proof. vm_compute. repeat split; reflexivity. Qed.

(** C4.  When a credential is missing (unset or empty: neither, only
    the address, or only the key present), [deploy_token] raises its
    configuration error and [main] prints a configuration diagnostic and
    returns; in both cases the trace holds no request to the network. *)
Theorem missing_credentials_stop_before_any_request :
  forall w,
    credentials_missing w ->
    deploy_token w [] = ([], Raise credentials_error) /\
    main w [] = (match files w address_book with
                 | Some _ => credentials_missing_lines
                 | None => book_missing_lines
                 end, Ret tt).
Proof.
  intros w H. split; [apply ConfigFacts.deploy_token_missing_credentials; exact H|].
  destruct (files w address_book) eqn:Hf.
  - apply ConfigFacts.main_missing_credentials; [congruence | exact H].
  - apply ConfigFacts.main_missing_book. exact Hf.
Qed.

(** C4 on the three combinations: neither credential, only the address,
    only the key. *)
Lemma missing_credentials_in_examples :
  (deploy_token no_credentials [] = ([], Raise credentials_error) /\
   main no_credentials [] = (credentials_missing_lines, Ret tt)) /\
  (deploy_token only_address [] = ([], Raise credentials_error) /\
   main only_address [] = (credentials_missing_lines, Ret tt)) /\
  (deploy_token only_key [] = ([], Raise credentials_error) /\
   main only_key [] = (credentials_missing_lines, Ret tt)).
Proof.
  split; [|split].
  - apply (missing_credentials_stop_before_any_request no_credentials).
    left. reflexivity.
  - apply (missing_credentials_stop_before_any_request only_address).
    right. reflexivity.
  - apply (missing_credentials_stop_before_any_request only_key).
    left. reflexivity.
Defined.

(** C5, as the code has it.  When [deployment_addresses.json] is absent,
    [main] prints that the file was not found and how to deploy first,
    sends nothing, and returns: the process ends with status 0. *)
Theorem missing_address_book_is_reported :
  forall w,
    files w address_book = None ->
    main w [] = (book_missing_lines, Ret tt) /\
    exit_status (snd (main w [])) = 0.
Proof.
  intros w H. rewrite (ConfigFacts.main_missing_book w H). split; reflexivity.
Qed.

(** C5 on [no_files]. *)
Lemma missing_address_book_in_example :
  main no_files [] = (book_missing_lines, Ret tt) /\
  exit_status (snd (main no_files [])) = 0.
Proof. apply (missing_address_book_is_reported no_files). reflexivity. Defined.

(** C5 as stated fails: without the address book the exit status is 0,
    not a non-zero one. *)
Lemma missing_address_book_exits_with_zero :
  files no_files address_book = None /\
  ~ exit_status (snd (main no_files [])) <> 0.
Proof. split; [reflexivity|]. intros H. apply H. vm_compute. reflexivity. Qed.

(** C6, as the code has it.  Three of the four configuration failures
    print a diagnostic and return, so the process ends with status 0:
    the interaction script without its address book, the interaction
    script without credentials, and the deploy script without the
    compiled contract class, which it opens only once its session is
    built (lines 36-46).  The fourth does not: without credentials the
    deploy script prints nothing and raises [ValueError] past the top
    level, and the process ends with status 1.  Nor does a credential or
    a network that is set and that the session builder refuses: its
    exception leaves the deploy script after the first two lines, before
    the class file is looked at, and the status is 1. *)
Theorem configuration_failures_of_both_scripts :
  forall w,
    (files w address_book = None ->
     main w [] = (book_missing_lines, Ret tt) /\ exit_status (snd (main w [])) = 0) /\
    (files w address_book <> None -> credentials_missing w ->
     main w [] = (credentials_missing_lines, Ret tt) /\ exit_status (snd (main w [])) = 0) /\
    (forall acct,
        truthy (environ w "ACCOUNT_ADDRESS") = true ->
        truthy (environ w "PRIVATE_KEY") = true ->
        session_built w acct ->
        files w class_file = None ->
        deploy_token w [] = (class_file_missing_lines w, Ret None) /\
        exit_status (snd (deploy_token w [])) = 0) /\
    (credentials_missing w ->
     deploy_token w [] = ([], Raise credentials_error) /\
     exit_status (snd (deploy_token w [])) = 1) /\
    (forall e,
        truthy (environ w "ACCOUNT_ADDRESS") = true ->
        truthy (environ w "PRIVATE_KEY") = true ->
        build_session (selected_network w) (environ w "ACCOUNT_ADDRESS")
          (environ w "PRIVATE_KEY") w (deploy_header w) = ([], Raise e) ->
        deploy_token w [] = (deploy_header w, Raise e) /\
        exit_status (snd (deploy_token w [])) = 1).
Proof.
  intros w. repeat apply conj.
  - intros H. rewrite (ConfigFacts.main_missing_book w H). split; reflexivity.
  - intros Hf H. rewrite (ConfigFacts.main_missing_credentials w Hf H). split; reflexivity.
  - intros acct Ha Hk Hs Hf.
    rewrite (ConfigFacts.deploy_token_missing_class_file w acct Ha Hk Hs Hf).
    split; reflexivity.
  - intros H. rewrite (ConfigFacts.deploy_token_missing_credentials w H). split; reflexivity.
  - intros e Ha Hk Hs.
    rewrite (ConfigFacts.deploy_token_session_raises w e Ha Hk Hs). split; reflexivity.
Qed.

(** C6 on the examples: the three paths that return on [no_files] and
    [no_credentials], the one that raises on [no_credentials], and on
    [bad_address], without the class file, the address that the SDK
    refuses. *)
Lemma configuration_failures_in_examples :
  (main no_files [] = (book_missing_lines, Ret tt) /\
   exit_status (snd (main no_files [])) = 0) /\
  (main no_credentials [] = (credentials_missing_lines, Ret tt) /\
   exit_status (snd (main no_credentials [])) = 0) /\
  (deploy_token no_files [] = (class_file_missing_lines no_files, Ret None) /\
   exit_status (snd (deploy_token no_files [])) = 0) /\
  (deploy_token no_credentials [] = ([], Raise credentials_error) /\
   exit_status (snd (deploy_token no_credentials [])) = 1) /\
  (deploy_token bad_address [] = (deploy_header bad_address, Raise address_refused) /\
   exit_status (snd (deploy_token bad_address [])) = 1).
Proof.
  split; [|split; [|split; [|split]]].
  - apply (proj1 (configuration_failures_of_both_scripts no_files)). reflexivity.
  - apply (proj1 (proj2 (configuration_failures_of_both_scripts no_credentials))).
    + discriminate.
    + left. reflexivity.
  - apply (proj1 (proj2 (proj2 (configuration_failures_of_both_scripts no_files)))
             (mkAccount (Some "0xabc") (mkClient "https://alpha4.starknet.io") 31 TESTNET));
      reflexivity.
  - apply (proj1 (proj2 (proj2 (proj2 (configuration_failures_of_both_scripts
                                          no_credentials))))).
    left. reflexivity.
  - apply (proj2 (proj2 (proj2 (proj2 (configuration_failures_of_both_scripts
                                          bad_address))))); reflexivity.
Defined.

(** C6 as stated fails: without credentials the deploy script prints
    nothing, raises past the top level, and the exit status is 1. *)
Lemma deploy_without_credentials_raises :
  credentials_missing no_credentials /\
  fst (deploy_token no_credentials []) = [] /\
  snd (deploy_token no_credentials []) = Raise credentials_error /\
  exit_status (snd (deploy_token no_credentials [])) = 1.
Proof. split; [left; reflexivity|]. vm_compute. repeat split; reflexivity. Qed.

(** C7.  In [run_all_examples], whatever the network answers: every
    invocation is [transfer], [request_loan], [create_escrow] or
    [initiate_payment] with the integer amounts of [raw_args] (1000,
    5000, 7500 and 25000 times 10^18; 10000 cents); every call of
    [calculate_hnxz_amount] carries the 10000 cents; and every call of
    [get_swap_quote] carries the amount 1000 * 10^18 and, as the token,
    the [result] of an earlier look-up of USDT exactly as it was
    returned.  The arguments of a request are JSON values without
    floats: a quotient by the scale exists only as the text of a printed
    line. *)
Theorem amounts_are_passed_unscaled :
  forall self w, raw_amounts (fst (run_all_examples self w [])).
Proof.
  intros self w.
  destruct (AmountsFacts.run_all_examples_amounts self None w []) as (s & Hrun & _).
  eapply AmountsFacts.amounts_sound; eauto.
Qed.

(** C7 on [happy]: the swap quote at position 84 carries what the
    look-up of USDT returned. *)
Lemma swap_quote_amount_in_happy :
  exists j addr' reply v token,
    (j < 84)%nat /\
    nth_error (fst (run_all_examples session happy [])) j
      = Some (ECall addr' "get_supported_token" [JStr "USDT"] (Ret reply)) /\
    getattr reply "result" = Ret v /\
    [JStr "0x1"; JInt 10000; JInt (1000 * 10 ^ 18)]
      = [token; to_json v; JInt (1000 * 10 ^ 18)].
Proof.
  destruct (amounts_are_passed_unscaled session happy) as (_ & _ & H).
  apply (H 84%nat 4 [JStr "0x1"; JInt 10000; JInt (1000 * 10 ^ 18)] (Ret reply)).
  vm_compute. reflexivity.
Defined.

(** C8, as the code has it.  The raw token amount 1000 * 10^18 at scale
    10^18 is displayed as "1,000" by the deploy script's [,.0f], as
    "1,000.00" by [,.2f] and as "1000.0" where no format is given; the
    fiat amount of 10000 cents at scale 100 is displayed as "100.0"
    where no format is given (the lines about the payment) and as
    "100.00" by [,.2f] (the total of fiat processed).  The lines the
    scripts print in [happy] show each of them. *)
Theorem display_of_token_and_fiat_amounts :
  display Comma0f (VInt (1000 * 10 ^ 18)) (10 ^ 18) = Ret "1,000" /\
  display Comma2f (VInt (1000 * 10 ^ 18)) (10 ^ 18) = Ret "1,000.00" /\
  display Plain (VInt (1000 * 10 ^ 18)) (10 ^ 18) = Ret "1000.0" /\
  display Plain (VInt 10000) 100 = Ret "100.0" /\
  display Comma2f (VInt 10000) 100 = Ret "100.00" /\
  printed "Total Supply: 1,000 HNXZ" (fst (deploy_token happy [])) = true /\
  printed ((nl ++ "üí∏ Transferring ") ++ "1000.0" ++ " HNXZ to test address...") (fst (main happy [])) = true /\
  printed ("üí≥ Initiating payment: $" ++ "100.0" ++ " USD") (fst (main happy [])) = true /\
  printed ("Fiat Amount: $" ++ "100.0") (fst (main happy [])) = true /\
  printed ("Total Fiat Processed: $" ++ "100.00") (fst (main happy [])) = true.
Proof. vm_compute. repeat split; reflexivity. Qed.

(** C8 as stated fails: no format of the scripts displays 1000 * 10^18
    as "1000", and the payment lines display 10000 cents as "100.0",
    neither as "100.00" nor as "$100.00". *)
Lemma display_differs_from_the_claimed_text :
  display Comma0f (VInt (1000 * 10 ^ 18)) (10 ^ 18) <> Ret "1000" /\
  display Comma2f (VInt (1000 * 10 ^ 18)) (10 ^ 18) <> Ret "1000" /\
  display Plain (VInt (1000 * 10 ^ 18)) (10 ^ 18) <> Ret "1000" /\
  display Plain (VInt 10000) 100 <> Ret "100.00" /\
  display Plain (VInt 10000) 100 <> Ret "$100.00" /\
  printed ("üí≥ Initiating payment: $" ++ "100.00" ++ " USD") (fst (main happy [])) = false.
Proof. vm_compute. repeat split; try reflexivity; intros H; discriminate H. Qed.

(** C9.  In [deploy_token], whatever the network answers: every
    deployment is submitted by the account whose address is the value of
    [ACCOUNT_ADDRESS], with exactly one constructor argument, that same
    address; and every call is made on the contract that the deployment
    returned, after the wait for the acceptance of that deployment has
    returned. *)
Theorem deployment_names_deployer_and_is_awaited :
  forall w,
    deploys_for_owner (environ w "ACCOUNT_ADDRESS") (fst (deploy_token w [])) /\
    bound_after_acceptance (fst (deploy_token w [])).
Proof.
  intros w. rewrite DeployFlowFacts.deploy_token_reads_environment.
  destruct (DeployFlowFacts.deploy_with_flow
              (match environ w "NETWORK" with Some n => n | None => "testnet" end)
              (environ w "ACCOUNT_ADDRESS") (environ w "PRIVATE_KEY") w [])
    as (s & Hrun & _).
  eapply DeployFlowFacts.deploy_flow_sound; eauto.
Qed.

(** C9 on [happy]: the name of the token is read at position 9, on the
    contract deployed at position 3, after the wait at position 5. *)
Lemma deployment_awaited_in_happy :
  exists i k dargs d,
    (i < k < 9)%nat /\
    nth_error (fst (deploy_token happy [])) i = Some (EDeploy dargs (Ret d)) /\
    nth_error (fst (deploy_token happy [])) k = Some (EWait (hash d) (Ret tt)) /\
    43981 = contract_address (deployed_contract d).
Proof.
  destruct (deployment_names_deployer_and_is_awaited happy) as [_ H].
  apply (H 9%nat 43981 "name" [] (Ret reply)).
  vm_compute. reflexivity.
Defined.

(** C10.  From the start of [run_all_examples], whatever the network
    answers.  When the address book holds the five entries and the SDK
    answers the five resolutions, [setup_contracts] returns the five
    bindings, and the trace of the run is the header, the five
    resolutions in the order token, loan, escrow, swap, credit card, the
    line of the set-up, and then what the groups do.  Conversely nothing
    but a resolution follows the header unless the five bindings are
    resolved: an event after the header that is no resolution (a line, a
    call, an invocation or a wait of a group) lies behind the five
    successful resolutions of the five entries, which are the events 2
    to 6 of the trace.  When [setup_contracts] raises, the run ends with
    that very exception, and its trace is the header followed by
    resolutions only: no group has run and the orchestrator's handler
    has not.  A missing entry of the address book is such a case. *)
Theorem bindings_resolved_before_any_group :
  forall self w,
    (forall a1 a2 a3 a4 a5 c,
        book_entries self a1 a2 a3 a4 a5 ->
        sdk_resolves w (self_client self) a1 a2 a3 a4 a5 c ->
        let ts := resolved (self_client self) a1 a2 a3 a4 a5 c in
        setup_contracts self w header = (ts, Ret c) /\
        run_all_examples self w [] =
          ((header ++ ts ++ fst (groups_or_error self c w (header ++ ts)))%list,
           snd (groups_or_error self c w (header ++ ts)%list))) /\
    (forall j ev,
        nth_error (fst (run_all_examples self w [])) j = Some ev ->
        (2 <= j)%nat ->
        is_resolution ev = false ->
        exists a1 a2 a3 a4 a5 c,
          book_entries self a1 a2 a3 a4 a5 /\
          setup_contracts self w header
            = (resolved (self_client self) a1 a2 a3 a4 a5 c, Ret c) /\
          firstn 8 (fst (run_all_examples self w []))
            = (header ++ resolved (self_client self) a1 a2 a3 a4 a5 c)%list /\
          (7 <= j)%nat) /\
    (forall ts e,
        setup_contracts self w header = (ts, Raise e) ->
        run_all_examples self w [] = ((header ++ ts)%list, Raise e) /\
        Forall (fun ev => is_resolution ev = true) ts) /\
    (forall name e,
        In name contract_names -> contract_entry self name = Raise e ->
        exists ts e',
          setup_contracts self w header = (ts, Raise e') /\
          run_all_examples self w [] = ((header ++ ts)%list, Raise e') /\
          Forall (fun ev => is_resolution ev = true) ts).
Proof.
  intros self w.
  assert (Hcases := ConfigFacts.setup_contracts_cases self w header).
  assert (Hrun := ConfigFacts.run_all_examples_unfold self w).
  repeat apply conj.
  - intros a1 a2 a3 a4 a5 c Hbook Hsdk ts.
    assert (Hs := ConfigFacts.setup_contracts_resolves self w a1 a2 a3 a4 a5 c Hbook Hsdk).
    fold ts in Hs. split; [exact Hs|].
    rewrite Hrun, Hs. destruct (groups_or_error self c w _) as [tg o]. reflexivity.
  - intros j ev Hj Hge Hev.
    destruct Hcases as [(ts & e & Hs & Hres) | (c & a1 & a2 & a3 & a4 & a5 & Hbook & Hs)].
    + exfalso. rewrite Hrun, Hs in Hj. cbn [fst] in Hj.
      destruct j as [|[|j]]; [lia | lia |]. unfold header in Hj. cbn [app nth_error] in Hj.
      apply nth_error_In in Hj. rewrite Forall_forall in Hres.
      rewrite (Hres _ Hj) in Hev. discriminate.
    + exists a1, a2, a3, a4, a5, c. rewrite Hrun, Hs in Hj |- *.
      destruct (groups_or_error self c w _) as [tg o]. cbn [fst] in Hj |- *.
      split; [exact Hbook|]. split; [reflexivity|]. split; [reflexivity|].
      unfold header, resolved in Hj. cbn [app] in Hj.
      do 7 (destruct j as [|j]; [try lia; cbn [nth_error] in Hj; injection Hj as <-;
                                  discriminate Hev |]).
      lia.
  - intros ts e Hs.
    destruct Hcases as [(ts' & e' & Hs' & Hres) | (c & a1 & a2 & a3 & a4 & a5 & _ & Hs')];
      rewrite Hs in Hs'; [|discriminate].
    injection Hs' as <- <-. rewrite Hrun, Hs. auto.
  - intros name e Hin Hname.
    destruct Hcases as [(ts & e' & Hs & Hres) | (c & a1 & a2 & a3 & a4 & a5 & Hbook & Hs)].
    + exists ts, e'. rewrite Hrun, Hs. auto.
    + exfalso. destruct Hbook as (H1 & H2 & H3 & H4 & H5). simpl in Hin.
      destruct Hin as [<- | [<- | [<- | [<- | [<- | []]]]]]; congruence.
Qed.

(** C10 on two runs.  In [happy] the address book holds the five
    entries and the double answers the five resolutions: the set-up
    returns the five bindings and the groups follow; the transfer is
    submitted at position 22, behind the five resolutions at the
    positions 2 to 6.  On an address book without the swap contract
    three bindings are resolved, the fourth look-up raises, and nothing
    else happens. *)
Lemma five_bindings_resolved_in_happy :
  (let c := mkContracts (contract_at (JStr "0x1")) (contract_at (JStr "0x2"))
              (contract_at (JStr "0x3")) (contract_at (JStr "0x4"))
              (contract_at (JStr "0x5")) in
   let ts := resolved (self_client session) (JStr "0x1") (JStr "0x2") (JStr "0x3")
               (JStr "0x4") (JStr "0x5") c in
   setup_contracts session happy header = (ts, Ret c) /\
   run_all_examples session happy [] =
     ((header ++ ts ++ fst (groups_or_error session c happy (header ++ ts)))%list,
      snd (groups_or_error session c happy (header ++ ts)%list))) /\
  (exists a1 a2 a3 a4 a5 c,
      book_entries session a1 a2 a3 a4 a5 /\
      setup_contracts session happy header
        = (resolved (self_client session) a1 a2 a3 a4 a5 c, Ret c) /\
      firstn 8 (fst (run_all_examples session happy []))
        = (header ++ resolved (self_client session) a1 a2 a3 a4 a5 c)%list /\
      (7 <= 22)%nat) /\
  (exists ts e',
      setup_contracts short_session happy header = (ts, Raise e') /\
      run_all_examples short_session happy [] = ((header ++ ts)%list, Raise e') /\
      Forall (fun ev => is_resolution ev = true) ts).
Proof.
  split; [|split].
  - cbv zeta.
    apply (proj1 (bindings_resolved_before_any_group session happy)
             (JStr "0x1") (JStr "0x2") (JStr "0x3") (JStr "0x4") (JStr "0x5")
             (mkContracts (contract_at (JStr "0x1")) (contract_at (JStr "0x2"))
                (contract_at (JStr "0x3")) (contract_at (JStr "0x4"))
                (contract_at (JStr "0x5")))).
    + vm_compute. repeat split; reflexivity.
    + vm_compute. repeat split; reflexivity.
  - destruct (bindings_resolved_before_any_group session happy) as (_ & H & _).
    eapply (H 22%nat).
    + vm_compute. reflexivity.
    + lia.
    + reflexivity.
  - destruct (bindings_resolved_before_any_group short_session happy) as (_ & _ & _ & H).
    apply (H "swap_contract" (mkExn KeyError "'swap_contract'")).
    + simpl. auto.
    + vm_compute. reflexivity.
Defined.

(* ===================================================================== *)
(** ** Monitors, one event at a time *)
(* ===================================================================== *)

Module MonitorFacts.
Import Py Sdk Protocol.

Lemma run_cons {S} (step : S -> Event -> option S) s ev t :
  run step s (ev :: t) = match step s ev with Some s' => run step s' t | None => None end.
Proof. reflexivity. Qed.

End MonitorFacts.

(* ===================================================================== *)
(** ** Routing and order of the groups' requests *)
(* ===================================================================== *)

Module RoutingFacts.
Import Py Sdk Protocol Routing Config.
Import InteractionExamples.

Ltac route_stp := idtac; simpl; rewrite ?Z.eqb_refl; reflexivity.

Ltac route_fin :=
  idtac;
  lazymatch goal with
  | |- if _ then _ else _ => fail
  | |- triple _ _ _ _ => fail
  | |- _ => first [exact I | reflexivity]
  end.

Ltac route := repeat script_step route_stp route_fin idtac.

Ltac route_after lemma :=
  eapply triple_seq; [apply lemma | intros [[]|?] [] _; [ | exact I ] ].

Ltac order_after lemma :=
  eapply triple_seq;
  [apply lemma | intros [[]|?] ? H; [unfold order_post in H; subst | exact I ] ].

Section Groups.
Variables (self : HomebaseInteraction) (c : Contracts).

Lemma token_routed : triple (route_step c) tt (token_interactions self c) route_post.
Proof. unfold token_interactions. route. Qed.

Lemma loan_routed : triple (route_step c) tt (loan_interactions self c) route_post.
Proof. unfold loan_interactions, loan_readback. route. Qed.

Lemma escrow_routed : triple (route_step c) tt (escrow_interactions self c) route_post.
Proof. unfold escrow_interactions, escrow_readback. route. Qed.

Lemma swap_routed : triple (route_step c) tt (swap_interactions self c) route_post.
Proof. unfold swap_interactions, swap_quote. route. Qed.

Lemma credit_card_routed :
triple (route_step c) tt (credit_card_interactions self c) route_post.
Proof. unfold credit_card_interactions, payment_readback. route. Qed.

Lemma all_groups_routed : triple (route_step c) tt (all_groups self c) route_post.
Proof.
unfold all_groups.
route_after token_routed. route_after loan_routed. route_after escrow_routed.
route_after swap_routed. route_after credit_card_routed. route.
Qed.

Lemma groups_or_error_routed : triple (route_step c) tt (groups_or_error self c) route_post.
Proof.
unfold groups_or_error. apply triple_try.
eapply triple_conseq; [apply all_groups_routed|].
intros [[]|e] [] _; [exact I|].
destruct (is_Exception e); [|exact I]. route.
Qed.

Lemma token_ordered : triple order_step 0%nat (token_interactions self c) (order_post 0).
Proof. unfold token_interactions. route. Qed.

Lemma loan_ordered : triple order_step 0%nat (loan_interactions self c) (order_post 1).
Proof. unfold loan_interactions, loan_readback. route. Qed.

Lemma escrow_ordered : triple order_step 1%nat (escrow_interactions self c) (order_post 2).
Proof. unfold escrow_interactions, escrow_readback. route. Qed.

Lemma swap_ordered : triple order_step 2%nat (swap_interactions self c) (order_post 3).
Proof. unfold swap_interactions, swap_quote. route. Qed.

Lemma credit_card_ordered :
triple order_step 3%nat (credit_card_interactions self c) (order_post 4).
Proof. unfold credit_card_interactions, payment_readback. route. Qed.

Lemma all_groups_ordered : triple order_step 0%nat (all_groups self c) order_any.
Proof.
unfold all_groups.
order_after token_ordered. order_after loan_ordered. order_after escrow_ordered.
order_after swap_ordered. order_after credit_card_ordered. route.
Qed.
End Groups.

Lemma run_all_examples_ordered self :
  triple order_step 0%nat (run_all_examples self) order_any.
Proof.
  unfold run_all_examples, setup_contracts, bind_contract. route.
  eapply triple_conseq; [apply all_groups_ordered|].
  intros [[]|e] st _; [exact I|].
  destruct (is_Exception e); [|exact I]. route.
Qed.

Lemma main_ordered : triple order_step 0%nat main order_any.
Proof.
  unfold main. route. unfold init. route. apply run_all_examples_ordered.
Qed.

Lemma route_sound c s t s' : run (route_step c) s t = Some s' -> routed c t.
Proof.
  intros Hrun j ev addr fn Hj Hreq.
  destruct (run_nth _ _ _ _ _ _ Hrun Hj) as (si & si' & _ & Hstep & _).
  destruct ev; simpl in Hreq; try discriminate; injection Hreq as -> ->;
    cbv beta iota delta [route_step request_of] in Hstep;
    destruct (group_of fn) as [g|]; try discriminate;
    destruct (group_contract c g) as [k|] eqn:Hk; try discriminate;
    destruct (addr =? contract_address k) eqn:Ha; try discriminate;
    apply Z.eqb_eq in Ha; exists g, k; auto.
Qed.

Lemma order_step_request s ev s1 a fn g :
  order_step s ev = Some s1 -> request_of ev = Some (a, fn) -> group_of fn = Some g ->
  s1 = g /\ (s <= g)%nat.
Proof.
  unfold order_step. intros Hs Hr Hg. rewrite Hr, Hg in Hs.
  destruct (s <=? g)%nat eqn:Hle; [|discriminate].
  apply Nat.leb_le in Hle. split; congruence.
Qed.

Lemma order_step_le s ev s1 : order_step s ev = Some s1 -> (s <= s1)%nat.
Proof.
  unfold order_step. destruct (request_of ev) as [[a fn]|]; [|intros [= <-]; lia].
  destruct (group_of fn) as [g|]; [|discriminate].
  destruct (s <=? g)%nat eqn:Hle; [|discriminate].
  apply Nat.leb_le in Hle. intros [= <-]. exact Hle.
Qed.

Lemma order_bounds s t s' j ev a fn g :
  run order_step s t = Some s' ->
  nth_error t j = Some ev -> request_of ev = Some (a, fn) -> group_of fn = Some g ->
  (s <= g)%nat.
Proof.
  revert s j; induction t as [|x t IH]; intros s j Hrun Hj Hreq Hg.
  - destruct j; discriminate.
  - simpl in Hrun. destruct (order_step s x) as [s1|] eqn:Hs; [|discriminate].
    destruct j as [|j]; simpl in Hj.
    + injection Hj as ->. apply (order_step_request _ _ _ _ _ _ Hs Hreq Hg).
    + apply order_step_le in Hs. specialize (IH s1 j Hrun Hj Hreq Hg). lia.
Qed.

Lemma order_sound s t s' : run order_step s t = Some s' -> in_group_order t.
Proof.
  revert s; induction t as [|x t IH];
    intros s Hrun i j ei ej ai fi aj fj gi gj Hlt Hi Hri Hgi Hj Hrj Hgj.
  - destruct i; discriminate.
  - simpl in Hrun. destruct (order_step s x) as [s1|] eqn:Hs; [|discriminate].
    destruct j as [|j]; [lia|]. simpl in Hj.
    destruct i as [|i]; simpl in Hi.
    + injection Hi as ->.
      destruct (order_step_request _ _ _ _ _ _ Hs Hri Hgi) as [-> _].
      eapply order_bounds; eauto.
    + eapply (IH s1 Hrun i j); eauto. lia.
Qed.

(** A request is neither a line nor a resolution. *)
Lemma resolution_not_request ev : is_resolution ev = true -> request_of ev = None.
Proof. destruct ev; try discriminate; reflexivity. Qed.

End RoutingFacts.

(* ===================================================================== *)
(** ** What the scripts never do *)
(* ===================================================================== *)

Module NeverFacts.
Import Py Sdk Protocol Never.
Import DeployToken InteractionExamples.

Lemma only_event P s ev : P ev = true -> only P s ev = Some s.
Proof. unfold only. intros ->. reflexivity. Qed.

Lemma only_sound P s t s' : run (only P) s t = Some s' -> Forall (fun ev => P ev = true) t.
Proof.
  revert s; induction t as [|ev t IH]; intros s Hrun; [constructor|].
  simpl in Hrun. unfold only in Hrun at 1.
  destruct (P ev) eqn:HP; [|discriminate].
  constructor; [exact HP | eapply IH; eauto].
Qed.

Ltac only_stp := idtac; apply only_event; reflexivity.

Ltac only_fin :=
  idtac;
  lazymatch goal with
  | |- if _ then _ else _ => fail
  | |- triple _ _ _ _ => fail
  | |- _ => exact I
  end.

Ltac never := repeat script_step only_stp only_fin idtac.

Ltac never_after lemma :=
  eapply triple_seq; [apply lemma | intros [[]|?] ? _; [ | exact I ] ].

Section Groups.
Variables (self : HomebaseInteraction) (c : Contracts).

Lemma token_events s :
triple (only interaction_event) s (token_interactions self c) only_post.
Proof. unfold token_interactions. never. Qed.

Lemma loan_events s :
triple (only interaction_event) s (loan_interactions self c) only_post.
Proof. unfold loan_interactions, loan_readback. never. Qed.

Lemma escrow_events s :
triple (only interaction_event) s (escrow_interactions self c) only_post.
Proof. unfold escrow_interactions, escrow_readback. never. Qed.

Lemma swap_events s :
triple (only interaction_event) s (swap_interactions self c) only_post.
Proof. unfold swap_interactions, swap_quote. never. Qed.

Lemma credit_card_events s :
triple (only interaction_event) s (credit_card_interactions self c) only_post.
Proof. unfold credit_card_interactions, payment_readback. never. Qed.

Lemma all_groups_events s :
triple (only interaction_event) s (all_groups self c) only_post.
Proof.
unfold all_groups.
never_after token_events. never_after loan_events. never_after escrow_events.
never_after swap_events. never_after credit_card_events. never.
Qed.
End Groups.

Lemma run_all_examples_events self s :
  triple (only interaction_event) s (run_all_examples self) only_post.
Proof.
  unfold run_all_examples, setup_contracts, bind_contract. never.
  eapply triple_conseq; [apply all_groups_events|].
  intros [[]|e] st _; [exact I|].
  destruct (is_Exception e); [|exact I]. never.
Qed.

Lemma main_events s : triple (only interaction_event) s main only_post.
Proof. unfold main. never. unfold init. never. apply run_all_examples_events. Qed.

Lemma test_token_functions_events a acct s :
  triple (only interaction_event) s (test_token_functions a acct) only_post.
Proof. unfold test_token_functions. never. Qed.

Lemma deploy_token_events s : triple (only deployment_event) s deploy_token only_post.
Proof.
  unfold deploy_token, deploy_with, build_session. never.
  unfold deploy_and_report. never.
Qed.

Lemma interaction_no_deploy ev : interaction_event ev = true -> no_deploy_no_write ev = true.
Proof. destruct ev; simpl; congruence. Qed.

Lemma interaction_fee ev : interaction_event ev = true -> fee_is_1e17 ev = true.
Proof. destruct ev; simpl; congruence. Qed.

Lemma deployment_no_invocation ev : deployment_event ev = true -> no_invocation ev = true.
Proof. destruct ev; simpl; congruence. Qed.

End NeverFacts.

(* ===================================================================== *)
(** ** The swap quote is asked only for a configured USDT token *)
(* ===================================================================== *)

Module SwapGuardFacts.
Import Py Sdk Protocol SwapGuard.
Import InteractionExamples.

Lemma indifferent_step s ev : indifferent ev = true -> guard_step s ev = Some s.
Proof.
  destruct ev; simpl; try reflexivity.
  - intros H. apply negb_true_iff in H. rewrite H. reflexivity.
  - intros H. apply andb_true_iff in H as [H1 H2].
    apply negb_true_iff in H1, H2. rewrite H1, H2. reflexivity.
Qed.

Lemma lookup_step s addr reply :
  guard_step s (ECall addr "get_supported_token" [JStr "USDT"] (Ret reply))
  = Some (match getattr reply "result" with Ret v => Some v | Raise _ => None end).
Proof. reflexivity. Qed.

Lemma lookup_raise_step s addr e :
  guard_step s (ECall addr "get_supported_token" [JStr "USDT"] (Raise e)) = Some None.
Proof. reflexivity. Qed.

Lemma quote_guard_step v addr args r :
  ne_zero v = true -> guard_step (Some v) (ECall addr "get_swap_quote" args r) = Some (Some v).
Proof. intros H. simpl. rewrite H. reflexivity. Qed.

Lemma line_guard_step v :
  ne_zero v = false -> guard_step (Some v) (EPrint not_configured) = Some (Some v).
Proof. intros H. simpl. rewrite H. reflexivity. Qed.

Ltac guard_stp :=
  idtac;
  lazymatch goal with
  | |- guard_step (Some _) (ECall _ "get_swap_quote" _ _) = _ =>
      apply quote_guard_step; assumption
  | |- guard_step (Some _) (EPrint "USDT not configured for swaps") = _ =>
      apply line_guard_step; assumption
  | |- guard_step _ (ECall _ "get_supported_token" [JStr "USDT"] (Ret _)) = _ =>
      apply lookup_step
  | |- guard_step _ (ECall _ "get_supported_token" [JStr "USDT"] (Raise _)) = _ =>
      apply lookup_raise_step
  | |- _ => apply indifferent_step; vm_compute; reflexivity
  end.

Ltac guard_fin :=
  idtac;
  lazymatch goal with
  | |- if _ then _ else _ => fail
  | |- triple _ _ _ _ => fail
  | |- _ => exact I
  end.

Ltac sg := repeat script_step guard_stp guard_fin idtac.

Ltac guard_after lemma :=
  eapply triple_seq; [apply lemma | intros [[]|?] ? _; [ | exact I ] ].

Section Groups.
Variables (self : HomebaseInteraction) (c : Contracts).

Lemma token_guarded s : triple guard_step s (token_interactions self c) guard_post.
Proof. unfold token_interactions. sg. Qed.

Lemma loan_guarded s : triple guard_step s (loan_interactions self c) guard_post.
Proof. unfold loan_interactions, loan_readback. sg. Qed.

Lemma escrow_guarded s : triple guard_step s (escrow_interactions self c) guard_post.
Proof. unfold escrow_interactions, escrow_readback. sg. Qed.

Lemma swap_guarded s : triple guard_step s (swap_interactions self c) guard_post.
Proof. unfold swap_interactions, swap_quote. sg. Qed.

Lemma credit_card_guarded s :
triple guard_step s (credit_card_interactions self c) guard_post.
Proof. unfold credit_card_interactions, payment_readback. sg. Qed.

Lemma all_groups_guarded s : triple guard_step s (all_groups self c) guard_post.
Proof.
unfold all_groups.
guard_after token_guarded. guard_after loan_guarded. guard_after escrow_guarded.
guard_after swap_guarded. guard_after credit_card_guarded. sg.
Qed.
End Groups.

Lemma run_all_examples_guarded self s :
  triple guard_step s (run_all_examples self) guard_post.
Proof.
  unfold run_all_examples, setup_contracts, bind_contract. sg.
  eapply triple_conseq; [apply all_groups_guarded|].
  intros [[]|e] st _; [exact I|].
  destruct (is_Exception e); [|exact I]. sg.
Qed.

Lemma main_guarded s : triple guard_step s main guard_post.
Proof. unfold main. sg. unfold init. sg. apply run_all_examples_guarded. Qed.

(** Where the remembered [result] comes from. *)
Lemma remembered_result s0 t v :
  run guard_step s0 t = Some (Some v) ->
  s0 = Some v \/
  exists j addr reply,
    nth_error t j = Some (ECall addr "get_supported_token" [JStr "USDT"] (Ret reply)) /\
    getattr reply "result" = Ret v.
Proof.
  revert s0; induction t as [|ev t IH]; intros s0 Hrun; simpl in Hrun.
  - left. congruence.
  - destruct (guard_step s0 ev) as [s1|] eqn:Hstep; [|discriminate].
    destruct (IH s1 Hrun) as [-> | (j & addr & reply & Hj & Hv)].
    2:{ right. exists (S j), addr, reply. auto. }
    destruct ev; simpl in Hstep; try (left; congruence).
    + destruct (String.eqb line not_configured); [|left; congruence].
      destruct s0 as [v0|]; [|discriminate].
      destruct (ne_zero v0); [discriminate | left; congruence].
    + destruct (String.eqb fn "get_swap_quote").
      { destruct s0 as [v0|]; [|discriminate].
        destruct (ne_zero v0); [left; congruence | discriminate]. }
      destruct (is_usdt_lookup fn args) eqn:Hu; [|left; congruence].
      apply andb_true_iff in Hu as [Hf Ha].
      apply String.eqb_eq in Hf. apply AmountsFacts.args_eqb_eq in Ha. subst fn args.
      destruct res as [reply|e]; [|discriminate].
      right. exists 0%nat, addr, reply. split; [reflexivity|].
      destruct (getattr reply "result"); congruence.
Qed.

Lemma usdt_was_before t i v :
  run guard_step None (firstn i t) = Some (Some v) -> usdt_was t i v.
Proof.
  intros Hpre.
  destruct (remembered_result _ _ _ Hpre) as [? | (j & addr & reply & Hj & Hv)];
    [discriminate|].
  rewrite nth_error_firstn in Hj.
  destruct (Nat.ltb j i) eqn:Hlt; [|discriminate]. apply Nat.ltb_lt in Hlt.
  exists j, addr, reply. auto.
Qed.

Lemma guard_sound t s : run guard_step None t = Some s -> quote_guarded t.
Proof.
  intros Hrun. split.
  - intros i addr args r Hi.
    destruct (run_nth _ _ _ _ _ _ Hrun Hi) as (si & si' & Hpre & Hstep & _).
    simpl in Hstep. destruct si as [v|]; [|discriminate].
    destruct (ne_zero v) eqn:Hv; [|discriminate].
    exists v. split; [eapply usdt_was_before; eauto | exact Hv].
  - intros i Hi.
    destruct (run_nth _ _ _ _ _ _ Hrun Hi) as (si & si' & Hpre & Hstep & _).
    simpl in Hstep. destruct si as [v|]; [|discriminate].
    destruct (ne_zero v) eqn:Hv; [discriminate|].
    exists v. split; [eapply usdt_was_before; eauto | exact Hv].
Qed.

End SwapGuardFacts.

(* ===================================================================== *)
(** ** The record of a deployment *)
(* ===================================================================== *)

Module DeployRecordFacts.
Import Py Sdk Protocol DeployRecord.
Import DeployToken.

#[local] Arguments Z.pow : simpl never.
#[local] Arguments Z.mul : simpl never.

Lemma json_eqb_opt a : Amounts.json_eqb (opt_json a) (opt_json a) = true.
Proof. destruct a; simpl; [apply String.eqb_refl | reflexivity]. Qed.

Lemma json_eqb_opt_int z : Amounts.json_eqb (json_opt_int z) (json_opt_int z) = true.
Proof. destruct z; simpl; [apply Z.eqb_refl | reflexivity]. Qed.

Lemma record_dump_step n a d name symbol decimals supply balance paymaster rate
    i_name i_symbol i_decimals raw shown :
  getattr name "name" = Ret i_name ->
  getattr symbol "symbol" = Ret i_symbol ->
  getattr decimals "decimals" = Ret i_decimals ->
  field supply "total_supply" = Ret raw ->
  field_scaled Comma0f supply "total_supply" (10 ^ 18) = Ret shown ->
  record_step n a
    (Verifying d [ ("name", name); ("symbol", symbol); ("decimals", decimals);
                   ("total_supply", supply); ("balance_of", balance);
                   ("is_paymaster_enabled", paymaster); ("get_gas_fee_rate", rate) ])
    (EDump "token_deployment.json"
       (JDict [ ("network", JStr n);
                ("contract_address", JStr (hex (contract_address (deployed_contract d))));
                ("deployer", opt_json a);
                ("transaction_hash", JStr (hex (hash d)));
                ("block_number", json_opt_int (block_number d));
                ("token_info",
                  JDict [ ("name", to_json i_name); ("symbol", to_json i_symbol);
                          ("decimals", to_json i_decimals);
                          ("total_supply", JStr raw);
                          ("formatted_supply", JStr shown) ]) ]))
  = Some (Written d).
Proof.
  intros Hn Hs Hd Hraw Hshown. unfold record_step, is_record_of, is_record.
  rewrite Hn, Hs, Hd, Hraw, Hshown. unfold value_is, outcome_is.
  rewrite json_eqb_opt, json_eqb_opt_int, !AmountsFacts.json_eqb_val, !String.eqb_refl.
  reflexivity.
Qed.

Ltac record_stp :=
  idtac;
  lazymatch goal with
  | |- record_step _ _ _ (EDump _ _) = _ => eapply record_dump_step; eassumption
  | |- _ => simpl; rewrite ?Z.eqb_refl; reflexivity
  end.

Ltac record_fin :=
  idtac;
  lazymatch goal with
  | |- if _ then _ else _ => fail
  | |- triple _ _ _ _ => fail
  | |- _ =>
      unfold record_post;
      first [ reflexivity | left; reflexivity | right; eexists; reflexivity
            | eexists; reflexivity ]
  end.

(** A [lift] of a value already computed needs no case analysis. *)
Ltac record_step' :=
  lazymatch goal with
  | |- triple _ _ (lift (Ret _)) _ => apply triple_lift; cbv beta iota; try solve [record_fin]
  | |- _ => script_step record_stp record_fin idtac
  end.

Ltac record := repeat record_step'.

Lemma deploy_with_recorded n a k :
  triple (record_step n a) NotDeployed (deploy_with n a k) record_post.
Proof.
  unfold deploy_with, build_session. record.
  unfold deploy_and_report. record.
Qed.

Lemma failed_stays n a e t s :
  run (record_step n a) (Failed e) t = Some s -> t = [] /\ s = Failed e.
Proof. destruct t; simpl; intros H; [injection H as <-; auto | discriminate]. Qed.

Lemma written_stays n a d t s :
  run (record_step n a) (Written d) t = Some s ->
  s = Written d /\ Forall (fun ev => is_line ev = true) t.
Proof.
  revert s; induction t as [|ev t IH]; intros s H; simpl in H.
  - split; [congruence | constructor].
  - destruct ev; try discriminate. destruct (IH _ H) as [-> Hl].
    split; [reflexivity | constructor; [reflexivity | exact Hl]].
Qed.

(** A step never leads back to the state before the deployment. *)
Lemma not_deployed_again n a s ev :
  record_step n a s ev = Some NotDeployed -> s = NotDeployed.
Proof.
  intros H. destruct s; [reflexivity | | | | discriminate]; exfalso;
    destruct ev; simpl in H; try discriminate;
    repeat match type of H with
           | context [match ?x with _ => _ end] => destruct x; try discriminate H
           | context [if ?x then _ else _] => destruct x; try discriminate H
           end.
Qed.

Lemma not_deployed_lines n a s t :
  run (record_step n a) s t = Some NotDeployed ->
  s = NotDeployed /\ Forall (fun ev => is_line ev = true) t.
Proof.
  revert s; induction t as [|ev t IH]; intros s H.
  - simpl in H. split; [congruence | constructor].
  - rewrite MonitorFacts.run_cons in H.
    destruct (record_step n a s ev) as [s1|] eqn:Hstep; [|discriminate].
    destruct (IH _ H) as [-> Hl]. pose proof (not_deployed_again _ _ _ _ Hstep) as ->.
    split; [reflexivity|]. constructor; [|exact Hl].
    destruct ev; try discriminate; [reflexivity|].
    simpl in Hstep. destruct res; discriminate.
Qed.

(** The step of a request that raised. *)
Lemma failure_step n a s ev s' e :
  record_step n a s ev = Some s' -> failure ev = Some e -> s' = Failed e.
Proof.
  intros Hs Hf. destruct ev; try discriminate; destruct res as [|e']; try discriminate;
    injection Hf as ->; destruct s; try discriminate; simpl in Hs;
    repeat match type of Hs with
           | context [if ?x then _ else _] => destruct x; try discriminate Hs
           end;
    congruence.
Qed.

(** The steps of the verification. *)
Lemma verifying_step n a d calls ev s :
  record_step n a (Verifying d calls) ev = Some s ->
  match ev with
  | EPrint _ => s = Verifying d calls
  | ECall _ fn _ (Ret reply) => s = Verifying d (calls ++ [(fn, reply)])
  | ECall _ _ _ (Raise e) => s = Failed e
  | EDump _ _ => s = Written d
  | _ => False
  end.
Proof.
  destruct ev; cbv beta iota delta [record_step]; try discriminate; try congruence.
  - destruct (_ && _); [congruence | discriminate].
  - destruct res; congruence.
Qed.

(** From the verification on: the deployment stays, and the calls that
    return are appended. *)
Lemma verifying_origin n a d0 calls0 t d calls :
  run (record_step n a) (Verifying d0 calls0) t = Some (Verifying d calls) ->
  d = d0 /\ calls = (calls0 ++ returned_calls t)%list.
Proof.
  revert calls0; induction t as [|ev t IH]; intros calls0 H.
  - injection H as <- <-. simpl. rewrite app_nil_r. auto.
  - rewrite MonitorFacts.run_cons in H.
    destruct (record_step n a (Verifying d0 calls0) ev) as [s1|] eqn:Hstep; [|discriminate].
    apply verifying_step in Hstep. destruct ev; try contradiction.
    + subst s1. apply (IH _ H).
    + subst s1. apply written_stays in H as [H _]. discriminate.
    + destruct res as [reply|e]; subst s1.
      * destruct (IH _ H) as [-> ->]. split; [reflexivity|].
        simpl. rewrite <- app_assoc. reflexivity.
      * apply failed_stays in H as [_ H]. discriminate.
Qed.

Lemma submitted_origin n a d0 t d calls :
  run (record_step n a) (Submitted d0) t = Some (Verifying d calls) ->
  d = d0 /\ calls = returned_calls t.
Proof.
  induction t as [|ev t IH]; intros H; simpl in H; [discriminate|].
  destruct ev; try discriminate.
  - exact (IH H).
  - simpl in H. destruct (tx =? hash d0); [|discriminate].
    destruct res as [[]|e].
    + apply verifying_origin in H as [-> ->]. auto.
    + apply failed_stays in H as [_ H]. discriminate.
Qed.

Lemma not_deployed_origin n a t d calls :
  run (record_step n a) NotDeployed t = Some (Verifying d calls) ->
  exists j dargs,
    nth_error t j = Some (EDeploy dargs (Ret d)) /\
    returned_calls (firstn (S j) t) = [] /\
    calls = returned_calls t.
Proof.
  induction t as [|ev t IH]; intros H; simpl in H; [discriminate|].
  destruct ev; try discriminate.
  - destruct (IH H) as (j & dargs & Hj & Hnone & Hcalls). exists (S j), dargs.
    split; [exact Hj | split; [exact Hnone | exact Hcalls]].
  - simpl in H. destruct res as [d0|e].
    + apply submitted_origin in H as [-> ->]. exists 0%nat, args. auto.
    + apply failed_stays in H as [_ H]. discriminate.
Qed.

(** No record is written on the way to the verification. *)
Lemma no_dump_before n a s0 t d sup i path doc :
  run (record_step n a) s0 t = Some (Verifying d sup) ->
  nth_error t i <> Some (EDump path doc).
Proof.
  revert s0 i; induction t as [|ev t IH]; intros s0 i H Hi.
  - destruct i; discriminate.
  - rewrite MonitorFacts.run_cons in H.
    destruct (record_step n a s0 ev) as [s1|] eqn:Hstep; [|discriminate].
    destruct i as [|i]; simpl in Hi; [|eapply IH; eauto].
    injection Hi as ->.
    destruct s0; try (simpl in Hstep; discriminate Hstep).
    apply verifying_step in Hstep. subst s1.
    apply written_stays in H as [H _]. discriminate.
Qed.

(** What the monitor checked of the dictionary. *)
Lemma value_is_eq o x : value_is o x = true -> exists v, o = Ret v /\ x = to_json v.
Proof.
  unfold value_is. destruct o as [v|]; [|discriminate].
  intros H. apply AmountsFacts.json_eqb_eq in H. eauto.
Qed.

Lemma outcome_is_eq o s : outcome_is o s = true -> o = Ret s.
Proof.
  unfold outcome_is. destruct o as [x|]; [|discriminate].
  intros H. apply String.eqb_eq in H. congruence.
Qed.

Lemma is_record_eq n a d name symbol decimals supply doc :
  is_record n a d name symbol decimals supply doc = true ->
  exists i_name i_symbol i_decimals raw shown,
    getattr name "name" = Ret i_name /\
    getattr symbol "symbol" = Ret i_symbol /\
    getattr decimals "decimals" = Ret i_decimals /\
    field supply "total_supply" = Ret raw /\
    field_scaled Comma0f supply "total_supply" (10 ^ 18) = Ret shown /\
    doc = JDict [ ("network", JStr n);
                  ("contract_address", JStr (hex (contract_address (deployed_contract d))));
                  ("deployer", opt_json a);
                  ("transaction_hash", JStr (hex (hash d)));
                  ("block_number", json_opt_int (block_number d));
                  ("token_info",
                    JDict [ ("name", to_json i_name); ("symbol", to_json i_symbol);
                            ("decimals", to_json i_decimals);
                            ("total_supply", JStr raw);
                            ("formatted_supply", JStr shown) ]) ].
Proof.
  unfold is_record. intros H.
  repeat match type of H with
         | match ?x with _ => _ end = true => destruct x; try discriminate H
         end.
  repeat match type of H with
         | (_ && _) = true => apply andb_true_iff in H; let H' := fresh "E" in destruct H as [H H']
         end.
  repeat match goal with
         | E : String.eqb _ _ = true |- _ => apply String.eqb_eq in E
         | E : Amounts.json_eqb _ _ = true |- _ => apply AmountsFacts.json_eqb_eq in E
         | E : outcome_is _ _ = true |- _ => apply outcome_is_eq in E
         | E : value_is _ _ = true |- _ => apply value_is_eq in E; destruct E as (? & E & ?)
         end.
  subst. eexists _, _, _, _, _. repeat split; eassumption.
Qed.

Lemma is_record_of_eq n a d calls doc :
  is_record_of n a d calls doc = true ->
  exists name symbol decimals supply balance paymaster rate,
    calls = [ ("name", name); ("symbol", symbol); ("decimals", decimals);
              ("total_supply", supply); ("balance_of", balance);
              ("is_paymaster_enabled", paymaster); ("get_gas_fee_rate", rate) ] /\
    is_record n a d name symbol decimals supply doc = true.
Proof.
  unfold is_record_of. intros H.
  repeat match type of H with
         | match ?x with _ => _ end = true => destruct x; try discriminate H
         end.
  repeat match type of H with
         | (_ && _) = true => apply andb_true_iff in H; let H' := fresh "E" in destruct H as [H H']
         end.
  repeat match goal with
         | E : String.eqb _ _ = true |- _ => apply String.eqb_eq in E
         end.
  subst. eexists _, _, _, _, _, _, _. split; [reflexivity | assumption].
Qed.

Lemma skipn_nil_length {A} (l : list A) i x :
  nth_error l i = Some x -> skipn (S i) l = [] -> List.length l = S i.
Proof.
  revert i; induction l as [|y l IH]; intros i Hn Hs.
  - destruct i; discriminate.
  - destruct i as [|i]; simpl in *.
    + subst l. reflexivity.
    + f_equal. eapply IH; eauto.
Qed.

Lemma lines_no_dump t i path doc :
  Forall (fun ev => is_line ev = true) t -> nth_error t i <> Some (EDump path doc).
Proof.
  intros Hl Hi. apply nth_error_In in Hi.
  rewrite Forall_forall in Hl. apply Hl in Hi. discriminate.
Qed.

(** The step that writes the record. *)
Lemma dump_step n a s path doc s' :
  record_step n a s (EDump path doc) = Some s' ->
  exists d calls,
    s = Verifying d calls /\ s' = Written d /\
    path = "token_deployment.json" /\ is_record_of n a d calls doc = true.
Proof.
  intros H. destruct s as [|d|d calls|d|e]; try (simpl in H; discriminate H).
  cbv beta iota delta [record_step] in H.
  destruct (String.eqb path "token_deployment.json") eqn:Hp; [|discriminate].
  destruct (is_record_of n a d calls doc) eqn:Hr; [|discriminate].
  apply String.eqb_eq in Hp. injection H as <-. eauto 6.
Qed.

(** A request that raised is the last event, and its exception is the
    state the run ends in. *)
Lemma failure_final n a s0 t s i ev e :
  run (record_step n a) s0 t = Some s ->
  nth_error t i = Some ev -> failure ev = Some e ->
  s = Failed e /\ List.length t = S i.
Proof.
  intros Hrun Hi Hf.
  destruct (run_nth _ _ _ _ _ _ Hrun Hi) as (si & si' & _ & Hstep & Hrest).
  rewrite (failure_step _ _ _ _ _ _ Hstep Hf) in Hrest.
  apply failed_stays in Hrest as [Hnil ->].
  split; [reflexivity | eapply skipn_nil_length; eauto].
Qed.

(** A run that wrote the record ends in [Written]. *)
Lemma dump_final n a s0 t s i path doc :
  run (record_step n a) s0 t = Some s ->
  nth_error t i = Some (EDump path doc) ->
  exists d, s = Written d.
Proof.
  intros Hrun Hi.
  destruct (run_nth _ _ _ _ _ _ Hrun Hi) as (si & si' & _ & Hstep & Hrest).
  apply dump_step in Hstep as (d & supply & _ & -> & _).
  apply written_stays in Hrest as [-> _]. eauto.
Qed.

(** Where a run that ends in [Written] wrote the record. *)
Lemma written_origin n a s0 t d :
  run (record_step n a) s0 t = Some (Written d) ->
  s0 = Written d \/
  exists j doc calls,
    nth_error t j = Some (EDump "token_deployment.json" doc) /\
    run (record_step n a) s0 (firstn j t) = Some (Verifying d calls).
Proof.
  revert s0; induction t as [|ev t IH]; intros s0 H.
  - left. simpl in H. congruence.
  - rewrite MonitorFacts.run_cons in H.
    destruct (record_step n a s0 ev) as [s1|] eqn:Hstep; [|discriminate].
    destruct (IH _ H) as [-> | (j & doc & supply & Hj & Hpre)].
    + destruct ev.
      * left. destruct s0 as [|?|? ?|?|?]; simpl in Hstep; try discriminate Hstep;
          congruence.
      * apply dump_step in Hstep as (d' & supply & -> & [= <-] & -> & _).
        right. exists 0%nat, doc, supply. auto.
      * exfalso. destruct s0 as [|?|? ?|?|?]; simpl in Hstep; try discriminate Hstep.
        destruct res; discriminate.
      * exfalso. destruct s0 as [|?|? ?|?|?]; simpl in Hstep; discriminate Hstep.
      * exfalso. destruct s0 as [|?|? ?|?|?]; simpl in Hstep; try discriminate Hstep;
          destruct res; discriminate.
      * exfalso. destruct s0 as [|?|? ?|?|?]; simpl in Hstep; discriminate Hstep.
      * exfalso. destruct s0 as [|d0|? ?|?|?]; simpl in Hstep; try discriminate Hstep.
        destruct (tx =? hash d0); [|discriminate]. destruct res; discriminate.
    + right. exists (S j), doc, supply. split; [exact Hj|].
      simpl firstn. rewrite MonitorFacts.run_cons, Hstep. exact Hpre.
Qed.

End DeployRecordFacts.

(* ===================================================================== *)
(** ** The requests of [test_token_functions] *)
(* ===================================================================== *)

Module TokenTestFacts.
Import Py Sdk Protocol TokenTest.
Import DeployToken.

Lemma bound_step a acct c :
  test_step a acct Unbound (EFromAddress (JInt a) (client acct) (Ret c)) = Some (BoundTo c).
Proof. simpl. rewrite Z.eqb_refl, String.eqb_refl. reflexivity. Qed.

Lemma unbound_step a acct e :
  test_step a acct Unbound (EFromAddress (JInt a) (client acct) (Raise e)) = Some Stopped.
Proof. simpl. rewrite Z.eqb_refl, String.eqb_refl. reflexivity. Qed.

Lemma call_step a acct c fn args r :
  match test_args fn with
  | Some expected => Amounts.args_eqb args expected
  | None => false
  end && negb (is_invocation fn) = true ->
  test_step a acct (BoundTo c) (ECall (contract_address c) fn args r) = Some (BoundTo c).
Proof.
  intros H. apply andb_true_iff in H as [H1 H2].
  cbv beta iota delta [test_step request_ok]. rewrite Z.eqb_refl, H1, H2. reflexivity.
Qed.

Lemma invoke_step a acct c fn args fee r :
  match test_args fn with
  | Some expected => Amounts.args_eqb args expected
  | None => false
  end && is_invocation fn = true ->
  test_step a acct (BoundTo c) (EInvoke (contract_address c) fn args fee r) = Some (BoundTo c).
Proof.
  intros H. apply andb_true_iff in H as [H1 H2].
  cbv beta iota delta [test_step request_ok]. rewrite Z.eqb_refl, H1, H2. reflexivity.
Qed.

Ltac test_stp :=
  idtac;
  lazymatch goal with
  | |- test_step _ _ Unbound (EFromAddress _ _ (Ret _)) = _ => apply bound_step
  | |- test_step _ _ Unbound (EFromAddress _ _ (Raise _)) = _ => apply unbound_step
  | |- test_step _ _ (BoundTo _) (ECall _ _ _ _) = _ =>
      apply call_step; vm_compute; reflexivity
  | |- test_step _ _ (BoundTo _) (EInvoke _ _ _ _ _) = _ =>
      apply invoke_step; vm_compute; reflexivity
  | |- _ => reflexivity
  end.

Ltac test_fin :=
  idtac;
  lazymatch goal with
  | |- if _ then _ else _ => fail
  | |- triple _ _ _ _ => fail
  | |- _ => exact I
  end.

Lemma test_token_functions_bound a acct :
  triple (test_step a acct) Unbound (test_token_functions a acct) test_post.
Proof. unfold test_token_functions. repeat script_step test_stp test_fin idtac. Qed.

Lemma stopped_stays a acct t s :
  run (test_step a acct) Stopped t = Some s -> t = [] /\ s = Stopped.
Proof. destruct t; simpl; intros H; [injection H as <-; auto | discriminate]. Qed.

Lemma bound_to_stays a acct c t s : run (test_step a acct) (BoundTo c) t = Some s -> s = BoundTo c.
Proof.
  revert s; induction t as [|ev t IH]; intros s H; simpl in H; [congruence|].
  destruct ev; try discriminate; simpl in H; auto.
  - destruct (_ && _); [auto | discriminate].
  - destruct (_ && _); [auto | discriminate].
Qed.

Lemma client_eq (c1 c2 : FullNodeClient) : node_url c1 = node_url c2 -> c1 = c2.
Proof. destruct c1, c2; simpl; congruence. Qed.

Lemma unbound_step_inv a acct ev s :
  test_step a acct Unbound ev = Some s ->
  match ev with
  | EPrint _ => s = Unbound
  | EFromAddress addr cl r =>
      addr = JInt a /\ cl = client acct /\
      s = match r with Ret c => BoundTo c | Raise _ => Stopped end
  | _ => False
  end.
Proof.
  destruct ev; cbv beta iota delta [test_step]; try discriminate; [congruence|].
  destruct (Amounts.json_eqb addr (JInt a)) eqn:Ha; [|discriminate].
  destruct (String.eqb (node_url cl) (node_url (client acct))) eqn:Hc; [|discriminate].
  apply AmountsFacts.json_eqb_eq in Ha. apply String.eqb_eq, client_eq in Hc.
  cbv beta iota delta [andb]. intros [= <-]. auto.
Qed.

Lemma bound_origin a acct t c :
  run (test_step a acct) Unbound t = Some (BoundTo c) ->
  exists i, nth_error t i = Some (EFromAddress (JInt a) (client acct) (Ret c)).
Proof.
  induction t as [|ev t IH]; intros H; [discriminate|].
  rewrite MonitorFacts.run_cons in H.
  destruct (test_step a acct Unbound ev) as [s1|] eqn:Hstep; [|discriminate].
  apply unbound_step_inv in Hstep. destruct ev; try contradiction.
  - subst s1. destruct (IH H) as [i Hi]. exists (S i). exact Hi.
  - destruct Hstep as (-> & -> & ->). destruct res as [c'|e].
    + apply bound_to_stays in H. injection H as ->. exists 0%nat. reflexivity.
    + apply stopped_stays in H as [_ H]. discriminate.
Qed.

Lemma test_sound a acct t s :
  run (test_step a acct) Unbound t = Some s -> bound_requests a acct t.
Proof.
  intros Hrun j ev addr fn Hj Hreq.
  destruct (run_nth _ _ _ _ _ _ Hrun Hj) as (si & si' & Hpre & Hstep & _).
  assert (Hb : exists c, si = BoundTo c /\
             exists args, match ev with
                          | ECall _ _ x _ => x = args /\ is_invocation fn = false
                          | EInvoke _ _ x _ _ => x = args /\ is_invocation fn = true
                          | _ => False
                          end /\ request_ok c addr fn args = true).
  { destruct ev; try discriminate; simpl in Hreq; injection Hreq as -> ->;
      destruct si as [|c|]; try discriminate; simpl in Hstep;
      destruct (request_ok c addr fn args) eqn:Hok; try discriminate;
      simpl in Hstep.
    - destruct (is_invocation fn) eqn:Hi; [discriminate|]. eauto 6.
    - destruct (is_invocation fn) eqn:Hi; [|discriminate]. eauto 6. }
  destruct Hb as (c & -> & args & Hev & Hok).
  destruct (bound_origin _ _ _ _ Hpre) as [i Hi].
  rewrite nth_error_firstn in Hi.
  destruct (Nat.ltb i j) eqn:Hlt; [|discriminate]. apply Nat.ltb_lt in Hlt.
  unfold request_ok in Hok. apply andb_true_iff in Hok as [Haddr Hargs].
  apply Z.eqb_eq in Haddr.
  destruct (test_args fn) as [expected|] eqn:Ht; [|discriminate].
  apply AmountsFacts.args_eqb_eq in Hargs. subst expected.
  exists i, c. repeat split; [exact Hlt | exact Hi | exact Haddr |].
  destruct ev; try contradiction; destruct Hev as [-> Hinv]; auto.
Qed.

End TokenTestFacts.

(* ===================================================================== *)
(** ** What a normal return of [run_all_examples] means *)
(* ===================================================================== *)

Module ProgressFacts.
Import Py Sdk Protocol Progress.
Import InteractionExamples.

#[local] Arguments Z.pow : simpl never.
#[local] Arguments Z.mul : simpl never.

Lemma quiet_step s ev : quiet ev = true -> progress_step s ev = Some s.
Proof.
  destruct ev; simpl; try reflexivity.
  - intros H. apply negb_true_iff in H. rewrite H. reflexivity.
  - destruct res; [discriminate | reflexivity].
  - destruct res; [discriminate | reflexivity].
Qed.

Lemma success_step s :
  todo s = [] -> progress_step s (EPrint success_line) = Some (mkProgress (pending s) [] true).
Proof. intros H. simpl. rewrite H. reflexivity. Qed.

Lemma accepted_step fn tx rest d r :
  progress_step (mkProgress (Some (fn, tx)) (fn :: rest) d) (EWait tx (Ret r))
  = Some (mkProgress None rest d).
Proof. simpl. rewrite Z.eqb_refl, String.eqb_refl. reflexivity. Qed.

Ltac progress_stp :=
  idtac;
  lazymatch goal with
  | |- progress_step _ (EInvoke _ _ _ _ (Ret _)) = _ => reflexivity
  | |- progress_step _ (EWait _ (Ret _)) = _ => apply accepted_step
  | |- progress_step _ (EPrint _) = _ =>
      first [ apply quiet_step; vm_compute; reflexivity | apply success_step; reflexivity ]
  | |- _ => apply quiet_step; reflexivity
  end.

Ltac progress_fin :=
  idtac;
  lazymatch goal with
  | |- if _ then _ else _ => fail
  | |- triple _ _ _ _ => fail
  | |- _ =>
      unfold operation_post, progress_post;
      first [ reflexivity | assumption | split; reflexivity ]
  end.

Ltac advance := repeat script_step progress_stp progress_fin idtac.

Ltac progress_after lemma :=
  eapply triple_seq;
  [ apply lemma
  | intros [[]|?] ? H; unfold operation_post in H; [subst | exact H] ].

Section Groups.
Variables (self : HomebaseInteraction) (c : Contracts) (rest : list string).

Lemma token_progress :
triple progress_step (mkProgress None ("transfer" :: rest) false)
  (token_interactions self c) (operation_post (mkProgress None rest false)).
Proof. unfold token_interactions. advance. Qed.

Lemma loan_progress :
triple progress_step (mkProgress None ("request_loan" :: rest) false)
  (loan_interactions self c) (operation_post (mkProgress None rest false)).
Proof. unfold loan_interactions, loan_readback. advance. Qed.

Lemma escrow_progress :
triple progress_step (mkProgress None ("create_escrow" :: rest) false)
  (escrow_interactions self c) (operation_post (mkProgress None rest false)).
Proof. unfold escrow_interactions, escrow_readback. advance. Qed.

Lemma swap_progress :
triple progress_step (mkProgress None rest false)
  (swap_interactions self c) (operation_post (mkProgress None rest false)).
Proof. unfold swap_interactions, swap_quote. advance. Qed.

Lemma credit_card_progress :
triple progress_step (mkProgress None ("initiate_payment" :: rest) false)
  (credit_card_interactions self c) (operation_post (mkProgress None rest false)).
Proof. unfold credit_card_interactions, payment_readback. advance. Qed.
End Groups.

Lemma all_groups_progress self c :
  triple progress_step (mkProgress None operations false) (all_groups self c) progress_post.
Proof.
  unfold all_groups, operations.
  progress_after token_progress. progress_after loan_progress.
  progress_after escrow_progress. progress_after swap_progress.
  progress_after credit_card_progress. advance.
Qed.

Lemma run_all_examples_progress self :
  triple progress_step (mkProgress None operations false) (run_all_examples self)
    progress_post.
Proof.
  unfold run_all_examples, setup_contracts, bind_contract. advance.
  eapply triple_conseq; [apply all_groups_progress|].
  intros [[]|e] st H; [exact H|].
  destruct (is_Exception e); [|exact H].
  unfold progress_post in H. advance.
Qed.

Lemma progress_accepted s t s' :
  run progress_step s t = Some s' -> (accepted_from (pending s) t ++ todo s')%list = todo s.
Proof.
  revert s; induction t as [|ev t IH]; intros s H.
  - simpl in H. injection H as <-. reflexivity.
  - rewrite MonitorFacts.run_cons in H.
    destruct (progress_step s ev) as [s1|] eqn:Hstep; [|discriminate].
    specialize (IH _ H).
    destruct ev; simpl in Hstep |- *;
      try (injection Hstep as <-; exact IH).
    + destruct (String.eqb line success_line).
      * destruct (todo s) eqn:Ht; [|discriminate]. injection Hstep as <-.
        simpl in IH. exact IH.
      * injection Hstep as <-. exact IH.
    + destruct res as [tx|e]; injection Hstep as <-; exact IH.
    + destruct res as [r|e]; [|injection Hstep as <-; exact IH].
      destruct (pending s) as [[fn tx']|] eqn:Hp.
      2:{ injection Hstep as <-. rewrite Hp in IH. exact IH. }
      destruct (tx =? tx').
      2:{ injection Hstep as <-. rewrite Hp in IH. exact IH. }
      destruct (todo s) as [|next rest]; [discriminate|].
      destruct (String.eqb fn next) eqn:Hfn; [|discriminate].
      apply String.eqb_eq in Hfn. subst next. injection Hstep as <-.
      simpl in IH. simpl. rewrite IH. reflexivity.
Qed.

Lemma progress_printed s t s' :
  run progress_step s t = Some s' -> done s' = done s || Scenario.printed success_line t.
Proof.
  revert s; induction t as [|ev t IH]; intros s H.
  - simpl in H. injection H as <-. simpl. rewrite orb_false_r. reflexivity.
  - rewrite MonitorFacts.run_cons in H.
    destruct (progress_step s ev) as [s1|] eqn:Hstep; [|discriminate].
    rewrite (IH _ H). unfold Scenario.printed. cbn [existsb].
    fold (Scenario.printed success_line t).
    destruct ev; simpl in Hstep;
      try (injection Hstep as <-; reflexivity).
    + destruct (String.eqb line success_line).
      * destruct (todo s); [|discriminate]. injection Hstep as <-.
        simpl. rewrite orb_true_r. reflexivity.
      * injection Hstep as <-. reflexivity.
    + destruct res; injection Hstep as <-; reflexivity.
    + destruct res as [r|e]; [|injection Hstep as <-; reflexivity].
      destruct (pending s) as [[fn tx']|]; [|injection Hstep as <-; reflexivity].
      destruct (tx =? tx'); [|injection Hstep as <-; reflexivity].
      destruct (todo s) as [|next rest]; [discriminate|].
      destruct (String.eqb fn next); [|discriminate].
      injection Hstep as <-. reflexivity.
Qed.

End ProgressFacts.

(* ===================================================================== *)
(** ** Further properties of the two scripts *)
(* ===================================================================== *)

Import Routing Never SwapGuard DeployRecord TokenTest Edges Progress.

(** X1.  In [run_all_examples], whatever the network answers: every
    call and every invocation names a function of one of the five
    groups, and is addressed to the contract that [setup_contracts]
    bound for that group, that is to the contract returned by the
    resolution of the address-book entry of the group's logical name
    (the event at position 2 + g of the run, after the two header
    lines). *)
Theorem requests_go_to_the_binding_of_their_group :
  forall self w j ev addr fn,
    nth_error (fst (run_all_examples self w [])) j = Some ev ->
    request_of ev = Some (addr, fn) ->
    exists g name a k,
      group_of fn = Some g /\
      nth_error contract_names g = Some name /\
      contract_entry self name = Ret a /\
      nth_error (fst (run_all_examples self w [])) (2 + g)
        = Some (EFromAddress a (self_client self) (Ret k)) /\
      addr = contract_address k.
Proof.
  intros self w j ev addr fn Hj Hreq.
  rewrite ConfigFacts.run_all_examples_unfold in *.
  destruct (ConfigFacts.setup_contracts_cases self w header)
    as [(ts & e & Hs & Hall) | (c & a1 & a2 & a3 & a4 & a5 & (H1 & H2 & H3 & H4 & H5) & Hs)];
    rewrite Hs in *.
  - exfalso. cbn [fst] in Hj. unfold header in Hj.
    destruct j as [|[|j]]; cbn [nth_error app] in Hj;
      [injection Hj as <-; discriminate | injection Hj as <-; discriminate |].
    apply nth_error_In in Hj. rewrite Forall_forall in Hall.
    apply Hall, RoutingFacts.resolution_not_request in Hj. congruence.
  - destruct (RoutingFacts.groups_or_error_routed self c w
                (header ++ resolved (self_client self) a1 a2 a3 a4 a5 c)%list)
      as (s' & Hrun & _).
    destruct (groups_or_error self c w _) as [tg o]. cbn [fst] in *.
    apply RoutingFacts.route_sound in Hrun.
    unfold header, resolved in *. cbn [app] in *.
    do 8 (destruct j as [|j]; [cbn [nth_error] in Hj; injection Hj as <-; discriminate|]).
    cbn [nth_error] in Hj.
    destruct (Hrun j ev addr fn Hj Hreq) as (g & k & Hg & Hk & Ha).
    exists g. unfold group_contract in Hk.
    destruct g as [|[|[|[|[|g]]]]]; cbn [nth_error] in Hk;
      try (destruct g; discriminate Hk);
      injection Hk as <-; eexists _, _, _;
      (split; [exact Hg | split; [reflexivity | split; [eassumption | split; [reflexivity | exact Ha]]]]).
Qed.

(** X1 on [happy]: the transfer at position 22 goes to the contract
    bound at position 2 for the entry [hancoin_token]. *)
Lemma transfer_goes_to_the_token_binding_in_happy :
  exists g name a k,
    group_of "transfer" = Some g /\
    nth_error contract_names g = Some name /\
    contract_entry session name = Ret a /\
    nth_error (fst (run_all_examples session happy [])) (2 + g)
      = Some (EFromAddress a (self_client session) (Ret k)) /\
    1 = contract_address k.
Proof.
  apply (requests_go_to_the_binding_of_their_group session happy 22%nat
           (EInvoke 1 "transfer" [JStr test_recipient; JInt (1000 * 10 ^ 18)]
              100000000000000000 (Ret (mkSent 22))) 1 "transfer").
  - vm_compute. reflexivity.
  - reflexivity.
Defined.

(** X2.  In [main] and in [run_all_examples], whatever the network
    answers: the requests follow the order of the groups (token, loan,
    escrow, swap, credit card); once a function of a later group has
    been requested, no function of an earlier group is requested any
    more. *)
Theorem requests_follow_the_order_of_the_groups :
  forall w,
    in_group_order (fst (main w [])) /\
    (forall self, in_group_order (fst (run_all_examples self w []))).
Proof.
  intros w. split; [|intros self].
  - destruct (RoutingFacts.main_ordered w []) as (s & H & _).
    eapply RoutingFacts.order_sound; eauto.
  - destruct (RoutingFacts.run_all_examples_ordered self w []) as (s & H & _).
    eapply RoutingFacts.order_sound; eauto.
Qed.

(** X2 on [happy]: the transfer at position 22 belongs to group 0, the
    first call of the loan group at position 28 to group 1. *)
Lemma transfer_precedes_the_loan_group_in_happy :
  group_of "transfer" = Some 0%nat /\ group_of "get_total_loans_issued" = Some 1%nat /\
  (0 <= 1)%nat.
Proof.
  split; [reflexivity | split; [reflexivity|]].
  destruct (requests_follow_the_order_of_the_groups happy) as [H _].
  apply (H 22%nat 28%nat
           (EInvoke 1 "transfer" [JStr test_recipient; JInt (1000 * 10 ^ 18)]
              100000000000000000 (Ret (mkSent 22)))
           (ECall 2 "get_total_loans_issued" [] (Ret reply))
           1 "transfer" 2 "get_total_loans_issued").
  - lia.
  - vm_compute. reflexivity.
  - reflexivity.
  - reflexivity.
  - vm_compute. reflexivity.
  - reflexivity.
  - reflexivity.
Defined.

(** X3.  Whatever the environment, the files and the network are:
    [main] of the interaction script and [test_token_functions] never
    deploy a contract and never write a file; [deploy_token] never
    binds a contract by its address. *)
Theorem interaction_never_deploys_nor_writes :
  forall w,
    Forall (fun ev => no_deploy_no_write ev = true) (fst (main w [])) /\
    (forall a acct,
        Forall (fun ev => no_deploy_no_write ev = true)
               (fst (test_token_functions a acct w []))) /\
    Forall (fun ev => is_resolution ev = false) (fst (deploy_token w [])).
Proof.
  intros w. split; [|split; [intros a acct|]].
  - destruct (NeverFacts.main_events tt w []) as (s & H & _).
    apply NeverFacts.only_sound in H.
    eapply Forall_impl; [|exact H]. apply NeverFacts.interaction_no_deploy.
  - destruct (NeverFacts.test_token_functions_events a acct tt w []) as (s & H & _).
    apply NeverFacts.only_sound in H.
    eapply Forall_impl; [|exact H]. apply NeverFacts.interaction_no_deploy.
  - destruct (NeverFacts.deploy_token_events tt w []) as (s & H & _).
    apply NeverFacts.only_sound in H.
    eapply Forall_impl; [|exact H]. intros ev. destruct ev; simpl; congruence.
Qed.

(** X4.  Every invocation the scripts submit carries the fee bound
    [int(1e17)] = 10^17: in [main] and in [test_token_functions],
    whatever the network answers; [deploy_token] submits no invocation
    at all. *)
Theorem every_invocation_carries_the_fee_bound :
  forall w,
    Forall (fun ev => fee_is_1e17 ev = true) (fst (main w [])) /\
    (forall a acct,
        Forall (fun ev => fee_is_1e17 ev = true) (fst (test_token_functions a acct w []))) /\
    Forall (fun ev => no_invocation ev = true) (fst (deploy_token w [])).
Proof.
  intros w. split; [|split; [intros a acct|]].
  - destruct (NeverFacts.main_events tt w []) as (s & H & _).
    apply NeverFacts.only_sound in H.
    eapply Forall_impl; [|exact H]. apply NeverFacts.interaction_fee.
  - destruct (NeverFacts.test_token_functions_events a acct tt w []) as (s & H & _).
    apply NeverFacts.only_sound in H.
    eapply Forall_impl; [|exact H]. apply NeverFacts.interaction_fee.
  - destruct (NeverFacts.deploy_token_events tt w []) as (s & H & _).
    apply NeverFacts.only_sound in H.
    eapply Forall_impl; [|exact H]. apply NeverFacts.deployment_no_invocation.
Qed.

(** X5.  In [main] and in [run_all_examples], whatever the network
    answers: a swap quote is requested only after a look-up of USDT
    whose [result] was different from zero, and the line
    "USDT not configured for swaps" is printed only after a look-up of
    USDT whose [result] was zero. *)
Theorem swap_quote_only_for_a_configured_usdt :
  forall w,
    quote_guarded (fst (main w [])) /\
    (forall self, quote_guarded (fst (run_all_examples self w []))).
Proof.
  intros w. split; [|intros self].
  - destruct (SwapGuardFacts.main_guarded None w []) as (s & H & _).
    eapply SwapGuardFacts.guard_sound; eauto.
  - destruct (SwapGuardFacts.run_all_examples_guarded self None w []) as (s & H & _).
    eapply SwapGuardFacts.guard_sound; eauto.
Qed.

(** X5 on [usdt_unset]: the line at position 83 follows a look-up of
    USDT that returned zero. *)
Lemma usdt_not_configured_in_example :
  exists v, usdt_was (fst (main usdt_unset [])) 83 v /\ ne_zero v = false.
Proof.
  destruct (swap_quote_only_for_a_configured_usdt usdt_unset) as [[_ H] _].
  apply (H 83%nat). vm_compute. reflexivity.
Defined.

(** X6.  In [deploy_token], whatever the network answers: a file is
    written at most once, it is [token_deployment.json], and it is
    written after the deployment returned and after exactly seven calls
    returned, all of them after the deployment: [name], [symbol],
    [decimals], [total_supply], [balance_of], [is_paymaster_enabled] and
    [get_gas_fee_rate], in this order.  Its content is the dictionary of
    lines 101-114: the selected network, the address of the deployed
    contract and the transaction hash in hexadecimal, the deployer's
    address as read from the environment, the block number, and in
    [token_info] the attribute [name] of the reply of [name], the
    attribute [symbol] of the reply of [symbol], the attribute
    [decimals] of the reply of [decimals], and the total supply of the
    reply of [total_supply], both as the decimal text of the raw integer
    and divided by 10^18 in the format [,.0f].  A run that writes the
    file returns the address and the binding of the deployed
    contract. *)
Theorem deployment_record_is_written_once :
  forall w i path doc,
    nth_error (fst (deploy_token w [])) i = Some (EDump path doc) ->
    exists d,
      record_written (selected_network w) (environ w "ACCOUNT_ADDRESS")
        (fst (deploy_token w [])) i d /\
      snd (deploy_token w [])
        = Ret (Some (contract_address (deployed_contract d), deployed_contract d)) /\
      (forall i' path' doc',
          nth_error (fst (deploy_token w [])) i' = Some (EDump path' doc') -> i' = i).
Proof.
  intros w i path doc Hi.
  rewrite DeployFlowFacts.deploy_token_reads_environment in *.
  unfold selected_network.
  set (n := match environ w "NETWORK" with Some v => v | None => "testnet" end) in *.
  set (a := environ w "ACCOUNT_ADDRESS") in *.
  destruct (DeployRecordFacts.deploy_with_recorded n a (environ w "PRIVATE_KEY") w [])
    as (s & Hrun & Hpost).
  destruct (deploy_with n a (environ w "PRIVATE_KEY") w []) as [t o]. cbn [fst snd] in *.
  destruct (run_nth _ _ _ _ _ _ Hrun Hi) as (si & si' & Hpre & Hstep & Hrest).
  apply DeployRecordFacts.dump_step in Hstep as (d & calls & -> & -> & -> & Hrec).
  apply DeployRecordFacts.is_record_of_eq in Hrec
    as (name & symbol & decimals & supply & balance & paymaster & rate & -> & Hrec).
  apply DeployRecordFacts.is_record_eq in Hrec
    as (i_name & i_symbol & i_decimals & raw & shown & Hn & Hs & Hd & Hraw & Hshown & ->).
  apply DeployRecordFacts.written_stays in Hrest as [-> Hlines].
  exists d. split; [|split; [exact Hpost|]].
  - destruct (DeployRecordFacts.not_deployed_origin _ _ _ _ _ Hpre)
      as (j & dargs & Hj & Hnone & Hcalls).
    rewrite nth_error_firstn in Hj.
    destruct (Nat.ltb j i) eqn:Hji; [|discriminate]. apply Nat.ltb_lt in Hji.
    rewrite firstn_firstn in Hnone.
    replace (Nat.min (S j) i) with (S j) in Hnone by lia.
    exists j, dargs, name, symbol, decimals, supply, balance, paymaster, rate.
    exists i_name, i_symbol, i_decimals, raw, shown.
    repeat split; auto.
  - intros i' path' doc' Hi'.
    destruct (Nat.lt_trichotomy i' i) as [Hlt | [Heq | Hgt]]; [exfalso | exact Heq | exfalso].
    + apply (DeployRecordFacts.no_dump_before _ _ _ _ _ _ i' path' doc' Hpre).
      rewrite nth_error_firstn.
      destruct (Nat.ltb i' i) eqn:E; [exact Hi'|]. apply Nat.ltb_ge in E. lia.
    + apply (DeployRecordFacts.lines_no_dump _ (i' - S i) path' doc' Hlines).
      rewrite nth_error_skipn. replace (S i + (i' - S i))%nat with i' by lia. exact Hi'.
Qed.

(** X6 on [happy]: the file is written at position 23 of the run. *)
Lemma deployment_record_in_happy :
  exists d,
    record_written (selected_network happy) (environ happy "ACCOUNT_ADDRESS")
      (fst (deploy_token happy [])) 23 d /\
    snd (deploy_token happy [])
      = Ret (Some (contract_address (deployed_contract d), deployed_contract d)) /\
    (forall i' path' doc',
        nth_error (fst (deploy_token happy [])) i' = Some (EDump path' doc') -> i' = 23%nat).
Proof.
  apply (deployment_record_is_written_once happy 23%nat "token_deployment.json"
           (JDict [ ("network", JStr "testnet");
                    ("contract_address", JStr "0xabcd");
                    ("deployer", JStr "0xabc");
                    ("transaction_hash", JStr "0x1234");
                    ("block_number", JInt 7);
                    ("token_info",
                      JDict [ ("name", JStr "Hancoin"); ("symbol", JStr "HNXZ");
                              ("decimals", JInt 18);
                              ("total_supply", JStr "1000000000000000000000");
                              ("formatted_supply", JStr "1,000") ]) ])).
  vm_compute. reflexivity.
Defined.

(** X7.  In [deploy_token], whatever the network answers: when the
    deployment, the wait for its acceptance or one of the calls raises,
    that request is the last event of the run, the exception leaves
    [deploy_token], and no file is written. *)
Theorem failed_request_ends_the_deployment :
  forall w i ev e,
    nth_error (fst (deploy_token w [])) i = Some ev ->
    failure ev = Some e ->
    snd (deploy_token w []) = Raise e /\
    List.length (fst (deploy_token w [])) = S i /\
    (forall i' path doc, nth_error (fst (deploy_token w [])) i' <> Some (EDump path doc)).
Proof.
  intros w i ev e Hi Hf.
  rewrite DeployFlowFacts.deploy_token_reads_environment in *.
  set (n := match environ w "NETWORK" with Some v => v | None => "testnet" end) in *.
  set (a := environ w "ACCOUNT_ADDRESS") in *.
  destruct (DeployRecordFacts.deploy_with_recorded n a (environ w "PRIVATE_KEY") w [])
    as (s & Hrun & Hpost).
  destruct (deploy_with n a (environ w "PRIVATE_KEY") w []) as [t o]. cbn [fst snd] in *.
  destruct (DeployRecordFacts.failure_final _ _ _ _ _ _ _ _ Hrun Hi Hf) as [-> Hlen].
  split; [exact Hpost | split; [exact Hlen|]].
  intros i' path doc Hi'.
  destruct (DeployRecordFacts.dump_final _ _ _ _ _ _ _ _ Hrun Hi') as [d Hd]. discriminate.
Qed.

(** X7 on [symbol_fails]: the call of [symbol] at position 10 raises,
    and the run has 11 events. *)
Lemma failed_call_ends_the_deployment_in_example :
  snd (deploy_token symbol_fails []) = Raise connection_error /\
  List.length (fst (deploy_token symbol_fails [])) = 11%nat /\
  (forall i' path doc,
      nth_error (fst (deploy_token symbol_fails [])) i' <> Some (EDump path doc)).
Proof.
  apply (failed_request_ends_the_deployment symbol_fails 10%nat
           (ECall 43981 "symbol" [] (Raise connection_error)) connection_error).
  - vm_compute. reflexivity.
  - reflexivity.
Defined.

(** X8.  What [deploy_token] returns, whatever the network answers:
    when it returns a pair, the pair is the address and the binding of
    the contract a deployment of this run returned, and the record
    [token_deployment.json] was written after that deployment; when it
    returns [None] (the bare [return]), the run has only printed. *)
Theorem deploy_token_returns_the_deployed_contract :
  forall w,
    (forall a c,
        snd (deploy_token w []) = Ret (Some (a, c)) ->
        exists i j dargs d doc,
          (i < j)%nat /\
          nth_error (fst (deploy_token w [])) i = Some (EDeploy dargs (Ret d)) /\
          nth_error (fst (deploy_token w [])) j = Some (EDump "token_deployment.json" doc) /\
          c = deployed_contract d /\ a = contract_address c) /\
    (snd (deploy_token w []) = Ret None ->
     Forall (fun ev => is_line ev = true) (fst (deploy_token w []))).
Proof.
  intros w.
  rewrite DeployFlowFacts.deploy_token_reads_environment.
  set (n := match environ w "NETWORK" with Some v => v | None => "testnet" end).
  set (a0 := environ w "ACCOUNT_ADDRESS").
  destruct (DeployRecordFacts.deploy_with_recorded n a0 (environ w "PRIVATE_KEY") w [])
    as (s & Hrun & Hpost).
  destruct (deploy_with n a0 (environ w "PRIVATE_KEY") w []) as [t o]. cbn [fst snd] in *.
  split.
  - intros a c ->.
    destruct s as [|d|d sup|d|e]; simpl in Hpost;
      [destruct Hpost as [H | [e H]]; discriminate H | contradiction
      | destruct Hpost as [e H]; discriminate H | | discriminate Hpost].
    injection Hpost as -> ->.
    destruct (DeployRecordFacts.written_origin _ _ _ _ _ Hrun)
      as [H | (j & doc & supply & Hj & Hpre)]; [discriminate|].
    destruct (DeployRecordFacts.not_deployed_origin _ _ _ _ _ Hpre)
      as (i & dargs & Hi & _).
    rewrite nth_error_firstn in Hi.
    destruct (Nat.ltb i j) eqn:Hij; [|discriminate]. apply Nat.ltb_lt in Hij.
    exists i, j, dargs, d, doc. auto.
  - intros ->.
    destruct s as [|d|d sup|d|e]; simpl in Hpost;
      [ | contradiction | destruct Hpost as [e H]; discriminate H
      | discriminate Hpost | discriminate Hpost].
    apply (DeployRecordFacts.not_deployed_lines _ _ _ _ Hrun).
Qed.

(** X8 on [happy]: the pair returned is the contract deployed at
    position 3, and the record was written at position 23. *)
Lemma returned_contract_in_happy :
  exists i j dargs d doc,
    (i < j)%nat /\
    nth_error (fst (deploy_token happy [])) i = Some (EDeploy dargs (Ret d)) /\
    nth_error (fst (deploy_token happy [])) j = Some (EDump "token_deployment.json" doc) /\
    deployed_contract deployed = deployed_contract d /\
    43981 = contract_address (deployed_contract deployed).
Proof.
  destruct (deploy_token_returns_the_deployed_contract happy) as [H _].
  apply (H 43981 (deployed_contract deployed)). vm_compute. reflexivity.
Defined.

(** X9.  A private key that is set and that [int(key, 16)] does not
    parse (the text [int] parses is the key itself when it is ASCII):
    [int] raises [ValueError], and the message holds [repr] of the key,
    cut after 200 characters.  With both credentials set, [deploy_token]
    prints its two opening lines and raises that [ValueError] when the
    network is one of [NETWORK_URL], and [main] of the interaction
    script raises it without any event when the address book is a JSON
    file.  Neither script sends a request. *)
Theorem invalid_private_key_raises_before_any_request :
  forall w key,
    truthy (environ w "ACCOUNT_ADDRESS") = true ->
    environ w "PRIVATE_KEY" = Some key ->
    truthy (Some key) = true ->
    parse_int16 (int_text (unicode w) key) = None ->
    let e := mkExn ValueError
               ("invalid literal for int() with base 16: " ++ repr200 (unicode w) key) in
    (forall url,
        table_getitem (unicode w) NETWORK_URL (selected_network w) = Ret url ->
        deploy_token w [] = (deploy_header w, Raise e)) /\
    (forall doc,
        files w address_book = Some (Ret doc) -> main w [] = ([], Raise e)).
Proof.
  intros w key Ha Hkey Hk Hp e.
  assert (Hz : int16_opt (unicode w) (environ w "PRIVATE_KEY") = Raise e).
  { rewrite Hkey. unfold int16_opt, int16. rewrite Hp. reflexivity. }
  rewrite <- Hkey in Hk. split.
  - intros url Hurl. apply (ConfigFacts.deploy_token_session_raises w e Ha Hk).
    apply (ConfigFacts.build_session_bad_key _ url); assumption.
  - intros doc Hf. apply (ConfigFacts.main_init_raises w e); try assumption.
    + congruence.
    + apply (ConfigFacts.init_bad_key w doc e Hf Hz).
Qed.

(** X9 on [bad_key], where [PRIVATE_KEY] is "secret". *)
Lemma invalid_private_key_in_example :
  let e := mkExn ValueError "invalid literal for int() with base 16: 'secret'" in
  deploy_token bad_key [] = (deploy_header bad_key, Raise e) /\
  main bad_key [] = ([], Raise e).
Proof.
  destruct (invalid_private_key_raises_before_any_request bad_key "secret"
              eq_refl eq_refl eq_refl eq_refl) as [H1 H2].
  split.
  - apply (H1 "https://alpha4.starknet.io"). reflexivity.
  - apply (H2 address_book_doc). reflexivity.
Defined.

(** X10.  [main] checks only that [deployment_addresses.json] exists:
    when the file is there and reading it as JSON raises (it is not
    JSON: [JSONDecodeError]; or it cannot be read), and both credentials
    are set, the exception of [__init__] leaves [main]; nothing is
    printed, no request is sent, and the script ends with status 1. *)
Theorem unreadable_address_book_is_not_reported :
  forall w e,
    files w address_book = Some (Raise e) ->
    is_Exception e = true ->
    truthy (environ w "ACCOUNT_ADDRESS") = true ->
    truthy (environ w "PRIVATE_KEY") = true ->
    main w [] = ([], Raise e) /\ exit_status (snd (main w [])) = 1.
Proof.
  intros w e Hf He Ha Hk.
  assert (Hm : main w [] = ([], Raise e)).
  { apply (ConfigFacts.main_init_raises w e); try assumption.
    - congruence.
    - apply (ConfigFacts.init_bad_book w e Hf). }
  rewrite Hm. split; reflexivity.
Qed.

(** X10 on [broken_book]. *)
Lemma unreadable_address_book_in_example :
  main broken_book [] = ([], Raise not_json) /\ exit_status (snd (main broken_book [])) = 1.
Proof.
  exact (unreadable_address_book_is_not_reported broken_book not_json
           eq_refl eq_refl eq_refl eq_refl).
Defined.

(** X11.  The handler of [deploy_token] catches only
    [FileNotFoundError].  Once the session is built (lines 36-46 have
    returned an account): a class file whose reading raises anything
    else (it is not JSON: [JSONDecodeError]) makes that exception leave
    [deploy_token] after the two opening lines; a class file that is
    JSON and has no usable [abi] entry makes [contract_class['abi']]
    raise after the line "Deploying contract...".  In both cases no
    deployment is submitted and the exception leaves [deploy_token]. *)
Theorem unusable_class_file_raises_before_the_deployment :
  forall w acct,
    truthy (environ w "ACCOUNT_ADDRESS") = true ->
    truthy (environ w "PRIVATE_KEY") = true ->
    session_built w acct ->
    (forall e,
        files w class_file = Some (Raise e) ->
        is_FileNotFoundError e = false ->
        deploy_token w [] = (deploy_header w, Raise e)) /\
    (forall doc e,
        files w class_file = Some (Ret doc) ->
        getitem doc "abi" = Raise e ->
        deploy_token w [] =
          ((deploy_header w ++ [EPrint "📦 Deploying contract..."])%list, Raise e)).
Proof.
  intros w acct Ha Hk Hs. split.
  - intros e Hf He.
    apply (ConfigFacts.deploy_token_bad_class_file w acct e Ha Hk Hs Hf He).
  - intros doc e Hf Habi.
    apply (ConfigFacts.deploy_token_no_abi w acct doc e Ha Hk Hs Hf Habi).
Qed.

(** X11 on [broken_class_file] and on [no_abi]. *)
Lemma unusable_class_file_in_examples :
  deploy_token broken_class_file [] = (deploy_header broken_class_file, Raise not_json) /\
  deploy_token no_abi [] =
    ((deploy_header no_abi ++ [EPrint "📦 Deploying contract..."])%list,
     Raise (mkExn KeyError "'abi'")).
Proof.
  split.
  - destruct (unusable_class_file_raises_before_the_deployment broken_class_file
                (mkAccount (Some "0xabc") (mkClient "https://alpha4.starknet.io") 31 TESTNET)
                eq_refl eq_refl eq_refl) as [H _].
    apply (H not_json); reflexivity.
  - destruct (unusable_class_file_raises_before_the_deployment no_abi
                (mkAccount (Some "0xabc") (mkClient "https://alpha4.starknet.io") 31 TESTNET)
                eq_refl eq_refl eq_refl) as [_ H].
    apply (H (JDict [("sierra_program", JList [])])); reflexivity.
Defined.

(** X12.  In [test_token_functions a acct], whatever the network
    answers: every call and every invocation goes to the contract that
    an earlier [Contract.from_address(a, acct.client)] returned; [mint]
    is invoked with the test recipient and the raw amount 1000 * 10^18,
    [set_gas_fee_rate] is invoked with 2000000000000000, [balance_of]
    is called with the test recipient and [get_gas_fee_rate] without
    arguments; no other function is requested. *)
Theorem test_token_functions_uses_the_bound_contract :
  forall a acct w, bound_requests a acct (fst (test_token_functions a acct w [])).
Proof.
  intros a acct w.
  destruct (TokenTestFacts.test_token_functions_bound a acct w []) as (s & H & _).
  eapply TokenTestFacts.test_sound; eauto.
Qed.

(** X12 on [happy]: the invocation of [mint] at position 3. *)
Lemma mint_goes_to_the_bound_contract_in_happy :
  exists i c,
    (i < 3)%nat /\
    nth_error (fst (test_token_functions 43981 (self_account session) happy [])) i
      = Some (EFromAddress (JInt 43981) (client (self_account session)) (Ret c)) /\
    43981 = contract_address c /\
    test_args "mint" = Some [JStr test_recipient; JInt (1000 * 10 ^ 18)] /\
    is_invocation "mint" = true.
Proof.
  apply (test_token_functions_uses_the_bound_contract 43981 (self_account session) happy
           3%nat
           (EInvoke 43981 "mint" [JStr test_recipient; JInt (1000 * 10 ^ 18)]
              100000000000000000 (Ret (mkSent 3))) 43981 "mint").
  - vm_compute. reflexivity.
  - reflexivity.
Defined.

(** X13.  What the outcome of [run_all_examples] says about the run,
    whatever the network answers.  When it returns, the invocations
    whose handle was waited for with success are exactly [transfer],
    [request_loan], [create_escrow] and [initiate_payment], in this
    order, and the line "All interactions completed successfully!" was
    printed.  When it raises, that line was not printed. *)
Theorem normal_return_means_all_operations_accepted :
  forall self w,
    match snd (run_all_examples self w []) with
    | Ret _ =>
        accepted_invocations (fst (run_all_examples self w [])) = operations /\
        printed success_line (fst (run_all_examples self w [])) = true
    | Raise _ => printed success_line (fst (run_all_examples self w [])) = false
    end.
Proof.
  intros self w.
  destruct (ProgressFacts.run_all_examples_progress self w []) as (s & Hrun & Hpost).
  pose proof (ProgressFacts.progress_accepted _ _ _ Hrun) as Hacc.
  pose proof (ProgressFacts.progress_printed _ _ _ Hrun) as Hpr.
  cbn [pending todo done orb] in Hacc, Hpr.
  destruct (snd (run_all_examples self w [])); unfold progress_post in Hpost.
  - destruct Hpost as [Ht Hd]. rewrite Ht, app_nil_r in Hacc.
    split; [exact Hacc | congruence].
  - congruence.
Qed.
